(** * Goal Mastery: the derived-view engine, the goal repository and the
      notification scanner of [App.tsx], embedded in Rocq.

    Numbers.  Every numeric field of the data model is integer valued:
    timestamps are milliseconds from [Date.now()], progress counters are
    produced by [parseInt] and by +1/-1 steps, [order] is an index.  They are
    modelled in [Z], which agrees with JavaScript arithmetic on safe integers.
    The progress percentage of a card is a rounded product of quotients: it
    is computed in binary64, as the program does ([renderGoalCard.progressPct],
    on the primitive floats of [Binary64]), and once more with the quotients
    taken in [Q] and rounded half up ([progressPct]), the reading in which
    its bounds and its monotonicity are proved.  The other quotients (the
    days left, the countdown, the rates of the dashboard) are taken in [Q]. *)

From Stdlib Require Import ZArith QArith Qround Qminmax Lia.
From Stdlib Require PrimFloat SpecFloat FloatOps.
From stdpp Require Import gmap strings list fin_maps sorting.

(* [0.0001] stands for the binary64 value nearest to it, as in the program. *)
#[local] Set Warnings "-inexact-float".

Close Scope Q_scope.
Local Open Scope Z_scope.

(** ** types.ts *)

Module GoalLevel.
Inductive t := EASY | MEDIUM | HARD.
#[global] Instance eq_dec : EqDecision t.
Proof. solve_decision. Defined.
End GoalLevel.

Module GoalPriority.
Inductive t := LOW | MEDIUM | HIGH.
#[global] Instance eq_dec : EqDecision t.
Proof. solve_decision. Defined.
End GoalPriority.

Record SubTask := mkSubTask {
  st_id : string;
  st_text : string;
  st_completed : bool;
  currentProgress : Z;
  targetProgress : Z;
  st_level : GoalLevel.t;
  st_priority : GoalPriority.t;
  st_deadline : option Z;
  tip : option string;
  deleted : bool
}.

Record Goal := mkGoal {
  id : string;
  title : string;
  description : string;
  level : GoalLevel.t;
  priority : GoalPriority.t;
  area : string;
  deadline : option Z;
  estimatedCost : Q;
  subTasks : list SubTask;
  completed : bool;
  createdAt : Z;
  completedAt : option Z;
  lastInteractionAt : Z;
  pinned : bool;
  order : Z;
  achievedMilestones : list Z;
  archived : bool
}.

(** ** JavaScript helpers *)

(** [x || 0] on a number: the falsy number [0] is replaced by [0]. *)
Definition orZero (x : Z) : Z := if x =? 0 then 0 else x.

(** Truthiness of an optional number ([undefined] and [0] are falsy). *)
Definition truthy (o : option Z) : bool :=
  match o with
  | Some x => negb (x =? 0)
  | None => false
  end.

(** [Math.round]: the nearest integer, halves towards +infinity. *)
Definition Math_round (x : Q) : Z := Qfloor (x + (1 # 2))%Q.

Definition day_ms : Z := 86400000.

(** ** Binary64: the Number type *)

Module Binary64.
Import PrimFloat.

(** The Number an integer is held as: the integer itself up to 2^53, the
    nearest binary64 value beyond. *)
Definition ofZ (z : Z) : float :=
  FloatOps.SF2Prim (SpecFloat.binary_normalize FloatOps.prec FloatOps.emax z 0 false).

(** [Math.round]: the integer nearest to the value the Number stands for,
    halves towards +infinity; a result of zero has the sign of the argument,
    and zeros, infinities and [NaN] are returned as they are.  A finite
    Number with a non-negative exponent is an integer already. *)
Definition Math_round (x : float) : float :=
  match FloatOps.Prim2SF x with
  | SpecFloat.S754_finite s m e =>
      if 0 <=? e then x
      else
        let value := ((if s then Z.neg m else Z.pos m) # 2 ^ Z.to_pos (- e))%Q in
        let nearest := Qfloor (value + (1 # 2))%Q in
        if nearest =? 0 then (if s then neg_zero else zero) else ofZ nearest
  | _ => x
  end.

(** [Math.max] and [Math.min] of two Numbers: [NaN] when either is, and +0
    above -0. *)
Definition Math_max (a b : float) : float :=
  if is_nan a || is_nan b then nan
  else if (a <? b)%float then b
  else if (b <? a)%float then a
  else if get_sign a then b else a.

Definition Math_min (a b : float) : float :=
  if is_nan a || is_nan b then nan
  else if (a <? b)%float then a
  else if (b <? a)%float then b
  else if get_sign a then a else b.

End Binary64.

(** ** renderGoalCard: the progress percentage *)

Definition activeSubTasks (goal : Goal) : list SubTask :=
  List.filter (fun t => negb (deleted t)) (subTasks goal).

Definition totalTarget (goal : Goal) : Z :=
  fold_left (fun acc t => acc + Z.max 1 (orZero (targetProgress t)))
            (activeSubTasks goal) 0.

Definition totalCurrent (goal : Goal) : Z :=
  fold_left (fun acc t => acc + orZero (currentProgress t))
            (activeSubTasks goal) 0.

(** The percentage as the card computes it.  The sums and the differences of
    timestamps are integers; the two quotients, the product and the rounding
    are binary64. *)
Module renderGoalCard.
Import PrimFloat.

Definition progressPct (now : Z) (goal : Goal) : float :=
  if completed goal then 100%float
  else if 0 <? totalTarget goal then
    let completionRatio :=
      (Binary64.ofZ (totalCurrent goal) / Binary64.ofZ (totalTarget goal))%float in
    if negb (truthy (deadline goal)) then
      Binary64.Math_round (completionRatio * 100)%float
    else
      let start := createdAt goal in
      let end_ := default 0 (deadline goal) in
      let totalDuration := Z.max 1 (end_ - start) in
      let elapsed := Z.max 1 (now - start) in
      let timeRatio :=
        Binary64.Math_max 0.0001%float
          (Binary64.Math_min 1%float
             (Binary64.ofZ elapsed / Binary64.ofZ totalDuration)%float) in
      Binary64.Math_round ((completionRatio / timeRatio) * 100)%float
  else 0%float.

End renderGoalCard.

(** The same percentage with the two quotients taken exactly and the product
    rounded half up.  It is the number the card shows wherever binary64
    holds the quotients exactly, and differs from it by the rounding of
    binary64 elsewhere (at 23 of 40 the card shows 57, the exact product is
    57.5 and rounds to 58).  The bounds and the monotonicity of the
    percentage are proved of this reading. *)
Definition progressPct (now : Z) (goal : Goal) : Z :=
  if completed goal then 100
  else if 0 <? totalTarget goal then
    let completionRatio := (inject_Z (totalCurrent goal) / inject_Z (totalTarget goal))%Q in
    if negb (truthy (deadline goal)) then
      Math_round (completionRatio * 100)%Q
    else
      let start := createdAt goal in
      let end_ := default 0 (deadline goal) in
      let totalDuration := Z.max 1 (end_ - start) in
      let elapsed := Z.max 1 (now - start) in
      let timeRatio :=
        Qmax (1 # 10000) (Qmin 1 (inject_Z elapsed / inject_Z totalDuration))%Q in
      Math_round ((completionRatio / timeRatio) * 100)%Q
  else 0.

Definition cappedProgressPct (now : Z) (goal : Goal) : Z :=
  Z.min 100 (progressPct now goal).

(** The progress percentage as the specification words it, its operations
    those of the Number type. *)
Module ProgressSpec.
Import PrimFloat.

Definition nonDeleted (goal : Goal) : list SubTask :=
  List.filter (fun t => negb (deleted t)) (subTasks goal).

Fixpoint sum (f : SubTask -> Z) (l : list SubTask) : Z :=
  match l with
  | [] => 0
  | t :: l' => f t + sum f l'
  end.

Definition completionRatio (goal : Goal) : float :=
  (Binary64.ofZ (sum currentProgress (nonDeleted goal))
   / Binary64.ofZ (sum (fun t => Z.max 1 (targetProgress t)) (nonDeleted goal)))%float.

Definition clamp (x lo hi : float) : float :=
  Binary64.Math_max lo (Binary64.Math_min hi x).

Definition timeRatio (now : Z) (goal : Goal) (d : Z) : float :=
  clamp (Binary64.ofZ (Z.max 1 (now - createdAt goal))
         / Binary64.ofZ (Z.max 1 (d - createdAt goal)))%float
        0.0001%float 1%float.

Definition progress (now : Z) (goal : Goal) : float :=
  match nonDeleted goal with
  | [] => 0%float
  | _ :: _ =>
      match deadline goal with
      | None => Binary64.Math_round (completionRatio goal * 100)%float
      | Some d =>
          Binary64.Math_round
            ((completionRatio goal / timeRatio now goal d) * 100)%float
      end
  end.

End ProgressSpec.

(** The goal of the worked example: created at [now], due ten days later,
    one sub-task with two of four check-ins done.  Five days later every
    intermediate value of its percentage (2/4, 5/10, their quotient 1, 100)
    is a number binary64 holds exactly. *)
Definition exampleSubTask : SubTask :=
  mkSubTask "s1" "step" false 2 4 GoalLevel.MEDIUM GoalPriority.MEDIUM None None false.

Definition exampleGoal (now : Z) : Goal :=
  mkGoal "g1" "goal" EmptyString GoalLevel.MEDIUM GoalPriority.MEDIUM "Others"
         (Some (now + 10 * day_ms)) 0%Q [exampleSubTask] false now None now
         false 0 [] false.

(** A goal with one sub-task at [cur] of [target] check-ins. *)
Definition cardGoal (created : Z) (due : option Z) (cur target : Z) : Goal :=
  mkGoal "g1" "goal" EmptyString GoalLevel.MEDIUM GoalPriority.MEDIUM "Others"
         due 0%Q
         [mkSubTask "s1" "step" false cur target GoalLevel.MEDIUM GoalPriority.MEDIUM
                    None None false]
         false created None created false 0 [] false.

(** ** Record updates ([{ ...g, field: v }]) *)

Definition withPinned (v : bool) (g : Goal) : Goal :=
  mkGoal (id g) (title g) (description g) (level g) (priority g) (area g)
         (deadline g) (estimatedCost g) (subTasks g) (completed g) (createdAt g)
         (completedAt g) (lastInteractionAt g) v (order g)
         (achievedMilestones g) (archived g).

Definition withArchived (v : bool) (g : Goal) : Goal :=
  mkGoal (id g) (title g) (description g) (level g) (priority g) (area g)
         (deadline g) (estimatedCost g) (subTasks g) (completed g) (createdAt g)
         (completedAt g) (lastInteractionAt g) (pinned g) (order g)
         (achievedMilestones g) v.

Definition withCompleted (v : bool) (g : Goal) : Goal :=
  mkGoal (id g) (title g) (description g) (level g) (priority g) (area g)
         (deadline g) (estimatedCost g) (subTasks g) v (createdAt g)
         (completedAt g) (lastInteractionAt g) (pinned g) (order g)
         (achievedMilestones g) (archived g).

Definition withCompletedAt (v : option Z) (g : Goal) : Goal :=
  mkGoal (id g) (title g) (description g) (level g) (priority g) (area g)
         (deadline g) (estimatedCost g) (subTasks g) (completed g) (createdAt g)
         v (lastInteractionAt g) (pinned g) (order g)
         (achievedMilestones g) (archived g).

Definition withLastInteractionAt (v : Z) (g : Goal) : Goal :=
  mkGoal (id g) (title g) (description g) (level g) (priority g) (area g)
         (deadline g) (estimatedCost g) (subTasks g) (completed g) (createdAt g)
         (completedAt g) v (pinned g) (order g)
         (achievedMilestones g) (archived g).

Definition withSubTasks (v : list SubTask) (g : Goal) : Goal :=
  mkGoal (id g) (title g) (description g) (level g) (priority g) (area g)
         (deadline g) (estimatedCost g) v (completed g) (createdAt g)
         (completedAt g) (lastInteractionAt g) (pinned g) (order g)
         (achievedMilestones g) (archived g).

Definition withProgress (cur : Z) (done : bool) (t : SubTask) : SubTask :=
  mkSubTask (st_id t) (st_text t) done cur (targetProgress t) (st_level t)
            (st_priority t) (st_deadline t) (tip t) (deleted t).

Definition withTargetProgress (v : Z) (t : SubTask) : SubTask :=
  mkSubTask (st_id t) (st_text t) (st_completed t) (currentProgress t) v
            (st_level t) (st_priority t) (st_deadline t) (tip t) (deleted t).

(** [Partial<Goal>]: every key may be absent.  The optional keys [deadline]
    and [completedAt] may also be present with the value [undefined]. *)
Record PartialGoal := mkPartialGoal {
  p_id : option string;
  p_title : option string;
  p_description : option string;
  p_level : option GoalLevel.t;
  p_priority : option GoalPriority.t;
  p_area : option string;
  p_deadline : option (option Z);
  p_estimatedCost : option Q;
  p_subTasks : option (list SubTask);
  p_completed : option bool;
  p_createdAt : option Z;
  p_completedAt : option (option Z);
  p_lastInteractionAt : option Z;
  p_pinned : option bool;
  p_order : option Z;
  p_achievedMilestones : option (list Z);
  p_archived : option bool
}.

(** [{ ...g, ...updatedData }] *)
Definition spread (g : Goal) (u : PartialGoal) : Goal :=
  mkGoal (default (id g) (p_id u)) (default (title g) (p_title u))
         (default (description g) (p_description u))
         (default (level g) (p_level u)) (default (priority g) (p_priority u))
         (default (area g) (p_area u)) (default (deadline g) (p_deadline u))
         (default (estimatedCost g) (p_estimatedCost u))
         (default (subTasks g) (p_subTasks u))
         (default (completed g) (p_completed u))
         (default (createdAt g) (p_createdAt u))
         (default (completedAt g) (p_completedAt u))
         (default (lastInteractionAt g) (p_lastInteractionAt u))
         (default (pinned g) (p_pinned u)) (default (order g) (p_order u))
         (default (achievedMilestones g) (p_achievedMilestones u))
         (default (archived g) (p_archived u)).

(** ** The goal repository (the [setGoals] updaters of [App.tsx]).
    [now] is the value of [Date.now()], as the handler reads it. *)

Definition handleUpdateGoal (now : Z) (i : string) (updatedData : PartialGoal)
    (prev : list Goal) : list Goal :=
  map (fun g => if String.eqb (id g) i
                then withLastInteractionAt now (spread g updatedData)
                else g) prev.

Definition handleTogglePinned (now : Z) (i : string) (prev : list Goal) : list Goal :=
  map (fun g => if String.eqb (id g) i
                then withLastInteractionAt now (withPinned (negb (pinned g)) g)
                else g) prev.

Definition handleDeleteGoal (confirmed : bool) (i : string) (prev : list Goal) : list Goal :=
  if confirmed then List.filter (fun g => negb (String.eqb (id g) i)) prev else prev.

Definition handleToggleArchive (now : Z) (i : string) (prev : list Goal) : list Goal :=
  map (fun g => if String.eqb (id g) i
                then withLastInteractionAt now (withArchived (negb (archived g)) g)
                else g) prev.

Definition toggleComplete (now : Z) (g : Goal) : Goal :=
  let nextState := negb (completed g) in
  withLastInteractionAt now
    (withCompletedAt (if nextState then Some now else None)
       (withArchived (if nextState then true else false)
          (withCompleted nextState g))).

Definition handleToggleComplete (now : Z) (i : string) (prev : list Goal) : list Goal :=
  map (fun g => if String.eqb (id g) i then toggleComplete now g else g) prev.

Definition toggleSubTask (t : SubTask) : SubTask :=
  let nextCompleted := negb (st_completed t) in
  let target := Z.max 1 (orZero (targetProgress t)) in
  withProgress (if nextCompleted then target else 0) nextCompleted t.

Definition handleToggleSubTask (now : Z) (goalId subTaskId : string)
    (prev : list Goal) : list Goal :=
  map (fun g =>
         if String.eqb (id g) goalId then
           let updatedSubTasks :=
             map (fun t => if String.eqb (st_id t) subTaskId
                           then toggleSubTask t else t) (subTasks g) in
           withLastInteractionAt now (withSubTasks updatedSubTasks g)
         else g) prev.

Definition subTaskProgress (delta : Z) (t : SubTask) : SubTask :=
  let target := Z.max 1 (orZero (targetProgress t)) in
  let nextProgress := Z.max 0 (Z.min target (currentProgress t + delta)) in
  withProgress nextProgress (target <=? nextProgress) t.

Definition handleSubTaskProgress (now : Z) (goalId subTaskId : string) (delta : Z)
    (prev : list Goal) : list Goal :=
  map (fun g =>
         if String.eqb (id g) goalId then
           let updatedSubTasks :=
             map (fun t => if String.eqb (st_id t) subTaskId
                           then subTaskProgress delta t else t) (subTasks g) in
           withLastInteractionAt now (withSubTasks updatedSubTasks g)
         else g) prev.

(** The part of the application state the repository handlers touch. *)
Record AppState := mkAppState {
  goals : list Goal;
  userCategories : list string;
  archivedCategories : list string;
  areaOrder : list string
}.

Definition setGoals (f : list Goal -> list Goal) (s : AppState) : AppState :=
  mkAppState (f (goals s)) (userCategories s) (archivedCategories s) (areaOrder s).

(** [confirmed] is the answer of the [confirm] dialog. *)
Definition handleArchiveCategory (confirmed : bool) (a : string) (s : AppState) : AppState :=
  if confirmed then
    mkAppState
      (map (fun g => if String.eqb (area g) a then withArchived true g else g) (goals s))
      (List.filter (fun c => negb (String.eqb c a)) (userCategories s))
      (archivedCategories s ++ [a])
      (List.filter (fun c => negb (String.eqb c a)) (areaOrder s))
  else s.

(** The payload [GoalForm] submits ([goalData] with [subTasks]). *)
Record GoalData := mkGoalData {
  d_title : string;
  d_description : string;
  d_level : GoalLevel.t;
  d_priority : GoalPriority.t;
  d_area : string;
  d_deadline : option Z;
  d_estimatedCost : Q;
  d_pinned : bool;
  d_lastInteractionAt : Z;
  d_order : Z;
  d_subTasks : list SubTask
}.

(** [{ id: crypto.randomUUID(), ...t, completed: ..., currentProgress: ...,
    deleted: false }]: every sub-task of the form carries its own [id], which
    the spread puts over the fresh one. *)
Definition newSubTask (t : SubTask) : SubTask :=
  mkSubTask (st_id t) (st_text t)
            (if 0 <? targetProgress t
             then targetProgress t <=? currentProgress t
             else st_completed t)
            (orZero (currentProgress t)) (targetProgress t) (st_level t)
            (st_priority t) (st_deadline t) (tip t) false.

(** [uuid] is the value of [crypto.randomUUID()]; [goals.length] is read from
    the collection the new goal is put in front of.  The clock is read
    twice: [now] is the value of [Date.now()] that becomes [createdAt],
    [later] the one that becomes [lastInteractionAt]. *)
Definition handleAddGoal (now later : Z) (uuid : string) (goalData : GoalData)
    (prev : list Goal) : list Goal :=
  let newGoal :=
    mkGoal uuid (d_title goalData) (d_description goalData) (d_level goalData)
           (d_priority goalData) (d_area goalData) (d_deadline goalData)
           (d_estimatedCost goalData) (map newSubTask (d_subTasks goalData))
           false now None later (d_pinned goalData) (Z.of_nat (length prev)) []
           false in
  newGoal :: prev.

(** ** GoalForm.tsx *)

(** Strings are held in UTF-8.  [String.prototype.trim] strips the
    [WhiteSpace] and [LineTerminator] code points of ECMAScript: the six of
    the ASCII range (U+0009 to U+000D and U+0020), which are one byte each,
    U+00A0, which is two bytes, and U+1680, U+2000 to U+200A, U+2028,
    U+2029, U+202F, U+205F, U+3000 and U+FEFF, which are three. *)
Definition isWhiteSpace (c : Ascii.ascii) : bool :=
  let n := Ascii.nat_of_ascii c in
  ((9 <=? n)%nat && (n <=? 13)%nat) || (n =? 32)%nat.

Definition isWhiteSpace2 (c1 c2 : Ascii.ascii) : bool :=
  (Ascii.nat_of_ascii c1 =? 194)%nat && (Ascii.nat_of_ascii c2 =? 160)%nat.

Definition isWhiteSpace3 (c1 c2 c3 : Ascii.ascii) : bool :=
  let n1 := Ascii.nat_of_ascii c1 in
  let n2 := Ascii.nat_of_ascii c2 in
  let n3 := Ascii.nat_of_ascii c3 in
  ((n1 =? 225) && (n2 =? 154) && (n3 =? 128))%nat
  || ((n1 =? 226) && (n2 =? 128)
      && (((128 <=? n3) && (n3 <=? 138)) || (n3 =? 168) || (n3 =? 169) || (n3 =? 175)))%nat
  || ((n1 =? 226) && (n2 =? 129) && (n3 =? 159))%nat
  || ((n1 =? 227) && (n2 =? 128) && (n3 =? 128))%nat
  || ((n1 =? 239) && (n2 =? 187) && (n3 =? 191))%nat.

Fixpoint trimStart (s : string) : string :=
  match s with
  | String c1 s1 =>
      if isWhiteSpace c1 then trimStart s1
      else
        match s1 with
        | String c2 s2 =>
            if isWhiteSpace2 c1 c2 then trimStart s2
            else
              match s2 with
              | String c3 s3 => if isWhiteSpace3 c1 c2 c3 then trimStart s3 else s
              | EmptyString => s
              end
        | EmptyString => s
        end
  | EmptyString => EmptyString
  end.

Definition nonEmpty (s : string) : bool :=
  match s with
  | EmptyString => false
  | String _ _ => true
  end.

(** A byte is kept as long as something other than white space follows or
    starts at it. *)
Fixpoint trimEnd (s : string) : string :=
  match s with
  | String c s' =>
      if nonEmpty (trimStart (String c s')) then String c (trimEnd s') else EmptyString
  | EmptyString => EmptyString
  end.

(** [String.prototype.trim] *)
Definition trim (s : string) : string := trimEnd (trimStart s).

Inductive InitialData :=
| FullGoal (g : Goal)
| AreaOnly (a : string).

(** The state of the form.  The date input is kept as the timestamp
    [new Date(deadline).getTime()] reads from it, [None] for the empty input. *)
Record GoalFormState := mkGoalFormState {
  f_title : string;
  f_description : string;
  f_level : GoalLevel.t;
  f_priority : GoalPriority.t;
  f_area : string;
  f_deadline : option Z;
  f_cost : Q;
  f_pinned : bool;
  f_subTasks : list SubTask;
  f_initialData : option InitialData
}.

Definition orElse (s d : string) : string := if nonEmpty s then s else d.

Definition GoalForm_init (initialData : option InitialData) (categories : list string)
    : GoalFormState :=
  match initialData with
  | Some (FullGoal g) =>
      mkGoalFormState (title g) (description g) (level g) (priority g)
        (orElse (area g) (default EmptyString (head categories)))
        (if truthy (deadline g)
         then Some (default 0 (deadline g) / day_ms * day_ms) else None)
        (estimatedCost g) (pinned g) (subTasks g) initialData
  | Some (AreaOnly a) =>
      mkGoalFormState EmptyString EmptyString GoalLevel.MEDIUM GoalPriority.MEDIUM
        (orElse a (default EmptyString (head categories)))
        None 0%Q false [] initialData
  | None =>
      mkGoalFormState EmptyString EmptyString GoalLevel.MEDIUM GoalPriority.MEDIUM
        (default EmptyString (head categories)) None 0%Q false [] initialData
  end.

Definition withFormSubTasks (v : list SubTask) (f : GoalFormState) : GoalFormState :=
  mkGoalFormState (f_title f) (f_description f) (f_level f) (f_priority f)
    (f_area f) (f_deadline f) (f_cost f) (f_pinned f) v (f_initialData f).

(** The [field]/[value] pairs the inputs of a step pass to
    [handleSubTaskChange]. *)
Inductive SubTaskField :=
| FieldText (v : string)
| FieldTargetProgress (v : Z)
| FieldPriority (v : GoalPriority.t)
| FieldLevel (v : GoalLevel.t)
| FieldDeadline (v : option Z).

Definition setField (fv : SubTaskField) (t : SubTask) : SubTask :=
  match fv with
  | FieldText v =>
      mkSubTask (st_id t) v (st_completed t) (currentProgress t) (targetProgress t)
                (st_level t) (st_priority t) (st_deadline t) (tip t) (deleted t)
  | FieldTargetProgress v => withTargetProgress v t
  | FieldPriority v =>
      mkSubTask (st_id t) (st_text t) (st_completed t) (currentProgress t)
                (targetProgress t) (st_level t) v (st_deadline t) (tip t) (deleted t)
  | FieldLevel v =>
      mkSubTask (st_id t) (st_text t) (st_completed t) (currentProgress t)
                (targetProgress t) v (st_priority t) (st_deadline t) (tip t) (deleted t)
  | FieldDeadline v =>
      mkSubTask (st_id t) (st_text t) (st_completed t) (currentProgress t)
                (targetProgress t) (st_level t) (st_priority t) v (tip t) (deleted t)
  end.

Definition handleSubTaskChange (i : string) (fv : SubTaskField) (f : GoalFormState)
    : GoalFormState :=
  withFormSubTasks
    (map (fun task => if String.eqb (st_id task) i then setField fv task else task)
         (f_subTasks f)) f.

Definition handleRemoveSubTask (i : string) (f : GoalFormState) : GoalFormState :=
  withFormSubTasks
    (List.filter (fun task => negb (String.eqb (st_id task) i)) (f_subTasks f)) f.

(** What [handleSubmit] calls: [onUpdate] or [onAdd]. *)
Inductive Submission :=
| OnUpdate (goalId : string) (updatedData : PartialGoal)
| OnAdd (goalData : GoalData).

Definition handleSubmit (now : Z) (f : GoalFormState) : Submission :=
  let order0 :=
    match f_initialData f with
    | Some (FullGoal g) => order g
    | _ => 0
    end in
  let kept := List.filter (fun t => nonEmpty (trim (st_text t))) (f_subTasks f) in
  match f_initialData f with
  | Some (FullGoal g) =>
      if nonEmpty (id g) then
        OnUpdate (id g)
          (mkPartialGoal None (Some (f_title f)) (Some (f_description f))
             (Some (f_level f)) (Some (f_priority f)) (Some (f_area f))
             (Some (f_deadline f)) (Some (f_cost f)) (Some kept) None None None
             (Some now) (Some (f_pinned f)) (Some order0) None None)
      else
        OnAdd (mkGoalData (f_title f) (f_description f) (f_level f) (f_priority f)
                 (f_area f) (f_deadline f) (f_cost f) (f_pinned f) now order0 kept)
  | _ =>
      OnAdd (mkGoalData (f_title f) (f_description f) (f_level f) (f_priority f)
               (f_area f) (f_deadline f) (f_cost f) (f_pinned f) now order0 kept)
  end.

(** ** The user's operations on the repository *)

(** A submitted form reads the clock in [handleSubmit] ([submitted]), and the
    handler it calls reads it again: [handleUpdateGoal] once ([now]),
    [handleAddGoal] twice ([now] and [later]). *)
Inductive Op :=
| SubmitForm (submitted now later : Z) (uuid : string) (f : GoalFormState)
| TogglePinned (now : Z) (i : string)
| DeleteGoal (confirmed : bool) (i : string)
| ToggleArchive (now : Z) (i : string)
| ArchiveCategory (confirmed : bool) (a : string)
| ToggleComplete (now : Z) (i : string)
| ToggleSubTask (now : Z) (goalId subTaskId : string)
| SubTaskProgress (now : Z) (goalId subTaskId : string) (delta : Z).

Definition step (op : Op) (s : AppState) : AppState :=
  match op with
  | SubmitForm submitted now later uuid f =>
      match handleSubmit submitted f with
      | OnUpdate i u => setGoals (handleUpdateGoal now i u) s
      | OnAdd d => setGoals (handleAddGoal now later uuid d) s
      end
  | TogglePinned now i => setGoals (handleTogglePinned now i) s
  | DeleteGoal c i => setGoals (handleDeleteGoal c i) s
  | ToggleArchive now i => setGoals (handleToggleArchive now i) s
  | ArchiveCategory c a => handleArchiveCategory c a s
  | ToggleComplete now i => setGoals (handleToggleComplete now i) s
  | ToggleSubTask now gi si => setGoals (handleToggleSubTask now gi si) s
  | SubTaskProgress now gi si delta => setGoals (handleSubTaskProgress now gi si delta) s
  end.

Definition run (ops : list Op) (s : AppState) : AppState :=
  fold_left (fun s op => step op s) ops s.

(** The state before the first goal is created. *)
Definition initialState (categories : list string) : AppState :=
  mkAppState [] categories [] categories.

Definition reachable (s : AppState) : Prop :=
  exists categories ops, s = run ops (initialState categories).

(** ** The derived view: activeGoalsByArea *)

(** The numbers a comparator can return: differences of timestamps and
    scores, and what [Infinity] makes of them. *)
Inductive number :=
| Num (z : Z)
| Infinity
| NegInfinity
| NaN.

(** [x - y] *)
Definition minus (x y : number) : number :=
  match x, y with
  | Num a, Num b => Num (a - b)
  | Num _, Infinity => NegInfinity
  | Num _, NegInfinity => Infinity
  | Infinity, Infinity => NaN
  | Infinity, _ => Infinity
  | NegInfinity, NegInfinity => NaN
  | NegInfinity, _ => NegInfinity
  | NaN, _ => NaN
  | _, NaN => NaN
  end.

(** [v > 0], the only thing a sort reads from a comparator's result besides
    [v < 0]; [NaN] counts as [+0]. *)
Definition isPositive (v : number) : bool :=
  match v with
  | Num z => 0 <? z
  | Infinity => true
  | NegInfinity | NaN => false
  end.

Definition isNegative (v : number) : bool :=
  match v with
  | Num z => z <? 0
  | NegInfinity => true
  | Infinity | NaN => false
  end.

(** [Array.prototype.sort] is stable; with a consistent comparator its result
    is the one arrangement that is ordered and keeps equal elements in their
    original order.  That arrangement is computed by insertion: an element
    goes behind exactly the later ones it compares greater than. *)
Section ArraySort.
Context {A : Type} (comparefn : A -> A -> number).

Fixpoint sortInsert (x : A) (l : list A) : list A :=
  match l with
  | [] => [x]
  | y :: l' => if isPositive (comparefn x y) then y :: sortInsert x l' else x :: l
  end.

Fixpoint Array_sort (l : list A) : list A :=
  match l with
  | [] => []
  | x :: l' => sortInsert x (Array_sort l')
  end.
End ArraySort.

(** [SortOption]: the labels of the five sort buttons.  [sortBy] is of this
    type; the comparator tests it against the first four. *)
Inductive SortOption := Newest | Priority | Difficulty | Deadline | Reset.

Inductive Status := Completed | Active.

(** [activeSort]: [{ type, value }] *)
Inductive ActiveSort :=
| ByDifficulty (value : GoalLevel.t)
| ByPriority (value : GoalPriority.t)
| ByStatus (value : Status)
| ByArea (value : string).

Definition toLowerChar (c : Ascii.ascii) : Ascii.ascii :=
  let n := Ascii.nat_of_ascii c in
  if ((65 <=? n)%nat && (n <=? 90)%nat) then Ascii.ascii_of_nat (n + 32) else c.

(** [String.prototype.toLowerCase], on the letters of the ASCII range. *)
Fixpoint toLowerCase (s : string) : string :=
  match s with
  | String c s' => String (toLowerChar c) (toLowerCase s')
  | EmptyString => EmptyString
  end.

(** [s.includes(q)] *)
Fixpoint includes (s q : string) : bool :=
  String.prefix q s ||
  match s with
  | String _ s' => includes s' q
  | EmptyString => false
  end.

Definition matchesQuery (searchQuery : string) (goal : Goal) : bool :=
  negb (nonEmpty searchQuery)
  || includes (toLowerCase (title goal)) (toLowerCase searchQuery)
  || includes (toLowerCase (description goal)) (toLowerCase searchQuery).

Definition priorityScore (p : GoalPriority.t) : Z :=
  match p with
  | GoalPriority.HIGH => 3
  | GoalPriority.MEDIUM => 2
  | GoalPriority.LOW => 1
  end.

Definition difficultyScore (d : GoalLevel.t) : Z :=
  match d with
  | GoalLevel.HARD => 3
  | GoalLevel.MEDIUM => 2
  | GoalLevel.EASY => 1
  end.

(** [matchA], [matchB] *)
Definition matchesFilter (f : ActiveSort) (g : Goal) : bool :=
  match f with
  | ByDifficulty value => bool_decide (level g = value)
  | ByPriority value => bool_decide (priority g = value)
  | ByStatus value =>
      Bool.eqb (completed g) (match value with Completed => true | Active => false end)
  | ByArea value => String.eqb (area g) value
  end.

(** [g.deadline || Infinity] *)
Definition orInfinity (o : option Z) : number :=
  match o with
  | Some d => if d =? 0 then Infinity else Num d
  | None => Infinity
  end.

Definition compareBySort (sortBy : SortOption) (a b : Goal) : number :=
  match sortBy with
  | Newest => Num (createdAt b - createdAt a)
  | Priority => Num (priorityScore (priority b) - priorityScore (priority a))
  | Difficulty => Num (difficultyScore (level b) - difficultyScore (level a))
  | Deadline => minus (orInfinity (deadline a)) (orInfinity (deadline b))
  | Reset =>
      if negb (Bool.eqb (completed a) (completed b)) then
        (if completed a then Num 1 else Num (-1))
      else if negb (Bool.eqb (pinned a) (pinned b)) then
        (if pinned a then Num (-1) else Num 1)
      else Num (order a - order b)
  end.

(** The comparator handed to [grouped[area].sort]. *)
Definition compareGoals (activeSort : option ActiveSort) (sortBy : SortOption)
    (a b : Goal) : number :=
  match activeSort with
  | Some f =>
      let matchA := matchesFilter f a in
      let matchB := matchesFilter f b in
      if negb (Bool.eqb matchA matchB) then (if matchA then Num (-1) else Num 1)
      else compareBySort sortBy a b
  | None => compareBySort sortBy a b
  end.

(** What a call gives: the value it returns, or nothing when it throws. *)
Inductive Outcome (A : Type) :=
| Returned (value : A)
| Thrown.
Arguments Returned {A} value.
Arguments Thrown {A}.

(** [l.forEach(callback)], with the state the callback works on passed
    along; an exception of the callback ends the loop. *)
Fixpoint forEach {A S : Type} (callback : S -> A -> Outcome S) (l : list A) (s : S)
    : Outcome S :=
  match l with
  | [] => Returned s
  | x :: l' =>
      match callback s x with
      | Returned s' => forEach callback l' s'
      | Thrown => Thrown
      end
  end.

(** The property names an object literal inherits from [Object.prototype].
    [grouped] is such an object: for an area it has no bucket for,
    [grouped[area]] is [undefined] unless the area is one of these names, for
    which it is a function (the prototype itself for [__proto__]), truthy and
    without a [push]. *)
Definition Object_prototype : list string :=
  ["constructor"; "hasOwnProperty"; "isPrototypeOf"; "propertyIsEnumerable";
   "toLocaleString"; "toString"; "valueOf"; "__proto__"; "__defineGetter__";
   "__defineSetter__"; "__lookupGetter__"; "__lookupSetter__"]%string.

Definition inherited (key : string) : bool := bool_decide (key ∈ Object_prototype).

(** [if (grouped[goal.area]) grouped[goal.area].push(goal)], behind the test
    on the query: the goal goes to the bucket of its area, is passed over
    when the area has no bucket, and the call of [push] is a [TypeError]
    when [grouped[goal.area]] is inherited. *)
Definition pushGoal (searchQuery : string) (grouped : gmap string (list Goal))
    (goal : Goal) : Outcome (gmap string (list Goal)) :=
  if matchesQuery searchQuery goal then
    match grouped !! area goal with
    | Some bucket => Returned (<[area goal := bucket ++ [goal]]> grouped)
    | None => if inherited (area goal) then Thrown else Returned grouped
    end
  else Returned grouped.

Definition activeGoalsByArea (goals : list Goal) (searchQuery : string)
    (activeSort : option ActiveSort) (sortBy : SortOption) (areaOrder : list string)
    : Outcome (gmap string (list Goal)) :=
  let empty : gmap string (list Goal) :=
    fold_left (fun acc a => <[a := []]> acc) areaOrder ∅ in
  match forEach (pushGoal searchQuery)
                (List.filter (fun g => negb (archived g)) goals) empty with
  | Returned grouped =>
      Returned (Array_sort (compareGoals activeSort sortBy) <$> grouped)
  | Thrown => Thrown
  end.

(** ** The controls of the grouped view: the search box, the sort buttons
    and the filters the dashboard sets *)
Module Controls.

Record State := mkState {
  searchQuery : string;
  sortBy : SortOption;
  activeSort : option ActiveSort
}.

(** [useState('')], [useState<SortOption>('Newest')], [useState(null)] *)
Definition initial : State := mkState EmptyString Newest None.

Definition handleResetFilters (s : State) : State := mkState EmptyString Newest None.

Inductive Event :=
| Search (text : string)
| SortButton (option : SortOption)
| DifficultyClick (level : GoalLevel.t)
| AreaClick (area : string)
| StatusClick (status : Status)
| PriorityClick (priority : GoalPriority.t).

(** The sort buttons: [option === 'Reset' ? handleResetFilters() :
    setSortBy(option)]. *)
Definition handle (e : Event) (s : State) : State :=
  match e with
  | Search text => mkState text (sortBy s) (activeSort s)
  | SortButton Reset => handleResetFilters s
  | SortButton option => mkState (searchQuery s) option (activeSort s)
  | DifficultyClick level =>
      mkState (searchQuery s) (sortBy s) (Some (ByDifficulty level))
  | AreaClick area => mkState (searchQuery s) (sortBy s) (Some (ByArea area))
  | StatusClick status => mkState (searchQuery s) (sortBy s) (Some (ByStatus status))
  | PriorityClick priority =>
      mkState (searchQuery s) (sortBy s) (Some (ByPriority priority))
  end.

Definition run (events : list Event) : State :=
  fold_left (fun s e => handle e s) events initial.

End Controls.


Definition archivedGoals (goals : list Goal) : list Goal :=
  Array_sort (fun a b => Num (orZero (default 0 (completedAt b))
                              - orZero (default 0 (completedAt a))))
             (List.filter archived goals).

(** ** The notification scanner: checkSystems *)

Inductive NotificationType := nudge | deadlineAlert.

#[global] Instance NotificationType_eq_dec : EqDecision NotificationType.
Proof. solve_decision. Defined.

Record AppNotification := mkNotification {
  n_id : string;
  n_type : NotificationType;
  n_title : string;
  n_message : string;
  n_timestamp : Z
}.

(** What awaiting a promise gives: its value, or the rejection thrown at the
    [await]. *)
Inductive Awaited (A : Type) :=
| Resolved (value : A)
| Rejected.
Arguments Resolved {A} value.
Arguments Rejected {A}.

(** geminiService.ts: [reply] is what awaiting [ai.models.generateContent]
    gives, the [text] of the response or a rejection. *)
Definition getFriendlyNudge (reply : Awaited (option string)) : Awaited string :=
  match reply with
  | Resolved text => Resolved (trim (default EmptyString text))
  | Rejected => Rejected
  end.

Definition quote : string := String (Ascii.ascii_of_nat 34) EmptyString.

Definition deadlineMessage (g : Goal) : string :=
  ("Your goal " ++ quote ++ title g ++ quote
   ++ " ends soon. Take a small step today!")%string.

Definition deadlineNotification (now : Z) (g : Goal) : AppNotification :=
  mkNotification ("deadline-" ++ id g)%string deadlineAlert
                 "Deadline approaching" (deadlineMessage g) now.

(** The body of [goals.forEach] in [checkSystems]. *)
Definition pushDeadlineAlert (now : Z) (newAlerts : list AppNotification) (g : Goal)
    : list AppNotification :=
  if negb (completed g) && negb (archived g) && truthy (deadline g) then
    let daysLeft := (inject_Z (default 0%Z (deadline g) - now) / inject_Z day_ms)%Q in
    if negb (Qle_bool daysLeft 0) && Qle_bool daysLeft 3 then
      newAlerts ++ [deadlineNotification now g]
    else newAlerts
  else newAlerts.

Definition fourDaysMs : Z := 4 * 24 * 60 * 60 * 1000.

Definition neglectedGoal (goals : list Goal) : option Goal :=
  head (Array_sort (fun a b => Num (lastInteractionAt a - lastInteractionAt b))
          (List.filter (fun g => negb (completed g) && negb (archived g)) goals)).

(** The alerts one scan collects.  [ai goalTitle area] is what the advisory
    service answers to the nudge prompt; a rejection leaves [checkSystems] at
    the [await]. *)
Definition collectAlerts (ai : string -> string -> Awaited (option string))
    (now : Z) (goals : list Goal) : Awaited (list AppNotification) :=
  let newAlerts := fold_left (pushDeadlineAlert now) goals [] in
  match neglectedGoal goals with
  | Some g =>
      if fourDaysMs <? now - lastInteractionAt g then
        match getFriendlyNudge (ai (title g) (area g)) with
        | Resolved nudgeMessage =>
            Resolved (newAlerts ++ [mkNotification ("nudge-" ++ id g)%string nudge
                                      "A gentle nudge" nudgeMessage now])
        | Rejected => Rejected
        end
      else Resolved newAlerts
  | None => Resolved newAlerts
  end.

Record Notifications := mkNotifications {
  notifications : list AppNotification;
  activeToast : option AppNotification
}.

(** The updater handed to [setNotifications], with the toast it sets. *)
Definition appendFresh (newAlerts : list AppNotification) (st : Notifications)
    : Notifications :=
  let prev := notifications st in
  let fresh :=
    List.filter (fun a => negb (existsb (fun p => String.eqb (n_id p) (n_id a)) prev))
                newAlerts in
  mkNotifications (fresh ++ prev)
                  (match fresh with
                   | a :: _ => Some a
                   | [] => activeToast st
                   end).

(** One run of [checkSystems]: the notification state afterwards, or the
    rejection of the promise it returns (which leaves the state as it was). *)
Definition checkSystems (ai : string -> string -> Awaited (option string))
    (now : Z) (goals : list Goal) (st : Notifications) : Awaited Notifications :=
  match collectAlerts ai now goals with
  | Resolved newAlerts =>
      if (0 <? length newAlerts)%nat then Resolved (appendFresh newAlerts st)
      else Resolved st
  | Rejected => Rejected
  end.

(** The notification state once the scan has run, whichever way it ended. *)
Definition afterScan (ai : string -> string -> Awaited (option string))
    (now : Z) (goals : list Goal) (st : Notifications) : Notifications :=
  match checkSystems ai now goals st with
  | Resolved st' => st'
  | Rejected => st
  end.

(** ** Comparators *)

(** [a] may stand before [b]: the comparator does not put [b] first. *)
Definition notAfter {A : Type} (comparefn : A -> A -> number) (a b : A) : Prop :=
  isPositive (comparefn a b) = false.

(** A consistent comparator, as the contract of [Array.prototype.sort] asks. *)
Record Consistent {A : Type} (comparefn : A -> A -> number) : Prop := {
  consistent_asym :
    forall a b, isPositive (comparefn a b) = true -> isPositive (comparefn b a) = false;
  consistent_trans :
    forall a b c, notAfter comparefn a b -> notAfter comparefn b c ->
                  notAfter comparefn a c
}.

(** ** Sample data *)

Definition sampleGoal (i a : string) (p : GoalPriority.t) (created : Z)
    (pin : bool) (ord : Z) : Goal :=
  mkGoal i i EmptyString GoalLevel.MEDIUM p a None 0%Q [] false created None
         created pin ord [] false.

(** An older goal of high priority and a newer one of low priority. *)
Definition urgentGoal : Goal :=
  sampleGoal "urgent" "Health & Wellness" GoalPriority.HIGH 1000 false 0.
Definition recentGoal : Goal :=
  sampleGoal "recent" "Health & Wellness" GoalPriority.LOW 2000 false 1.


(** ** Sub-task operations, one sub-task at a time *)

(** The two things the card does to a sub-task: the check box
    ([handleToggleSubTask]) and the +/- buttons ([handleSubTaskProgress]). *)
Inductive SubTaskOp :=
| Toggle
| Progress (delta : Z).

Definition applySubTaskOp (t : SubTask) (op : SubTaskOp) : SubTask :=
  match op with
  | Toggle => toggleSubTask t
  | Progress delta => subTaskProgress delta t
  end.

Definition runSubTaskOps (ops : list SubTaskOp) (t : SubTask) : SubTask :=
  fold_left applySubTaskOp ops t.

(** [completed] exactly when the progress has reached the target. *)
Definition completedIffReached (t : SubTask) : Prop :=
  st_completed t = true <-> Z.max 1 (targetProgress t) <= currentProgress t.

(** A goal whose category is archived. *)
Definition categoryState : AppState :=
  mkAppState [urgentGoal] ["Health & Wellness"] [] ["Health & Wellness"].

(** ** A goal edited after its progress was made *)

Definition fiveCheckIns : SubTask :=
  mkSubTask "s1" "run" false 0 5 GoalLevel.MEDIUM GoalPriority.MEDIUM None None false.

Definition newGoalForm : GoalFormState :=
  mkGoalFormState "Marathon" EmptyString GoalLevel.MEDIUM GoalPriority.MEDIUM
    "Health & Wellness" None 0%Q false [fiveCheckIns] None.

(** The form opened from the header of an area ([{ area }] as its initial
    data), with a title typed in and one step. *)
Definition areaGoalForm : GoalFormState :=
  let f := GoalForm_init (Some (AreaOnly "Health & Wellness")) ["Others"] in
  mkGoalFormState "Marathon" (f_description f) (f_level f) (f_priority f)
    (f_area f) (f_deadline f) (f_cost f) (f_pinned f) [fiveCheckIns]
    (f_initialData f).

(** The goal is created and its step is checked in five times. *)
Definition progressMade : AppState :=
  run [SubmitForm 1000 1000 1000 "g1" newGoalForm;
       SubTaskProgress 2000 "g1" "s1" 1; SubTaskProgress 2001 "g1" "s1" 1;
       SubTaskProgress 2002 "g1" "s1" 1; SubTaskProgress 2003 "g1" "s1" 1;
       SubTaskProgress 2004 "g1" "s1" 1]
      (initialState ["Health & Wellness"]).

(** The form is opened on that goal and the check-ins are lowered to 2. *)
Definition loweredTargetForm : GoalFormState :=
  match goals progressMade with
  | g :: _ =>
      handleSubTaskChange "s1" (FieldTargetProgress 2)
        (GoalForm_init (Some (FullGoal g)) ["Health & Wellness"])
  | [] => newGoalForm
  end.

Definition targetLowered : AppState :=
  step (SubmitForm 3000 3000 3000 "unused" loweredTargetForm) progressMade.

(** ** Completion and the archive *)

(** A completed goal is taken out of the archive again by the archive
    button. *)
Definition completedThenUnarchived : AppState :=
  run [SubmitForm 1000 1000 1000 "g1" newGoalForm; ToggleComplete 2000 "g1";
       ToggleArchive 3000 "g1"]
      (initialState ["Health & Wellness"]).

(** The operation is the archive button pressed on a completed, archived
    goal. *)
Definition unarchivesCompleted (op : Op) (s : AppState) : bool :=
  match op with
  | ToggleArchive _ i =>
      existsb (fun g => String.eqb (id g) i && completed g && archived g) (goals s)
  | _ => false
  end.

(** No operation of the sequence, run from [s], is of that kind. *)
Fixpoint keepsCompletedArchived (ops : list Op) (s : AppState) : bool :=
  match ops with
  | [] => true
  | op :: ops' =>
      negb (unarchivesCompleted op s) && keepsCompletedArchived ops' (step op s)
  end.

(** ** Scans *)

(** The alerts a scan hands to [setNotifications]: none when it was left at
    the [await]. *)
Definition emittedAlerts (ai : string -> string -> Awaited (option string))
    (now : Z) (goals : list Goal) : list AppNotification :=
  match collectAlerts ai now goals with
  | Resolved newAlerts => newAlerts
  | Rejected => []
  end.

(** The days left to the deadline [d], as [checkSystems] computes them. *)
Definition daysLeftAt (now d : Z) : Q := (inject_Z (d - now) / inject_Z day_ms)%Q.

(** Some notification of the list carries the key. *)
Definition keyed (alerts : list AppNotification) (key : string) : Prop :=
  exists n, n ∈ alerts /\ n_id n = key.

(** A goal with a deadline and a last interaction, otherwise plain. *)
Definition scannedGoal (i : string) (due : option Z) (touched : Z) : Goal :=
  mkGoal i i EmptyString GoalLevel.MEDIUM GoalPriority.MEDIUM "Others" due 0%Q []
         false 0 None touched false 0 [] false.

Definition scanTime : Z := 20000 * day_ms.

(** Due in two days, untouched for five. *)
Definition dueAndNeglected : Goal :=
  scannedGoal "g1" (Some (scanTime + 2 * day_ms)) (scanTime - 5 * day_ms).

(** Due in exactly three days, touched an hour ago. *)
Definition dueInThreeDays : Goal :=
  scannedGoal "g2" (Some (scanTime + 3 * day_ms)) (scanTime - 3600000).

Definition advisoryDown : string -> string -> Awaited (option string) :=
  fun _ _ => Rejected.

Definition advisoryUp : string -> string -> Awaited (option string) :=
  fun _ _ => Resolved (Some "One tiny step is enough."%string).

Definition noNotifications : Notifications := mkNotifications [] None.

(** A goal is created, pinned and completed. *)
Definition completedState : AppState :=
  run [SubmitForm 1000 1000 1000 "g1" newGoalForm; TogglePinned 1500 "g1";
       ToggleComplete 2000 "g1"]
      (initialState ["Health & Wellness"]).

(** ** The goal an operation is addressed at *)

(** The identifier an operation names, when it changes goals in place: the
    goal under edit for a submitted form, none for a new goal, a deletion or
    a category. *)
Definition addressed (op : Op) : option string :=
  match op with
  | SubmitForm submitted _ _ _ f =>
      match handleSubmit submitted f with
      | OnUpdate i _ => Some i
      | OnAdd _ => None
      end
  | TogglePinned _ i | ToggleArchive _ i | ToggleComplete _ i => Some i
  | ToggleSubTask _ i _ | SubTaskProgress _ i _ _ => Some i
  | DeleteGoal _ _ | ArchiveCategory _ _ => None
  end.

Definition withDeadline (v : option Z) (g : Goal) : Goal :=
  mkGoal (id g) (title g) (description g) (level g) (priority g) (area g)
         v (estimatedCost g) (subTasks g) (completed g) (createdAt g)
         (completedAt g) (lastInteractionAt g) (pinned g) (order g)
         (achievedMilestones g) (archived g).

(** ** More JavaScript helpers *)

(** [l.includes(x)] on an array of strings *)
Definition arrayIncludes (l : list string) (x : string) : bool :=
  existsb (String.eqb x) l.

(** [l.indexOf(x)]: the first index of [x], or -1. *)
Fixpoint indexOf {A : Type} `{EqDecision A} (l : list A) (x : A) : Z :=
  match l with
  | [] => -1
  | y :: l' =>
      if decide (y = x) then 0
      else let i := indexOf l' x in if i <? 0 then -1 else i + 1
  end.

(** [l.splice(start, deleteCount, ...items)], as the array it leaves: a
    negative [start] counts from the end, one beyond the end is the end. *)
Definition splice {A : Type} (l : list A) (start : Z) (deleteCount : nat)
    (items : list A) : list A :=
  let len := Z.of_nat (length l) in
  let from := Z.to_nat (if start <? 0 then Z.max (len + start) 0 else Z.min start len) in
  take from l ++ items ++ drop (from + deleteCount) l.

(** [Math.ceil] *)
Definition Math_ceil (x : Q) : Z := Qceiling x.

(** [Math.floor] *)
Definition Math_floor (x : Q) : Z := Qfloor x.

(** [x % m]: the remainder has the sign of [x]. *)
Definition remainder (x m : Q) : Q :=
  let quotient := (x / m)%Q in
  (x - m * inject_Z (if Qle_bool 0 quotient then Qfloor quotient else Qceiling quotient))%Q.

(** ** App.tsx: the countdown, the counters, the card's days left *)

Record TimeLeft := mkTimeLeft {
  days : Z;
  hours : Z;
  mins : Z
}.

(** [updateTimer]: [targetDate] is the end of 2026 in the time zone of the
    browser, [prev] the state [setTimeLeft] is not called on. *)
Definition updateTimer (targetDate now : Z) (prev : TimeLeft) : TimeLeft :=
  let diff := targetDate - now in
  if 0 <? diff then
    mkTimeLeft (Math_floor (inject_Z diff / 86400000)%Q)
               (Math_floor (remainder (inject_Z diff / 3600000) 24))
               (Math_floor (remainder (inject_Z diff / 60000) 60))
  else prev.

Definition activeCount (goals : list Goal) : nat :=
  length (List.filter (fun g => negb (archived g) && negb (completed g)) goals).

Definition completedCountGlobal (goals : list Goal) : nat :=
  length (List.filter completed goals).

(** [daysLeft] of [renderGoalCard], [None] for [null]. *)
Definition cardDaysLeft (now : Z) (goal : Goal) : option Z :=
  if truthy (deadline goal) then
    Some (Math_ceil (inject_Z (default 0%Z (deadline goal) - now)
                     / inject_Z (1000 * 60 * 60 * 24))%Q)
  else None.

(** ** App.tsx: categories *)

Definition handleAddNewCategory (newCategoryName : string) (s : AppState) : AppState :=
  if nonEmpty (trim newCategoryName)
     && negb (arrayIncludes (userCategories s) (trim newCategoryName))
  then mkAppState (goals s) (userCategories s ++ [trim newCategoryName])
                  (archivedCategories s) (areaOrder s ++ [trim newCategoryName])
  else s.

(** What the user does once the welcome screen is left: an operation on the
    repository, or a new category. *)
Inductive AppEvent :=
| Repository (op : Op)
| AddNewCategory (newCategoryName : string).

Definition handle (e : AppEvent) (s : AppState) : AppState :=
  match e with
  | Repository op => step op s
  | AddNewCategory n => handleAddNewCategory n s
  end.

Definition runApp (events : list AppEvent) (s : AppState) : AppState :=
  fold_left (fun s e => handle e s) events s.

(** ** GoalForm.tsx: adding a step *)

Definition newTask (uuid : string) : SubTask :=
  mkSubTask uuid EmptyString false 0 0 GoalLevel.MEDIUM GoalPriority.MEDIUM
            None None false.

(** [index] is the position of the step the new one goes behind, [None]
    when the button above the list is pressed. *)
Definition handleAddSubTask (uuid : string) (index : option nat) (f : GoalFormState)
    : GoalFormState :=
  match index with
  | Some i =>
      withFormSubTasks (splice (f_subTasks f) (Z.of_nat i + 1) 0 [newTask uuid]) f
  | None => withFormSubTasks (f_subTasks f ++ [newTask uuid]) f
  end.

(** ** WelcomeScreen.tsx *)

Module WelcomeScreen.

Record State := mkState {
  name : string;
  selectedCategories : list string;
  customCategory : string
}.

Definition initial : State := mkState EmptyString [] EmptyString.

Definition toggleCategory (cat : string) (s : State) : State :=
  mkState (name s)
          (if arrayIncludes (selectedCategories s) cat
           then List.filter (fun c => negb (String.eqb c cat)) (selectedCategories s)
           else selectedCategories s ++ [cat])
          (customCategory s).

Definition addCustomCategory (s : State) : State :=
  if nonEmpty (trim (customCategory s))
     && negb (arrayIncludes (selectedCategories s) (trim (customCategory s)))
  then mkState (name s) (selectedCategories s ++ [trim (customCategory s)]) EmptyString
  else s.

(** [onComplete] is called with the pair, or not at all. *)
Definition handleFinish (s : State) : option (string * list string) :=
  if nonEmpty (trim (name s)) && (0 <? length (selectedCategories s))%nat
  then Some (trim (name s), selectedCategories s)
  else None.

(** What the user does on the screen. *)
Inductive Event :=
| SetName (v : string)
| SetCustomCategory (v : string)
| ToggleCategory (cat : string)
| AddCustomCategory.

Definition handle (e : Event) (s : State) : State :=
  match e with
  | SetName v => mkState v (selectedCategories s) (customCategory s)
  | SetCustomCategory v => mkState (name s) (selectedCategories s) v
  | ToggleCategory cat => toggleCategory cat s
  | AddCustomCategory => addCustomCategory s
  end.

Definition run (events : list Event) : State :=
  fold_left (fun s e => handle e s) events initial.

End WelcomeScreen.

(** [handleWelcomeComplete]: both the categories and their order become the
    selection of the welcome screen. *)
Definition handleWelcomeComplete (categories : list string) (s : AppState) : AppState :=
  mkAppState (goals s) categories (archivedCategories s) categories.

(** ** Dashboard.tsx *)

Module Dashboard.

Inductive WidgetId := LIFE_FOCUS | EXECUTION | DIFFICULTY | PRIORITY.

#[global] Instance WidgetId_eq_dec : EqDecision WidgetId.
Proof. solve_decision. Defined.

Definition handleDragOver (draggedWidgetId : option WidgetId) (target : WidgetId)
    (widgetOrder : list WidgetId) : list WidgetId :=
  match draggedWidgetId with
  | Some dragged =>
      if bool_decide (dragged <> target) then
        let draggedIndex := indexOf widgetOrder dragged in
        let targetIndex := indexOf widgetOrder target in
        splice (splice widgetOrder draggedIndex 1 []) targetIndex 0 [dragged]
      else widgetOrder
  | None => widgetOrder
  end.

(** [Object.values(LifeArea)] *)
Definition LifeArea_values : list string :=
  ["Health & Wellness"; "Relationships"; "Career & Finances"; "Personal Growth";
   "Fun & Travels"; "Others"]%string.

Definition AREA_COLORS (a : string) : option string :=
  if String.eqb a "Health & Wellness" then Some "#10b981"%string
  else if String.eqb a "Fun & Travels" then Some "#0ea5e9"%string
  else if String.eqb a "Relationships" then Some "#f472b6"%string
  else if String.eqb a "Personal Growth" then Some "#f97316"%string
  else if String.eqb a "Others" then Some "#94a3b8"%string
  else if String.eqb a "Career & Finances" then Some "#f59e0b"%string
  else None.

(** An entry of a chart: [{ name, value, color }], with [count] for [value]
    in the bar charts. *)
Record Entry := mkEntry {
  name : string;
  value : Z;
  color : string
}.

Definition count (p : Goal -> bool) (goals : list Goal) : Z :=
  Z.of_nat (length (List.filter p goals)).

Record Stats := mkStats {
  totalGoals : Z;
  completedCount : Z;
  activeCount : Z;
  completionRate : Z;
  statusData : list Entry;
  areaData : list Entry;
  difficultyData : list Entry;
  priorityData : list Entry
}.

(** The counts are those of the program; [completionRate] is the quotient
    taken exactly and rounded half up, which is the rate the program shows
    but for the rounding of the quotient in binary64. *)
Definition stats (goals : list Goal) : Stats :=
  let totalGoals := Z.of_nat (length goals) in
  let completedCount := count completed goals in
  let activeCount := totalGoals - completedCount in
  let completionRate :=
    if 0 <? totalGoals
    then Math_round (inject_Z completedCount / inject_Z totalGoals * 100)%Q
    else 0 in
  mkStats totalGoals completedCount activeCount completionRate
    [mkEntry "Completed" completedCount "#10b981";
     mkEntry "Active" activeCount "#ea580c"]
    (List.filter (fun item => 0 <? value item)
       (map (fun a => mkEntry a (count (fun g => String.eqb (area g) a) goals)
                              (default "#ea580c"%string (AREA_COLORS a)))
            LifeArea_values))
    [mkEntry "Easy" (count (fun g => bool_decide (level g = GoalLevel.EASY)) goals)
             "#10b981";
     mkEntry "Medium" (count (fun g => bool_decide (level g = GoalLevel.MEDIUM)) goals)
             "#f59e0b";
     mkEntry "Hard" (count (fun g => bool_decide (level g = GoalLevel.HARD)) goals)
             "#f43f5e"]
    [mkEntry "High" (count (fun g => bool_decide (priority g = GoalPriority.HIGH)) goals)
             "#f43f5e";
     mkEntry "Medium"
             (count (fun g => bool_decide (priority g = GoalPriority.MEDIUM)) goals)
             "#ea580c";
     mkEntry "Low" (count (fun g => bool_decide (priority g = GoalPriority.LOW)) goals)
             "#94a3b8"].

Definition total (entries : list Entry) : Z :=
  fold_right (fun e acc => value e + acc) 0 entries.

End Dashboard.

(** The area of the goal is one of the six the application starts with. *)
Definition builtIn (g : Goal) : bool :=
  arrayIncludes Dashboard.LifeArea_values (area g).

(** ** App.tsx: the goals read back from the local storage *)

(** A step and a goal as [JSON.parse] gives them back: the keys older
    versions did not write may be missing. *)
Record StoredSubTask := mkStoredSubTask {
  ss_id : string;
  ss_text : string;
  ss_completed : bool;
  ss_currentProgress : Z;
  ss_targetProgress : Z;
  ss_level : GoalLevel.t;
  ss_priority : GoalPriority.t;
  ss_deadline : option Z;
  ss_tip : option string;
  ss_deleted : option bool
}.

Record StoredGoal := mkStoredGoal {
  sg_id : string;
  sg_title : string;
  sg_description : string;
  sg_level : GoalLevel.t;
  sg_priority : GoalPriority.t;
  sg_area : string;
  sg_deadline : option Z;
  sg_estimatedCost : Q;
  sg_subTasks : option (list StoredSubTask);
  sg_completed : bool;
  sg_createdAt : Z;
  sg_completedAt : option Z;
  sg_lastInteractionAt : option Z;
  sg_pinned : bool;
  sg_order : option Z;
  sg_achievedMilestones : option (list Z);
  sg_archived : option bool
}.

(** [{ ...t, deleted: !!t.deleted }] *)
Definition loadSubTask (t : StoredSubTask) : SubTask :=
  mkSubTask (ss_id t) (ss_text t) (ss_completed t) (ss_currentProgress t)
            (ss_targetProgress t) (ss_level t) (ss_priority t) (ss_deadline t)
            (ss_tip t) (default false (ss_deleted t)).

(** The function mapped over the parsed array, with the index [i]. *)
Definition loadGoal (now : Z) (i : nat) (g : StoredGoal) : Goal :=
  mkGoal (sg_id g) (sg_title g) (sg_description g) (sg_level g) (sg_priority g)
         (sg_area g) (sg_deadline g) (sg_estimatedCost g)
         (map loadSubTask (default [] (sg_subTasks g)))
         (sg_completed g) (sg_createdAt g) (sg_completedAt g)
         (if truthy (sg_lastInteractionAt g)
          then default 0 (sg_lastInteractionAt g)
          else if sg_createdAt g =? 0 then now else sg_createdAt g)
         (sg_pinned g)
         (default (Z.of_nat i) (sg_order g))
         (default [] (sg_achievedMilestones g))
         (default false (sg_archived g)).

Definition loadGoals (now : Z) (parsed : list StoredGoal) : list Goal :=
  imap (loadGoal now) parsed.

(** What [JSON.parse] reads from what [JSON.stringify] wrote for a goal of
    the collection: every key the application keeps is there. *)
Definition storedSubTask (t : SubTask) : StoredSubTask :=
  mkStoredSubTask (st_id t) (st_text t) (st_completed t) (currentProgress t)
                  (targetProgress t) (st_level t) (st_priority t) (st_deadline t)
                  (tip t) (Some (deleted t)).

Definition storedGoal (g : Goal) : StoredGoal :=
  mkStoredGoal (id g) (title g) (description g) (level g) (priority g) (area g)
               (deadline g) (estimatedCost g) (Some (map storedSubTask (subTasks g)))
               (completed g) (createdAt g) (completedAt g)
               (Some (lastInteractionAt g)) (pinned g) (Some (order g))
               (Some (achievedMilestones g)) (Some (archived g)).

(** ** App.tsx: the header of an area and the expanded areas *)

(** [t => (t.completed || t.currentProgress > 0) && !t.deleted] *)
Definition touched (t : SubTask) : bool :=
  (st_completed t || (0 <? currentProgress t)) && negb (deleted t).

Record AreaHeader := mkAreaHeader {
  completedCount : nat;
  inProgressCount : nat;
  activeCountTotal : Z;
  inProgressPct : Q
}.

(** The counts drawn over the bucket [areaGoals] of an area. *)
Definition areaHeader (areaGoals : list Goal) : AreaHeader :=
  let completedCount := length (List.filter completed areaGoals) in
  let inProgressCount :=
    length (List.filter (fun g => negb (completed g) && existsb touched (subTasks g))
                        areaGoals) in
  mkAreaHeader completedCount inProgressCount
    (Z.of_nat (length areaGoals) - Z.of_nat completedCount)
    (if (0 <? length areaGoals)%nat
     then (inject_Z (Z.of_nat inProgressCount) / inject_Z (Z.of_nat (length areaGoals))
           * 100)%Q
     else 0%Q).

(** [expandedAreas] is a [Set] of area labels. *)
Definition toggleArea (a : string) (prev : gset string) : gset string :=
  if decide (a ∈ prev) then prev ∖ {[a]} else prev ∪ {[a]}.

Definition expandAllCategories (areaOrder : list string) : gset string :=
  list_to_set areaOrder.

(** ** The grouped view and the names of [Object.prototype] *)

(** No goal the loop of [activeGoalsByArea] reaches makes [push] throw:
    every goal that is not archived and matches the query, and whose area is
    named like a property of [Object.prototype], has its area listed. *)
Definition pushable (searchQuery : string) (areaOrder : list string)
    (goals : list Goal) : Prop :=
  forall g, g ∈ goals -> archived g = false -> matchesQuery searchQuery g = true ->
            area g ∈ Object_prototype -> area g ∈ areaOrder.




(** * Properties *)

(** ** The progress percentage *)

Lemma orZero_id (x : Z) : orZero x = x.
Proof. unfold orZero. destruct (Z.eqb_spec x 0); congruence. Qed.

Lemma fold_left_sum (f : SubTask -> Z) (l : list SubTask) (a : Z) :
  fold_left (fun acc t => acc + f t) l a = a + ProgressSpec.sum f l.
Proof.
  revert a. induction l as [|t l IH]; intros a; simpl.
  - lia.
  - rewrite IH. lia.
Qed.

Lemma totalTarget_sum (g : Goal) :
  totalTarget g
  = ProgressSpec.sum (fun t => Z.max 1 (targetProgress t)) (ProgressSpec.nonDeleted g).
Proof.
  unfold totalTarget, activeSubTasks, ProgressSpec.nonDeleted.
  rewrite (fold_left_sum (fun t => Z.max 1 (orZero (targetProgress t)))).
  simpl. induction (List.filter _ _) as [|t l IH]; simpl; [done|].
  rewrite orZero_id. lia.
Qed.

Lemma totalCurrent_sum (g : Goal) :
  totalCurrent g = ProgressSpec.sum currentProgress (ProgressSpec.nonDeleted g).
Proof.
  unfold totalCurrent, activeSubTasks, ProgressSpec.nonDeleted.
  rewrite (fold_left_sum (fun t => orZero (currentProgress t))).
  simpl. induction (List.filter _ _) as [|t l IH]; simpl; [done|].
  rewrite orZero_id. lia.
Qed.

Lemma sum_target_ge_length (l : list SubTask) :
  Z.of_nat (length l) <= ProgressSpec.sum (fun t => Z.max 1 (targetProgress t)) l.
Proof. induction l as [|t l IH]; simpl length; simpl ProgressSpec.sum; lia. Qed.

Lemma Math_round_comp (x y : Q) : (x == y)%Q -> Math_round x = Math_round y.
Proof. intros E. unfold Math_round. apply Qfloor_comp. now rewrite E. Qed.

Lemma Qdiv_one (x : Q) : (x / 1 == x)%Q.
Proof. field. Qed.

(** Once the whole duration has elapsed the time ratio is 1. *)
Lemma timeRatio_elapsed (elapsed total : Z) :
  0 < total -> total <= elapsed ->
  (Qmax (1 # 10000) (Qmin 1 (inject_Z elapsed / inject_Z total)) == 1)%Q.
Proof.
  intros Hpos Hle.
  assert (H1 : (1 <= inject_Z elapsed / inject_Z total)%Q).
  { apply Qle_shift_div_l.
    - replace 0%Q with (inject_Z 0) by reflexivity. now rewrite <- Zlt_Qlt.
    - rewrite Qmult_1_l. now rewrite <- Zle_Qle. }
  rewrite (Q.min_l _ _ H1). apply Q.max_r. discriminate.
Qed.

(** [Math.round] on halves, on an integer and at the ends: 2.5 gives 3, -2.5
    gives -2, 0.5 gives 1, -0.5 gives -0, and integers, infinities and [NaN]
    are returned as they are. *)
Lemma Math_round_halves :
  Binary64.Math_round (PrimFloat.div (Binary64.ofZ 5) (Binary64.ofZ 2)) = Binary64.ofZ 3
  /\ Binary64.Math_round (PrimFloat.div (Binary64.ofZ (-5)) (Binary64.ofZ 2))
     = Binary64.ofZ (-2)
  /\ Binary64.Math_round (PrimFloat.div (Binary64.ofZ 1) (Binary64.ofZ 2)) = Binary64.ofZ 1
  /\ Binary64.Math_round (PrimFloat.div (Binary64.ofZ (-1)) (Binary64.ofZ 2))
     = PrimFloat.neg_zero
  /\ Binary64.Math_round (Binary64.ofZ 7) = Binary64.ofZ 7
  /\ Binary64.Math_round PrimFloat.infinity = PrimFloat.infinity
  /\ Binary64.Math_round PrimFloat.nan = PrimFloat.nan.
Proof. repeat split; vm_compute; reflexivity. Qed.

(** C1. For a goal that is not completed, the progress percentage of
    [renderGoalCard] is 0 when the goal has no non-deleted sub-task, and
    otherwise [round (completionRatio * 100)] without a deadline and
    [round (completionRatio / timeRatio * 100)] with one, where
    [completionRatio] is the sum of [currentProgress] over the sum of
    [max 1 targetProgress] of the non-deleted sub-tasks and [timeRatio] is
    [max 1 (now - createdAt) / max 1 (deadline - createdAt)] clamped to
    [0.0001, 1]; the quotients, the product and the rounding are those of
    binary64.  A deadline is a timestamp other than 0: a deadline of 0 the
    program takes for none.  The goal created at [now], a time of the clock,
    due ten days later, with one sub-task at 2 of 4, shows exactly 100 when
    looked at five days later.  The rounding is that of the card: 23 of 40 shows
    57, the binary64 product being just below 57.5; 1 of 8 shows 13, the
    half going up; 3 of 5 after 8 of 13 days shows 97.  So is the clamp: 1
    of 8 on the first of 100000 days shows 125000, the time ratio held at
    0.0001, and 13 once the deadline has passed, the time ratio held at 1. *)
Theorem progressPct_formula :
  (forall now g,
     completed g = false -> deadline g <> Some 0 ->
     renderGoalCard.progressPct now g = ProgressSpec.progress now g)
  /\ (forall now g,
        deadline g = Some 0 ->
        renderGoalCard.progressPct now g
        = renderGoalCard.progressPct now (withDeadline None g))
  /\ (forall now,
        0 <= now ->
        renderGoalCard.progressPct (now + 5 * day_ms) (exampleGoal now)
        = Binary64.ofZ 100)
  /\ (forall now, renderGoalCard.progressPct now (cardGoal 0 None 23 40)
                  = Binary64.ofZ 57)
  /\ (forall now, renderGoalCard.progressPct now (cardGoal 0 None 1 8)
                  = Binary64.ofZ 13)
  /\ renderGoalCard.progressPct (8 * day_ms) (cardGoal 0 (Some (13 * day_ms)) 3 5)
     = Binary64.ofZ 97
  /\ renderGoalCard.progressPct day_ms (cardGoal 0 (Some (100000 * day_ms)) 1 8)
     = Binary64.ofZ 125000
  /\ renderGoalCard.progressPct (20 * day_ms) (cardGoal 0 (Some (13 * day_ms)) 1 8)
     = Binary64.ofZ 13.
Proof.
  split; [|split; [|split; [|split; [|split; [|split; [|split]]]]]].
  - intros now g Hc Hd.
    unfold renderGoalCard.progressPct, ProgressSpec.progress. rewrite Hc.
    pose proof (totalTarget_sum g) as HT. pose proof (totalCurrent_sum g) as HC.
    pose proof (sum_target_ge_length (ProgressSpec.nonDeleted g)) as Hlen.
    unfold ProgressSpec.completionRatio, ProgressSpec.timeRatio, ProgressSpec.clamp.
    rewrite <- HT, <- HC. rewrite <- HT in Hlen.
    destruct (ProgressSpec.nonDeleted g) as [|t l] eqn:El.
    + simpl in HT. rewrite HT. reflexivity.
    + simpl length in Hlen.
      destruct (Z.ltb_spec 0 (totalTarget g)) as [_|Hbad]; [|lia].
      destruct (deadline g) as [d|]; simpl truthy; [|reflexivity].
      destruct (Z.eqb_spec d 0) as [->|_]; [done|reflexivity].
  - intros now g Hd. unfold renderGoalCard.progressPct, totalTarget, totalCurrent,
      activeSubTasks. simpl. by rewrite Hd.
  - intros now Hnow.
    unfold renderGoalCard.progressPct, exampleGoal, totalTarget, totalCurrent,
      activeSubTasks.
    cbn [completed deadline createdAt subTasks truthy].
    cbv [default from_option Datatypes.id].
    destruct (Z.eqb_spec (now + 10 * day_ms) 0) as [E|_];
      [unfold day_ms in E; lia|].
    replace (now + 10 * day_ms - now) with (10 * day_ms) by lia.
    replace (now + 5 * day_ms - now) with (5 * day_ms) by lia.
    vm_compute. reflexivity.
  - intros now. vm_compute. reflexivity.
  - intros now. vm_compute. reflexivity.
  - vm_compute. reflexivity.
  - vm_compute. reflexivity.
  - vm_compute. reflexivity.
Qed.

(** The goal of the worked example on the day it is created, and five days
    later. *)
Lemma progressPct_formula_witness :
  renderGoalCard.progressPct scanTime (exampleGoal scanTime)
  = ProgressSpec.progress scanTime (exampleGoal scanTime)
  /\ renderGoalCard.progressPct (scanTime + 5 * day_ms) (exampleGoal scanTime)
     = Binary64.ofZ 100.
Proof.
  split.
  - apply (proj1 progressPct_formula scanTime (exampleGoal scanTime)).
    + reflexivity.
    + vm_compute. discriminate.
  - apply (proj1 (proj2 (proj2 progressPct_formula)) scanTime).
    vm_compute. discriminate.
Defined.

(** ** Sorting *)

Section ArraySortFacts.
Context {A : Type} (comparefn : A -> A -> number).

Lemma sortInsert_perm (x : A) (l : list A) : sortInsert comparefn x l ≡ₚ x :: l.
Proof.
  induction l as [|y l IH]; simpl; [done|].
  destruct (isPositive (comparefn x y)); [|done].
  rewrite IH. apply Permutation_swap.
Qed.

Lemma Array_sort_perm (l : list A) : Array_sort comparefn l ≡ₚ l.
Proof.
  induction l as [|x l IH]; simpl; [done|].
  rewrite sortInsert_perm. by rewrite IH.
Qed.

Lemma Array_sort_elem_of (l : list A) (x : A) : x ∈ Array_sort comparefn l ↔ x ∈ l.
Proof. by rewrite Array_sort_perm. Qed.

Hypothesis consistent : Consistent comparefn.

Lemma sortInsert_sorted (x : A) (l : list A) :
  StronglySorted (notAfter comparefn) l ->
  StronglySorted (notAfter comparefn) (sortInsert comparefn x l).
Proof.
  induction l as [|y l IH]; intros Hs; simpl.
  - repeat constructor.
  - apply StronglySorted_cons in Hs as [Hy Hl].
    destruct (isPositive (comparefn x y)) eqn:E.
    + apply StronglySorted_cons. split; [|by apply IH].
      rewrite sortInsert_perm. constructor; [|done].
      by apply (consistent_asym _ consistent).
    + apply StronglySorted_cons. split.
      * constructor; [done|].
        eapply Forall_impl; [exact Hy|].
        intros z Hz. by apply (consistent_trans _ consistent x y z).
      * by apply StronglySorted_cons.
Qed.

Lemma Array_sort_sorted (l : list A) :
  StronglySorted (notAfter comparefn) (Array_sort comparefn l).
Proof.
  induction l as [|x l IH]; simpl.
  - constructor.
  - by apply sortInsert_sorted.
Qed.

(** In a sorted array no later element has to stand before an earlier one. *)
Lemma Array_sort_lookup (l : list A) (i j : nat) (a b : A) :
  (i < j)%nat ->
  Array_sort comparefn l !! i = Some a ->
  Array_sort comparefn l !! j = Some b ->
  notAfter comparefn a b.
Proof.
  generalize (Array_sort_sorted l). generalize (Array_sort comparefn l).
  intros s Hs. revert i j. induction Hs as [|x s Hs IH Hx]; intros i j Hij Hi Hj.
  - by rewrite lookup_nil in Hi.
  - destruct j as [|j]; [lia|]. simpl in Hj.
    destruct i as [|i]; simpl in Hi.
    + injection Hi as ->. rewrite Forall_forall in Hx.
      apply Hx. by eapply list_elem_of_lookup_2.
    + apply (IH i j); [lia|done..].
Qed.

(** The first element of a sorted array is a least one. *)
Lemma Array_sort_head (l : list A) (a b : A) :
  head (Array_sort comparefn l) = Some a -> b ∈ l -> a = b \/ notAfter comparefn a b.
Proof.
  intros Hh Hb. apply Array_sort_elem_of in Hb.
  pose proof (Array_sort_sorted l) as Hs.
  destruct (Array_sort comparefn l) as [|x s]; [done|].
  simpl in Hh. injection Hh as ->.
  apply StronglySorted_cons in Hs as [Hx _].
  apply elem_of_cons in Hb as [->|Hb]; [by left|right].
  rewrite Forall_forall in Hx. by apply Hx.
Qed.
End ArraySortFacts.

(** ** The comparators of the program are consistent *)

Ltac num_cases :=
  unfold notAfter in *; simpl in *;
  rewrite ?Z.ltb_lt, ?Z.ltb_ge in *;
  first [done | lia].

Ltac split_orInfinity g :=
  unfold orInfinity in *;
  let d := fresh "d" in
  destruct (deadline g) as [d|]; [destruct (Z.eqb_spec d 0)|].

Lemma compareBySort_consistent (sortBy : SortOption) :
  Consistent (compareBySort sortBy).
Proof.
  split.
  - intros a b. unfold compareBySort. destruct sortBy.
    + num_cases.
    + num_cases.
    + num_cases.
    + split_orInfinity a; split_orInfinity b; num_cases.
    + destruct (completed a), (completed b), (pinned a), (pinned b); num_cases.
  - intros a b c. unfold notAfter, compareBySort. destruct sortBy.
    + num_cases.
    + num_cases.
    + num_cases.
    + split_orInfinity a; split_orInfinity b; split_orInfinity c; num_cases.
    + destruct (completed a), (completed b), (completed c),
        (pinned a), (pinned b), (pinned c); num_cases.
Qed.

Lemma compareGoals_consistent (activeSort : option ActiveSort) (sortBy : SortOption) :
  Consistent (compareGoals activeSort sortBy).
Proof.
  destruct (compareBySort_consistent sortBy) as [Hasym Htrans].
  destruct activeSort as [f|]; [|by split].
  split.
  - intros a b. unfold compareGoals.
    destruct (matchesFilter f a), (matchesFilter f b); simpl; auto.
  - intros a b c. unfold notAfter, compareGoals.
    destruct (matchesFilter f a), (matchesFilter f b), (matchesFilter f c);
      simpl; try done; apply Htrans.
Qed.

Lemma compareInteraction_consistent :
  Consistent (fun a b : Goal => Num (lastInteractionAt a - lastInteractionAt b)).
Proof. split; intros; num_cases. Qed.

(** ** The grouped view, bucket by bucket *)

Lemma emptyBuckets_lookup (areas : list string) (m : gmap string (list Goal))
    (a : string) :
  fold_left (fun acc a => <[a := []]> acc) areas m !! a
  = if decide (a ∈ areas) then Some [] else m !! a.
Proof.
  revert m. induction areas as [|b areas IH]; intros m; simpl fold_left.
  - destruct (decide (a ∈ [])) as [Hin|_]; [|done].
    by apply elem_of_nil in Hin.
  - rewrite IH. destruct (decide (a ∈ areas)) as [Hin|Hnin].
    + destruct (decide (a ∈ b :: areas)) as [_|Hn]; [done|].
      destruct Hn. by right.
    + destruct (decide (b = a)) as [->|Hne].
      * rewrite lookup_insert_eq.
        destruct (decide (a ∈ a :: areas)) as [_|Hn]; [done|].
        destruct Hn. by left.
      * rewrite lookup_insert_ne by done.
        destruct (decide (a ∈ b :: areas)) as [Hin|_]; [|done].
        apply elem_of_cons in Hin as [->|?]; done.
Qed.

Lemma pushGoal_keys (q : string) (m m1 : gmap string (list Goal)) (g : Goal)
    (k : string) :
  pushGoal q m g = Returned m1 -> (is_Some (m1 !! k) <-> is_Some (m !! k)).
Proof.
  unfold pushGoal. destruct (matchesQuery q g); [|by intros [= <-]].
  destruct (m !! area g) as [bucket|] eqn:E.
  - intros [= <-]. destruct (decide (area g = k)) as [<-|Hne].
    + rewrite lookup_insert_eq, E. split; by eexists.
    + by rewrite lookup_insert_ne.
  - destruct (inherited (area g)); [done|]. by intros [= <-].
Qed.

Lemma pushGoal_lookup (q : string) (gs : list Goal) (m m' : gmap string (list Goal))
    (a : string) :
  forEach (pushGoal q) gs m = Returned m' ->
  m' !! a
  = (fun bucket =>
       bucket ++ List.filter (fun g => matchesQuery q g && String.eqb (area g) a) gs)
    <$> (m !! a).
Proof.
  revert m. induction gs as [|g gs IH]; intros m; simpl.
  - intros [= <-]. destruct (m !! a); simpl; [|done]. by rewrite app_nil_r.
  - destruct (pushGoal q m g) as [m1|] eqn:E; [|done].
    intros H. rewrite (IH _ H). revert E. unfold pushGoal.
    destruct (matchesQuery q g); simpl; [|by intros [= <-]].
    destruct (String.eqb_spec (area g) a) as [->|Hne].
    + destruct (m !! a) as [bucket|] eqn:E.
      * intros [= <-]. rewrite lookup_insert_eq. simpl. by rewrite <- app_assoc.
      * destruct (inherited a); [done|]. intros [= <-]. by rewrite E.
    + destruct (m !! area g) as [bucket|].
      * intros [= <-]. by rewrite lookup_insert_ne.
      * destruct (inherited (area g)); [done|]. by intros [= <-].
Qed.

(** The loop runs to its end exactly when no goal it pushes has an inherited
    property for a bucket. *)
Lemma pushGoal_returns (q : string) (gs : list Goal) (m : gmap string (list Goal)) :
  (exists m', forEach (pushGoal q) gs m = Returned m')
  <-> (forall g, g ∈ gs -> matchesQuery q g = true -> inherited (area g) = true ->
                 is_Some (m !! area g)).
Proof.
  revert m. induction gs as [|g gs IH]; intros m; simpl.
  - split; [|by eexists]. intros _ g Hg. by apply elem_of_nil in Hg.
  - destruct (pushGoal q m g) as [m1|] eqn:E.
    + rewrite IH. split.
      * intros H g' [->|Hg']%elem_of_cons Hq Hi.
        -- revert E. unfold pushGoal. rewrite Hq, Hi.
           destruct (m !! area g); [by eexists|done].
        -- rewrite <- (pushGoal_keys _ _ _ _ _ E). by apply H.
      * intros H g' Hg' Hq Hi. rewrite (pushGoal_keys _ _ _ _ _ E).
        apply H; [by right|done..].
    + split; [by intros [m' [=]]|]. intros H. exfalso.
      revert E. unfold pushGoal.
      destruct (matchesQuery q g) eqn:Hq; [|done].
      destruct (m !! area g) as [bucket|] eqn:Em; [done|].
      destruct (inherited (area g)) eqn:Hi; [|done].
      destruct (H g) as [bucket Hb]; [by left|done..|]. congruence.
Qed.

Lemma activeGoalsByArea_returns (gs : list Goal) (q : string)
    (f : option ActiveSort) (sortBy : SortOption) (areas : list string) :
  (exists view, activeGoalsByArea gs q f sortBy areas = Returned view)
  <-> pushable q areas gs.
Proof.
  unfold activeGoalsByArea, pushable.
  assert (Hkeys : forall a : string,
            is_Some (fold_left (fun acc a => <[a := []]> acc) areas
                       (∅ : gmap string (list Goal)) !! a) <-> a ∈ areas).
  { intros a. rewrite emptyBuckets_lookup.
    destruct (decide (a ∈ areas)); [split; [done|by eexists]|].
    rewrite lookup_empty. split; [by intros [? ?]|done]. }
  split.
  - intros [view Hview] g Hg Ha Hq Hi.
    destruct (forEach _ _ _) as [grouped|] eqn:E; [|done].
    apply Hkeys. eapply (proj1 (pushGoal_returns _ _ _)); [by eexists| |done|].
    + apply list_elem_of_In, filter_In. split; [by apply list_elem_of_In|].
      by rewrite Ha.
    + by apply bool_decide_eq_true.
  - intros H.
    destruct (proj2 (pushGoal_returns q (List.filter (fun g => negb (archived g)) gs)
                       (fold_left (fun acc a => <[a := []]> acc) areas ∅)))
      as [grouped E].
    + intros g Hg Hq Hi. apply list_elem_of_In, filter_In in Hg as [Hg Ha].
      apply Hkeys, H; [by apply list_elem_of_In| |done|].
      * by apply negb_true_iff.
      * by apply bool_decide_eq_true in Hi.
    + rewrite E. by eexists.
Qed.

(** The bucket of an area: the goals that are not archived, match the query
    and carry the area, sorted by the comparator. *)
Lemma activeGoalsByArea_lookup (gs : list Goal) (q : string)
    (f : option ActiveSort) (sortBy : SortOption) (areas : list string)
    (view : gmap string (list Goal)) (a : string) :
  activeGoalsByArea gs q f sortBy areas = Returned view ->
  view !! a
  = if decide (a ∈ areas) then
      Some (Array_sort (compareGoals f sortBy)
              (List.filter (fun g => matchesQuery q g && String.eqb (area g) a)
                 (List.filter (fun g => negb (archived g)) gs)))
    else None.
Proof.
  unfold activeGoalsByArea.
  destruct (forEach _ _ _) as [grouped|] eqn:E; [|done]. intros [= <-].
  rewrite lookup_fmap, (pushGoal_lookup _ _ _ _ _ E), emptyBuckets_lookup.
  destruct (decide (a ∈ areas)); simpl; [done|].
  by rewrite lookup_empty.
Qed.







(** C3. With an active filter, in every bucket of the grouped view each goal
    that matches the filter stands strictly before each goal that does not,
    whatever the query and the sort mode.  For the filter on priority High
    under Newest: a goal of priority High stands before every goal of another
    priority, whatever their creation times. *)
Theorem filter_pinning :
  (forall gs q f sortBy areas view a bucket (i j : nat) x y,
     activeGoalsByArea gs q (Some f) sortBy areas = Returned view ->
     view !! a = Some bucket ->
     bucket !! i = Some x -> bucket !! j = Some y ->
     matchesFilter f x = true -> matchesFilter f y = false ->
     (i < j)%nat)
  /\ (forall gs q areas view a bucket (i j : nat) x y,
        activeGoalsByArea gs q (Some (ByPriority GoalPriority.HIGH)) Newest areas
        = Returned view ->
        view !! a = Some bucket ->
        bucket !! i = Some x -> bucket !! j = Some y ->
        priority x = GoalPriority.HIGH -> priority y <> GoalPriority.HIGH ->
        (i < j)%nat).
Proof.
  assert (Hgen : forall gs q f sortBy areas view a bucket (i j : nat) x y,
     activeGoalsByArea gs q (Some f) sortBy areas = Returned view ->
     view !! a = Some bucket ->
     bucket !! i = Some x -> bucket !! j = Some y ->
     matchesFilter f x = true -> matchesFilter f y = false ->
     (i < j)%nat).
  { intros gs q f sortBy areas view a bucket i j x y E Hview Hi Hj Hx Hy.
    rewrite (activeGoalsByArea_lookup _ _ _ _ _ _ a E) in Hview.
    destruct (decide (a ∈ areas)); [|done]. injection Hview as <-.
    destruct (lt_eq_lt_dec i j) as [[Hlt | ->] | Hgt]; [done| |].
    - rewrite Hi in Hj. injection Hj as ->. congruence.
    - pose proof (Array_sort_lookup _ (compareGoals_consistent (Some f) sortBy)
                    _ j i y x Hgt Hj Hi) as Hyx.
      unfold notAfter, compareGoals in Hyx. rewrite Hx, Hy in Hyx. done. }
  split; [exact Hgen|].
  intros gs q areas view a bucket i j x y E Hview Hi Hj Hx Hy.
  apply (Hgen gs q (ByPriority GoalPriority.HIGH) Newest areas view a bucket i j x y);
    try done; simpl.
  - by apply bool_decide_eq_true.
  - by apply bool_decide_eq_false.
Qed.

(** The older goal of high priority stands before the newer one of low
    priority under Newest. *)
Lemma filter_pinning_witness : (0 < 1)%nat.
Proof.
  apply (proj2 filter_pinning [recentGoal; urgentGoal] EmptyString
           ["Health & Wellness"]%string
           {[ "Health & Wellness"%string := [urgentGoal; recentGoal] ]}
           "Health & Wellness"%string
           [urgentGoal; recentGoal] 0%nat 1%nat urgentGoal recentGoal).
  - vm_compute. reflexivity.
  - vm_compute. reflexivity.
  - reflexivity.
  - reflexivity.
  - reflexivity.
  - discriminate.
Defined.

(** ** Sub-tasks *)

Lemma subTaskProgress_reached (delta : Z) (t : SubTask) :
  completedIffReached (subTaskProgress delta t).
Proof.
  unfold completedIffReached, subTaskProgress. simpl.
  rewrite orZero_id. apply Z.leb_le.
Qed.

Lemma toggleSubTask_reached (t : SubTask) : completedIffReached (toggleSubTask t).
Proof.
  unfold completedIffReached, toggleSubTask. simpl. rewrite orZero_id.
  destruct (st_completed t); simpl; split; first [done | lia].
Qed.

Lemma applySubTaskOp_reached (t : SubTask) (op : SubTaskOp) :
  completedIffReached (applySubTaskOp t op).
Proof.
  destruct op; [apply toggleSubTask_reached | apply subTaskProgress_reached].
Qed.

(** What a handler that maps over goals and their sub-tasks leaves in the
    addressed places. *)
Lemma mapped_subTask (now : Z) (goalId subTaskId : string) (h : SubTask -> SubTask)
    (prev : list Goal) (g : Goal) (t : SubTask) :
  g ∈ map (fun g =>
             if String.eqb (id g) goalId then
               withLastInteractionAt now
                 (withSubTasks
                    (map (fun t => if String.eqb (st_id t) subTaskId then h t else t)
                         (subTasks g)) g)
             else g) prev ->
  (forall t0, st_id (h t0) = st_id t0) ->
  id g = goalId -> t ∈ subTasks g -> st_id t = subTaskId ->
  exists t0, t = h t0.
Proof.
  intros Hg Hid Hgid Ht Htid.
  apply list_elem_of_In, in_map_iff in Hg as (g0 & <- & _).
  destruct (String.eqb_spec (id g0) goalId) as [E|E]; [|done].
  simpl in Ht. apply list_elem_of_In, in_map_iff in Ht as (t0 & <- & _).
  destruct (String.eqb_spec (st_id t0) subTaskId) as [E'|E']; [by exists t0|done].
Qed.

(** C8. After a sequence of sub-task operations (the check box, a progress
    step by any delta) the sub-task is completed exactly when its progress
    has reached [max 1 targetProgress]; a decrement after the target was
    reached clears [completed], an increment that meets the target sets it;
    and the sub-tasks the two handlers address in the collection are left in
    that state. *)
Theorem subTask_completed_iff_reached :
  (forall t ops op, completedIffReached (runSubTaskOps (ops ++ [op]) t))
  /\ (forall t, currentProgress t = Z.max 1 (targetProgress t) ->
         st_completed (subTaskProgress (-1) t) = false
         /\ currentProgress (subTaskProgress (-1) t) < Z.max 1 (targetProgress t))
  /\ (forall t, 0 <= currentProgress t ->
         currentProgress t + 1 = Z.max 1 (targetProgress t) ->
         st_completed (subTaskProgress 1 t) = true
         /\ currentProgress (subTaskProgress 1 t) = Z.max 1 (targetProgress t))
  /\ (forall now goalId subTaskId delta prev g t,
         g ∈ handleSubTaskProgress now goalId subTaskId delta prev ->
         id g = goalId -> t ∈ subTasks g -> st_id t = subTaskId ->
         completedIffReached t)
  /\ (forall now goalId subTaskId prev g t,
         g ∈ handleToggleSubTask now goalId subTaskId prev ->
         id g = goalId -> t ∈ subTasks g -> st_id t = subTaskId ->
         completedIffReached t).
Proof.
  split; [|split; [|split; [|split]]].
  - intros t ops op. unfold runSubTaskOps. rewrite fold_left_app. simpl.
    apply applySubTaskOp_reached.
  - intros t Ht. unfold subTaskProgress. simpl. rewrite orZero_id.
    split; [apply Z.leb_gt|]; lia.
  - intros t H0 Ht. unfold subTaskProgress. simpl. rewrite orZero_id.
    split; [apply Z.leb_le|]; lia.
  - intros now goalId subTaskId delta prev g t Hg Hgid Ht Htid.
    destruct (mapped_subTask now goalId subTaskId (subTaskProgress delta)
                prev g t Hg) as [t0 ->]; try done.
    apply subTaskProgress_reached.
  - intros now goalId subTaskId prev g t Hg Hgid Ht Htid.
    destruct (mapped_subTask now goalId subTaskId toggleSubTask
                prev g t Hg) as [t0 ->]; try done.
    apply toggleSubTask_reached.
Qed.

(** Five check-ins on a step of five, then one taken back. *)
Lemma subTask_completed_iff_reached_witness :
  completedIffReached
    (runSubTaskOps ([Progress 1; Progress 1; Progress 1; Progress 1; Progress 1]
                    ++ [Progress (-1)]) fiveCheckIns).
Proof. apply (proj1 subTask_completed_iff_reached). Defined.

(** C10 (as the program has it). A progress operation leaves
    [currentProgress] between 0 and [max 1 targetProgress], whatever the
    delta.  For a goal whose non-deleted sub-tasks are all within their
    target, the summed progress is at most the summed target, the completion
    ratio is at most 1 and, without a deadline, the percentage is at most
    100. *)
Theorem progress_within_target :
  (forall delta t,
     0 <= currentProgress (subTaskProgress delta t)
          <= Z.max 1 (targetProgress (subTaskProgress delta t)))
  /\ (forall now g,
        (forall t, t ∈ activeSubTasks g ->
                   currentProgress t <= Z.max 1 (targetProgress t)) ->
        totalCurrent g <= totalTarget g
        /\ (inject_Z (totalCurrent g) / inject_Z (totalTarget g) <= 1)%Q
        /\ (truthy (deadline g) = false -> progressPct now g <= 100)).
Proof.
  split.
  - intros delta t. unfold subTaskProgress. simpl. rewrite orZero_id. lia.
  - intros now g Hall.
    assert (Hle : totalCurrent g <= totalTarget g).
    { rewrite totalCurrent_sum, totalTarget_sum.
      unfold activeSubTasks in Hall. fold (ProgressSpec.nonDeleted g) in Hall.
      induction (ProgressSpec.nonDeleted g) as [|t l IH]; simpl; [done|].
      assert (currentProgress t <= Z.max 1 (targetProgress t))
        by (apply Hall; left).
      assert (ProgressSpec.sum currentProgress l
              <= ProgressSpec.sum (fun t => Z.max 1 (targetProgress t)) l)
        by (apply IH; intros; apply Hall; by right).
      lia. }
    assert (Hratio : 0 < totalTarget g ->
              (inject_Z (totalCurrent g) / inject_Z (totalTarget g) <= 1)%Q).
    { intros Hpos. apply Qle_shift_div_r.
      - replace 0%Q with (inject_Z 0) by reflexivity. by rewrite <- Zlt_Qlt.
      - rewrite Qmult_1_l. by rewrite <- Zle_Qle. }
    split; [done|]. split.
    + destruct (Z.ltb_spec 0 (totalTarget g)) as [Hpos|Hnpos]; [by apply Hratio|].
      assert (totalTarget g = 0) as ->.
      { pose proof (sum_target_ge_length (ProgressSpec.nonDeleted g)).
        rewrite <- totalTarget_sum in *. lia. }
      unfold Qdiv. simpl. rewrite Qmult_0_r. discriminate.
    + intros Hd. unfold progressPct. rewrite Hd. simpl.
      destruct (completed g); [done|].
      destruct (Z.ltb_spec 0 (totalTarget g)) as [Hpos|_]; [|done].
      unfold Math_round.
      change 100 with (Qfloor (100 + (1 # 2))).
      apply Qfloor_resp_le.
      apply Qplus_le_l.
      apply Qle_trans with (1 * 100)%Q; [|discriminate].
      apply Qmult_le_compat_r; [by apply Hratio|discriminate].
Qed.

(** Within the target after five check-ins on a step of five. *)
Lemma progress_within_target_witness :
  0 <= currentProgress (subTaskProgress 7 fiveCheckIns)
       <= Z.max 1 (targetProgress (subTaskProgress 7 fiveCheckIns)).
Proof. apply (proj1 progress_within_target). Defined.

(** C10 as stated fails: a goal whose step reached 5 of 5 and whose target
    was then lowered to 2 in the form has a summed progress of 5 over a summed
    target of 2 and, without a deadline, shows 250. *)
Lemma progress_above_target_after_edit :
  reachable targetLowered
  /\ map (fun g => (truthy (deadline g), totalCurrent g, totalTarget g, progressPct 4000 g))
         (goals targetLowered)
     = [(false, 5, 2, 250)].
Proof.
  split.
  - exists ["Health & Wellness"]%string,
      [SubmitForm 1000 1000 1000 "g1" newGoalForm;
       SubTaskProgress 2000 "g1" "s1" 1; SubTaskProgress 2001 "g1" "s1" 1;
       SubTaskProgress 2002 "g1" "s1" 1; SubTaskProgress 2003 "g1" "s1" 1;
       SubTaskProgress 2004 "g1" "s1" 1;
       SubmitForm 3000 3000 3000 "unused" loweredTargetForm].
    vm_compute. reflexivity.
  - vm_compute. reflexivity.
Qed.

(** ** The repository *)

Lemma elem_of_map_if (c : Goal -> bool) (h : Goal -> Goal) (prev : list Goal)
    (g : Goal) :
  g ∈ map (fun g => if c g then h g else g) prev ->
  g ∈ prev \/ exists g0, g0 ∈ prev /\ c g0 = true /\ g = h g0.
Proof.
  intros (g0 & <- & Hin)%list_elem_of_In%in_map_iff.
  apply list_elem_of_In in Hin.
  destruct (c g0) eqn:E; [right; by exists g0 | by left].
Qed.

Lemma run_cons (op : Op) (ops : list Op) (s : AppState) :
  run (op :: ops) s = run ops (step op s).
Proof. reflexivity. Qed.

(** Every handler but [handleArchiveCategory] writes the time of the call
    into the goal it changes. *)
Lemma repository_stamps (now : Z) (i : string) (prev : list Goal) (k : nat)
    (g : Goal) :
  prev !! k = Some g -> id g = i ->
  (forall u, lastInteractionAt <$> handleUpdateGoal now i u prev !! k = Some now)
  /\ lastInteractionAt <$> handleTogglePinned now i prev !! k = Some now
  /\ lastInteractionAt <$> handleToggleArchive now i prev !! k = Some now
  /\ lastInteractionAt <$> handleToggleComplete now i prev !! k = Some now
  /\ (forall si, lastInteractionAt <$> handleToggleSubTask now i si prev !! k = Some now)
  /\ (forall si delta,
        lastInteractionAt <$> handleSubTaskProgress now i si delta prev !! k = Some now).
Proof.
  intros Hk <-.
  unfold handleUpdateGoal, handleTogglePinned, handleToggleArchive,
    handleToggleComplete, handleToggleSubTask, handleSubTaskProgress.
  repeat split; intros;
    change (@map Goal Goal) with (@fmap list _ Goal Goal);
    rewrite list_lookup_fmap, Hk; simpl; by rewrite String.eqb_refl.
Qed.

(** C9 fails on [handleArchiveCategory]: archiving a category sets
    [archived] on its goals and leaves every [lastInteractionAt] as it was,
    where the other handlers write the time of the call.  The goal last
    touched at 1000 is archived and still says 1000. *)
Theorem handleArchiveCategory_keeps_lastInteractionAt :
  (forall confirmed a s,
     map lastInteractionAt (goals (handleArchiveCategory confirmed a s))
     = map lastInteractionAt (goals s))
  /\ goals (handleArchiveCategory true "Health & Wellness" categoryState)
     = [withArchived true urgentGoal]
  /\ lastInteractionAt (withArchived true urgentGoal) = 1000.
Proof.
  split; [|split; reflexivity].
  intros confirmed a s. unfold handleArchiveCategory.
  destruct confirmed; [|done]. simpl.
  induction (goals s) as [|g gs IH]; simpl; [done|].
  rewrite IH. by destruct (String.eqb (area g) a).
Qed.

(** ** Completion, its time stamp and the archive *)

Lemma run_invariant (Inv : AppState -> Prop) (ops : list Op) (s : AppState) :
  (forall op s, Inv s -> Inv (step op s)) -> Inv s -> Inv (run ops s).
Proof.
  intros Hstep. revert s. induction ops as [|op ops IH]; intros s Hs; [done|].
  rewrite run_cons. apply IH. by apply Hstep.
Qed.

(** What [handleSubmit] hands to [onUpdate] names neither [completed], nor
    [completedAt], nor [archived]. *)
Lemma handleSubmit_update (now : Z) (f : GoalFormState) (i : string)
    (u : PartialGoal) :
  handleSubmit now f = OnUpdate i u ->
  p_completed u = None /\ p_completedAt u = None /\ p_archived u = None.
Proof.
  unfold handleSubmit.
  destruct (f_initialData f) as [[g0|a]|]; try done.
  destruct (nonEmpty (id g0)); [|done].
  by intros [= <- <-].
Qed.

Ltac goal_cases H :=
  apply elem_of_map_if in H as [H | (?g0 & H & ?Hc & ->)].

Lemma step_completedAt (op : Op) (s : AppState) :
  (forall g, g ∈ goals s -> (is_Some (completedAt g) <-> completed g = true)) ->
  forall g, g ∈ goals (step op s) -> (is_Some (completedAt g) <-> completed g = true).
Proof.
  intros Hs g Hg. destruct op; simpl in Hg.
  - destruct (handleSubmit submitted f) as [i u|d] eqn:E; simpl in Hg.
    + apply handleSubmit_update in E as (E1 & E2 & E3).
      unfold handleUpdateGoal in Hg. goal_cases Hg; [by apply Hs|].
      simpl. rewrite E1, E2. simpl. by apply Hs.
    + apply elem_of_cons in Hg as [->|Hg]; [|by apply Hs].
      simpl. split; [by intros [? ?]|done].
  - unfold handleTogglePinned in Hg. goal_cases Hg; [by apply Hs|].
    simpl. by apply Hs.
  - unfold handleDeleteGoal in Hg. destruct confirmed; [|by apply Hs].
    apply list_elem_of_In, filter_In in Hg as [Hg _].
    by apply Hs, list_elem_of_In.
  - unfold handleToggleArchive in Hg. goal_cases Hg; [by apply Hs|].
    simpl. by apply Hs.
  - unfold handleArchiveCategory in Hg. destruct confirmed; [|by apply Hs].
    simpl in Hg. goal_cases Hg; [by apply Hs|]. simpl. by apply Hs.
  - unfold handleToggleComplete in Hg. goal_cases Hg; [by apply Hs|].
    simpl. destruct (completed g0); simpl.
    + split; [by intros [? ?]|done].
    + split; [done|by eexists].
  - unfold handleToggleSubTask in Hg. goal_cases Hg; [by apply Hs|].
    simpl. by apply Hs.
  - unfold handleSubTaskProgress in Hg. goal_cases Hg; [by apply Hs|].
    simpl. by apply Hs.
Qed.

Lemma step_archived (op : Op) (s : AppState) :
  unarchivesCompleted op s = false ->
  (forall g, g ∈ goals s -> completed g = true -> archived g = true) ->
  forall g, g ∈ goals (step op s) -> completed g = true -> archived g = true.
Proof.
  intros Hop Hs g Hg. destruct op; simpl in Hg.
  - destruct (handleSubmit submitted f) as [i u|d] eqn:E; simpl in Hg.
    + apply handleSubmit_update in E as (E1 & E2 & E3).
      unfold handleUpdateGoal in Hg. goal_cases Hg; [by apply Hs|].
      simpl. rewrite E1, E3. simpl. by apply Hs.
    + apply elem_of_cons in Hg as [->|Hg]; [|by apply Hs]. done.
  - unfold handleTogglePinned in Hg. goal_cases Hg; [by apply Hs|].
    simpl. by apply Hs.
  - unfold handleDeleteGoal in Hg. destruct confirmed; [|by apply Hs].
    apply list_elem_of_In, filter_In in Hg as [Hg _].
    by apply Hs, list_elem_of_In.
  - unfold handleToggleArchive in Hg. goal_cases Hg; [by apply Hs|].
    simpl. intros Hdone. pose proof (Hs g0 Hg Hdone) as Harch.
    simpl in Hop. rewrite <- Bool.not_true_iff_false in Hop.
    destruct Hop. apply existsb_exists. exists g0.
    split; [by apply list_elem_of_In|]. by rewrite Hc, Hdone, Harch.
  - unfold handleArchiveCategory in Hg. destruct confirmed; [|by apply Hs].
    simpl in Hg. goal_cases Hg; [by apply Hs|]. done.
  - unfold handleToggleComplete in Hg. goal_cases Hg; [by apply Hs|].
    simpl. by destruct (completed g0).
  - unfold handleToggleSubTask in Hg. goal_cases Hg; [by apply Hs|].
    simpl. by apply Hs.
  - unfold handleSubTaskProgress in Hg. goal_cases Hg; [by apply Hs|].
    simpl. by apply Hs.
Qed.

(** C4 (as the program has it). In every state the operations of the
    repository lead to, a goal has [completedAt] set exactly when it is
    completed.  The toggle that completes a goal archives it, and a completed
    goal stays archived as long as the archive button is not pressed on a
    completed goal. *)
Theorem completion_invariants :
  (forall s g, reachable s -> g ∈ goals s ->
               (is_Some (completedAt g) <-> completed g = true))
  /\ (forall now g, completed g = false ->
        completed (toggleComplete now g) = true
        /\ archived (toggleComplete now g) = true
        /\ completedAt (toggleComplete now g) = Some now)
  /\ (forall categories ops g,
        keepsCompletedArchived ops (initialState categories) = true ->
        g ∈ goals (run ops (initialState categories)) ->
        completed g = true -> archived g = true).
Proof.
  split; [|split].
  - intros s g (categories & ops & ->). revert g.
    apply (run_invariant
             (fun s => forall g, g ∈ goals s ->
                                 (is_Some (completedAt g) <-> completed g = true))).
    + intros op s. apply step_completedAt.
    + intros g Hg. by apply elem_of_nil in Hg.
  - intros now g Hc. unfold toggleComplete. rewrite Hc. done.
  - intros categories ops.
    assert (Hinit : forall g, g ∈ goals (initialState categories) ->
                              completed g = true -> archived g = true).
    { intros g Hg. by apply elem_of_nil in Hg. }
    revert Hinit. generalize (initialState categories).
    induction ops as [|op ops IH]; intros s Hinv g Hkeep Hg.
    + by apply Hinv.
    + simpl in Hkeep. apply andb_true_iff in Hkeep as [Hop Hkeep].
      apply negb_true_iff in Hop. rewrite run_cons in Hg.
      apply (IH (step op s)); [|done..].
      by apply step_archived.
Qed.

(** A goal that is created, pinned and completed is archived. *)
Lemma completion_invariants_witness :
  Forall (fun g => completed g = true -> archived g = true) (goals completedState).
Proof.
  apply Forall_forall. intros g.
  apply (proj2 (proj2 completion_invariants) ["Health & Wellness"]%string
           [SubmitForm 1000 1000 1000 "g1" newGoalForm; TogglePinned 1500 "g1";
            ToggleComplete 2000 "g1"] g).
  vm_compute. reflexivity.
Defined.

(** C4 as stated fails: created, completed, then taken out of the archive,
    the goal is completed and not archived. *)
Lemma completed_goal_unarchived :
  reachable completedThenUnarchived
  /\ map (fun g => (completed g, archived g, completedAt g))
         (goals completedThenUnarchived)
     = [(true, false, Some 2000)].
Proof.
  split.
  - exists ["Health & Wellness"]%string,
      [SubmitForm 1000 1000 1000 "g1" newGoalForm; ToggleComplete 2000 "g1";
       ToggleArchive 3000 "g1"].
    reflexivity.
  - vm_compute. reflexivity.
Qed.

(** ** The notification scanner *)

Lemma window_bool (x : Q) :
  negb (Qle_bool x 0) && Qle_bool x 3 = true <-> (0 < x /\ x <= 3)%Q.
Proof.
  rewrite andb_true_iff, negb_true_iff, Qle_bool_iff.
  rewrite <- Bool.not_true_iff_false, Qle_bool_iff.
  split; intros [H1 H2]; split; try done.
  - by apply Qnot_le_lt.
  - by apply Qlt_not_le.
Qed.

(** The window on the days left, in milliseconds. *)
Lemma window_ms (now d : Z) :
  (0 < daysLeftAt now d /\ daysLeftAt now d <= 3)%Q <-> 0 < d - now <= 3 * day_ms.
Proof.
  unfold daysLeftAt, day_ms, Qlt, Qle. simpl. lia.
Qed.

Lemma pushDeadlineAlert_elem (now : Z) (acc : list AppNotification) (g : Goal)
    (n : AppNotification) :
  n ∈ pushDeadlineAlert now acc g
  <-> n ∈ acc
      \/ (completed g = false /\ archived g = false /\ truthy (deadline g) = true
          /\ (0 < daysLeftAt now (default 0%Z (deadline g))
              /\ daysLeftAt now (default 0%Z (deadline g)) <= 3)%Q
          /\ n = deadlineNotification now g).
Proof.
  unfold pushDeadlineAlert. fold (daysLeftAt now (default 0%Z (deadline g))).
  destruct (completed g), (archived g), (truthy (deadline g)); simpl;
    try (split; [by left | by intros [?|(?&?&?&?)]]).
  destruct (negb _ && _) eqn:E.
  - apply window_bool in E. rewrite elem_of_app, list_elem_of_singleton.
    split; (intros [?|?]; [by left|right; tauto]).
  - split; [by left|]. intros [?|(_&_&_&Hw&_)]; [done|].
    apply window_bool in Hw. congruence.
Qed.

Lemma deadlinePass_elem (now : Z) (gs : list Goal) (acc : list AppNotification)
    (n : AppNotification) :
  n ∈ fold_left (pushDeadlineAlert now) gs acc
  <-> n ∈ acc
      \/ exists g, g ∈ gs /\ completed g = false /\ archived g = false
                   /\ truthy (deadline g) = true
                   /\ (0 < daysLeftAt now (default 0%Z (deadline g))
                       /\ daysLeftAt now (default 0%Z (deadline g)) <= 3)%Q
                   /\ n = deadlineNotification now g.
Proof.
  revert acc. induction gs as [|g gs IH]; intros acc; simpl.
  - split; [by left|]. intros [?|(g & Hg & _)]; [done|].
    by apply elem_of_nil in Hg.
  - rewrite IH, pushDeadlineAlert_elem. split.
    + intros [[?|H]|(g' & Hg' & H)]; [by left| |].
      * right. exists g. split; [by left|done].
      * right. exists g'. split; [by right|done].
    + intros [?|(g' & [->|Hg']%elem_of_cons & H)]; [by left; left| |].
      * left. by right.
      * right. by exists g'.
Qed.

Lemma deadlinePass_type (now : Z) (gs : list Goal) (n : AppNotification) :
  n ∈ fold_left (pushDeadlineAlert now) gs [] -> n_type n = deadlineAlert.
Proof.
  intros [Hn|(g & _ & _ & _ & _ & _ & ->)]%deadlinePass_elem; [|done].
  by apply elem_of_nil in Hn.
Qed.

(** What a scan that was not left at the [await] has collected. *)
Lemma collectAlerts_resolved (ai : string -> string -> Awaited (option string))
    (now : Z) (gs : list Goal) (alerts : list AppNotification) :
  collectAlerts ai now gs = Resolved alerts ->
  alerts = fold_left (pushDeadlineAlert now) gs []
  \/ exists g message,
       neglectedGoal gs = Some g /\ fourDaysMs < now - lastInteractionAt g
       /\ alerts = fold_left (pushDeadlineAlert now) gs []
                   ++ [mkNotification ("nudge-" ++ id g)%string nudge
                         "A gentle nudge" message now].
Proof.
  unfold collectAlerts.
  destruct (neglectedGoal gs) as [g|]; [|intros [= <-]; by left].
  destruct (Z.ltb_spec fourDaysMs (now - lastInteractionAt g)) as [Hlt|_];
    [|intros [= <-]; by left].
  destruct (getFriendlyNudge _) as [message|]; [|done].
  intros [= <-]. right. by exists g, message.
Qed.

Lemma unique_id (gs : list Goal) (g g' : Goal) :
  NoDup (map id gs) -> g ∈ gs -> g' ∈ gs -> id g = id g' -> g = g'.
Proof.
  induction gs as [|x gs IH]; simpl; intros Hnd Hg Hg' Hid.
  - by apply elem_of_nil in Hg.
  - apply NoDup_cons in Hnd as [Hx Hnd].
    apply elem_of_cons in Hg as [->|Hg]; apply elem_of_cons in Hg' as [->|Hg'].
    + done.
    + destruct Hx. rewrite Hid. apply list_elem_of_In, in_map.
      by apply list_elem_of_In.
    + destruct Hx. rewrite <- Hid. apply list_elem_of_In, in_map.
      by apply list_elem_of_In.
    + by apply IH.
Qed.

(** The window of the deadline alert, where nothing cuts the scan short.
    For a goal that is neither completed nor archived and has a deadline,
    the pass over the goals collects an alert keyed ["deadline-" + id]
    exactly when the days left to the deadline are more than 0 and at most
    3: a deadline three days away is in, one three days and an hour away is
    out, one in the past is out.  A scan that is not left at the [await]
    hands on what the pass collected.  Identifiers are unique and the clock
    is a time from [Date.now()]. *)
Lemma deadline_alert_window (now : Z) (gs : list Goal) (g : Goal) (d : Z) :
  0 <= now ->
  NoDup (map id gs) ->
  g ∈ gs -> completed g = false -> archived g = false -> deadline g = Some d ->
  let key := ("deadline-" ++ id g)%string in
  let inWindow := (0 < daysLeftAt now d /\ daysLeftAt now d <= 3)%Q in
  (keyed (fold_left (pushDeadlineAlert now) gs []) key <-> inWindow)
  /\ (forall ai alerts,
        collectAlerts ai now gs = Resolved alerts -> (keyed alerts key <-> inWindow))
  /\ (d = now + 3 * day_ms -> keyed (fold_left (pushDeadlineAlert now) gs []) key)
  /\ (d = now + 3 * day_ms + 3600000 ->
      ~ keyed (fold_left (pushDeadlineAlert now) gs []) key)
  /\ (d < now -> ~ keyed (fold_left (pushDeadlineAlert now) gs []) key).
Proof.
  intros Hnow Hnd Hg Hc Ha Hd key inWindow.
  assert (Hpass : keyed (fold_left (pushDeadlineAlert now) gs []) key <-> inWindow).
  { unfold keyed, inWindow. split.
    - intros (n & Hn & Hkey). apply deadlinePass_elem in Hn
        as [Hn|(g' & Hg' & _ & _ & _ & Hw & ->)]; [by apply elem_of_nil in Hn|].
      assert (g' = g) as ->.
      { apply (unique_id gs); try done. unfold key in Hkey. simpl in Hkey.
        by injection Hkey. }
      by rewrite Hd in Hw.
    - intros Hw. exists (deadlineNotification now g). split; [|done].
      apply deadlinePass_elem. right. exists g. rewrite Hd. simpl.
      repeat split; try done; try apply Hw.
      apply window_ms in Hw. apply negb_true_iff, Z.eqb_neq. lia. }
  split; [done|].
  split; [|rewrite Hpass; unfold inWindow; rewrite window_ms; unfold day_ms; lia].
  intros ai alerts [->|(g' & message & _ & _ & ->)]%collectAlerts_resolved; [done|].
  rewrite <- Hpass. unfold keyed. split.
  - intros (n & [Hn|Hn]%elem_of_app & Hkey); [by exists n|].
    apply list_elem_of_singleton in Hn as ->. done.
  - intros (n & Hn & Hkey). exists n. split; [|done].
    apply elem_of_app. by left.
Qed.

(** The goal due in exactly three days is alerted on. *)
Lemma deadline_alert_window_witness :
  keyed (fold_left (pushDeadlineAlert scanTime) [dueAndNeglected; dueInThreeDays] [])
        "deadline-g2"
  <-> (0 < daysLeftAt scanTime (scanTime + 3 * day_ms)
       /\ daysLeftAt scanTime (scanTime + 3 * day_ms) <= 3)%Q.
Proof.
  apply (deadline_alert_window scanTime [dueAndNeglected; dueInThreeDays]
           dueInThreeDays (scanTime + 3 * day_ms)).
  - vm_compute. discriminate.
  - simpl. apply NoDup_cons. split.
    + intros [E|E]%elem_of_cons; [discriminate|by apply elem_of_nil in E].
    + apply NoDup_cons. split; [apply not_elem_of_nil|apply NoDup_nil_2].
  - right. left.
  - reflexivity.
  - reflexivity.
  - reflexivity.
Defined.

(** C5 fails on [checkSystems] when the advisory call of the same scan is
    rejected.  The goal is neither completed nor archived, its deadline is
    two days away, inside the window, and the pass over the goals has
    collected its alert.  The goal is also the neglected one, untouched for
    five days; the advisory call for its nudge is rejected, the rejection
    leaves [checkSystems] at the [await], and no alert keyed
    ["deadline-g1"] is emitted.  With the advisory service answering, the
    same scan emits it. *)
Theorem deadline_alert_lost :
  completed dueAndNeglected = false
  /\ archived dueAndNeglected = false
  /\ deadline dueAndNeglected = Some (scanTime + 2 * day_ms)
  /\ (0 < daysLeftAt scanTime (scanTime + 2 * day_ms)
      /\ daysLeftAt scanTime (scanTime + 2 * day_ms) <= 3)%Q
  /\ map n_id (fold_left (pushDeadlineAlert scanTime) [dueAndNeglected] [])
     = ["deadline-g1"]%string
  /\ emittedAlerts advisoryDown scanTime [dueAndNeglected] = []
  /\ ~ keyed (emittedAlerts advisoryDown scanTime [dueAndNeglected]) "deadline-g1"
  /\ map n_id (emittedAlerts advisoryUp scanTime [dueAndNeglected])
     = ["deadline-g1"; "nudge-g1"]%string.
Proof.
  split; [reflexivity|]. split; [reflexivity|]. split; [reflexivity|].
  split; [apply window_ms; unfold scanTime, day_ms; lia|].
  split; [vm_compute; reflexivity|].
  assert (E : emittedAlerts advisoryDown scanTime [dueAndNeglected] = [])
    by (vm_compute; reflexivity).
  split; [exact E|]. split; [|vm_compute; reflexivity].
  rewrite E. intros (n & Hn & _). by apply elem_of_nil in Hn.
Qed.

Lemma neglectedGoal_least (gs : list Goal) (g : Goal) :
  neglectedGoal gs = Some g ->
  g ∈ gs /\ completed g = false /\ archived g = false
  /\ (forall g', g' ∈ gs -> completed g' = false -> archived g' = false ->
                 lastInteractionAt g <= lastInteractionAt g').
Proof.
  unfold neglectedGoal. intros Hhead.
  assert (Hin : g ∈ List.filter (fun g => negb (completed g) && negb (archived g)) gs).
  { eapply Array_sort_elem_of. by apply head_Some_elem_of. }
  apply list_elem_of_In, filter_In in Hin as [Hin Hq].
  apply andb_true_iff in Hq as [Hc Ha]. apply negb_true_iff in Hc, Ha.
  repeat split; [by apply list_elem_of_In|done..|].
  intros g' Hg' Hc' Ha'.
  destruct (Array_sort_head _ compareInteraction_consistent _ g g' Hhead) as [->|Hle].
  - apply list_elem_of_In, filter_In. split; [by apply list_elem_of_In|].
    by rewrite Hc', Ha'.
  - done.
  - unfold notAfter in Hle. simpl in Hle. apply Z.ltb_ge in Hle. lia.
Qed.

(** C6. A scan emits at most one nudge; a nudge it emits is keyed
    ["nudge-" + id] for a goal that is neither completed nor archived, whose
    [lastInteractionAt] is least among such goals and lies more than four
    days back; and when no such goal lies more than four days back no nudge
    is emitted, however many goals there are. *)
Theorem neglect_nudge (ai : string -> string -> Awaited (option string))
    (now : Z) (gs : list Goal) :
  let alerts := emittedAlerts ai now gs in
  (length (List.filter (fun n => bool_decide (n_type n = nudge)) alerts) <= 1)%nat
  /\ (forall n, n ∈ alerts -> n_type n = nudge ->
        exists g, g ∈ gs /\ completed g = false /\ archived g = false
                  /\ (forall g', g' ∈ gs -> completed g' = false ->
                                  archived g' = false ->
                                  lastInteractionAt g <= lastInteractionAt g')
                  /\ 4 * day_ms < now - lastInteractionAt g
                  /\ n_id n = ("nudge-" ++ id g)%string)
  /\ ((forall g, g ∈ gs -> completed g = false -> archived g = false ->
                  now - lastInteractionAt g <= 4 * day_ms) ->
      forall n, n ∈ alerts -> n_type n <> nudge)
  /\ (forall st n, n ∈ notifications (afterScan ai now gs st) ->
                   n ∈ notifications st \/ n ∈ alerts).
Proof.
  intros alerts.
  assert (Hpass : List.filter (fun n => bool_decide (n_type n = nudge))
                    (fold_left (pushDeadlineAlert now) gs []) = []).
  { assert (H : forall n, n ∈ fold_left (pushDeadlineAlert now) gs [] ->
                          n_type n = deadlineAlert)
      by apply deadlinePass_type.
    induction (fold_left (pushDeadlineAlert now) gs []) as [|n l IH]; [done|].
    simpl. rewrite (H n) by left. simpl. apply IH. intros; apply H; by right. }
  assert (Hshape : alerts = [] \/ alerts = fold_left (pushDeadlineAlert now) gs []
            \/ exists g message,
                 neglectedGoal gs = Some g /\ fourDaysMs < now - lastInteractionAt g
                 /\ alerts = fold_left (pushDeadlineAlert now) gs []
                     ++ [mkNotification ("nudge-" ++ id g)%string nudge
                           "A gentle nudge" message now]).
  { unfold alerts, emittedAlerts.
    destruct (collectAlerts ai now gs) as [l|] eqn:E; [|by left].
    right. by apply (collectAlerts_resolved ai). }
  assert (Hnudge : forall n, n ∈ alerts -> n_type n = nudge ->
            exists g, neglectedGoal gs = Some g
                      /\ fourDaysMs < now - lastInteractionAt g
                      /\ n_id n = ("nudge-" ++ id g)%string).
  { intros n Hn Ht. destruct Hshape as [E|[E|(g & message & Hg & Hlt & E)]];
      rewrite E in Hn.
    - by apply elem_of_nil in Hn.
    - apply deadlinePass_type in Hn. congruence.
    - apply elem_of_app in Hn as [Hn|Hn].
      + apply deadlinePass_type in Hn. congruence.
      + apply list_elem_of_singleton in Hn as ->. by exists g. }
  split; [|split; [|split]].
  - destruct Hshape as [E|[E|(g & message & _ & _ & E)]]; rewrite E.
    + simpl. lia.
    + rewrite Hpass. simpl. lia.
    + rewrite List.filter_app, Hpass. simpl. lia.
  - intros n Hn Ht. destruct (Hnudge n Hn Ht) as (g & Hg & Hlt & Hid).
    apply neglectedGoal_least in Hg as (Hin & Hc & Ha & Hmin).
    exists g. by repeat split.
  - intros Hall n Hn Ht. destruct (Hnudge n Hn Ht) as (g & Hg & Hlt & Hid).
    apply neglectedGoal_least in Hg as (Hin & Hc & Ha & Hmin).
    specialize (Hall g Hin Hc Ha). unfold fourDaysMs, day_ms in *. lia.
  - intros st n. unfold afterScan, checkSystems, alerts, emittedAlerts.
    destruct (collectAlerts ai now gs) as [l|]; [|by left].
    destruct (0 <? length l)%nat; [|by left].
    unfold appendFresh. simpl. intros [Hn|Hn]%elem_of_app; [right|by left].
    apply list_elem_of_In, filter_In in Hn as [Hn _]. by apply list_elem_of_In.
Qed.

(** The goal untouched for five days is the one nudged. *)
Lemma neglect_nudge_witness :
  (length (List.filter (fun n => bool_decide (n_type n = nudge))
             (emittedAlerts advisoryUp scanTime [dueInThreeDays; dueAndNeglected]))
   <= 1)%nat
  /\ map n_id (emittedAlerts advisoryUp scanTime [dueInThreeDays; dueAndNeglected])
     = ["deadline-g2"; "deadline-g1"; "nudge-g1"]%string.
Proof.
  split.
  - apply (neglect_nudge advisoryUp scanTime [dueInThreeDays; dueAndNeglected]).
  - vm_compute. reflexivity.
Defined.

(** C7 fails on [checkSystems]: the awaited advisory call stands in no
    [try].  When the call for the nudge is rejected, [checkSystems] is left
    at the [await]: the promise it returns is rejected and nothing is
    emitted, neither a nudge nor the deadline alerts the scan had collected,
    where the claim has the nudge skipped and the other alerts appended. *)
Theorem rejected_nudge (ai : string -> string -> Awaited (option string))
    (now : Z) (gs : list Goal) (st : Notifications) (g : Goal) :
  neglectedGoal gs = Some g ->
  fourDaysMs < now - lastInteractionAt g ->
  ai (title g) (area g) = Rejected ->
  checkSystems ai now gs st = Rejected
  /\ emittedAlerts ai now gs = []
  /\ afterScan ai now gs st = st.
Proof.
  intros Hg Hlt Hai.
  assert (E : collectAlerts ai now gs = Rejected).
  { unfold collectAlerts. rewrite Hg.
    destruct (Z.ltb_spec fourDaysMs (now - lastInteractionAt g)); [|lia].
    by rewrite Hai. }
  unfold afterScan, emittedAlerts, checkSystems. by rewrite E.
Qed.

(** The scan of the goal due in two days and untouched for five, with the
    advisory service down. *)
Lemma rejected_nudge_witness :
  checkSystems advisoryDown scanTime [dueAndNeglected] noNotifications = Rejected
  /\ emittedAlerts advisoryDown scanTime [dueAndNeglected] = []
  /\ afterScan advisoryDown scanTime [dueAndNeglected] noNotifications
     = noNotifications.
Proof.
  apply (rejected_nudge advisoryDown scanTime [dueAndNeglected] noNotifications
           dueAndNeglected).
  - reflexivity.
  - vm_compute. reflexivity.
  - reflexivity.
Defined.

(** The failing scan evaluated: the pass had collected the deadline alert
    of the goal, the advisory call is rejected, and the alert is not
    appended; the rejection leaves [checkSystems].  With the service up the
    same scan appends both notifications. *)
Lemma rejected_nudge_drops_deadline_alert :
  map n_id (fold_left (pushDeadlineAlert scanTime) [dueAndNeglected] [])
  = ["deadline-g1"]%string
  /\ checkSystems advisoryDown scanTime [dueAndNeglected] noNotifications = Rejected
  /\ notifications (afterScan advisoryDown scanTime [dueAndNeglected] noNotifications)
     = []
  /\ map n_id
       (notifications (afterScan advisoryUp scanTime [dueAndNeglected] noNotifications))
     = ["deadline-g1"; "nudge-g1"]%string.
Proof. repeat split; vm_compute; reflexivity. Qed.


(** * Further properties of the application *)

(** ** Scans, once more *)

Lemma filter_none {A : Type} (f : A -> bool) (l : list A) :
  (forall a, a ∈ l -> f a = false) -> List.filter f l = [].
Proof.
  induction l as [|a l IH]; intros H; simpl; [done|].
  rewrite (H a) by left. apply IH. intros; apply H; by right.
Qed.

Lemma appendFresh_twice (l : list AppNotification) (st : Notifications) :
  appendFresh l (appendFresh l st) = appendFresh l st.
Proof.
  unfold appendFresh at 1.
  set (st1 := appendFresh l st).
  assert (Hnone : List.filter
            (fun a => negb (existsb (fun p => String.eqb (n_id p) (n_id a))
                                    (notifications st1))) l = []).
  { apply filter_none. intros a Ha. apply negb_false_iff.
    unfold st1, appendFresh. simpl. rewrite existsb_app.
    destruct (existsb (fun p => String.eqb (n_id p) (n_id a)) (notifications st))
      eqn:E; [by rewrite orb_true_r|].
    rewrite orb_false_r. apply existsb_exists. exists a.
    split; [|apply String.eqb_refl].
    apply filter_In. split; [by apply list_elem_of_In|]. by rewrite E. }
  rewrite Hnone. reflexivity.
Qed.

(** X1. A scan repeated on the same goals at the same time, with the same
    answers of the advisory service, changes nothing: every alert it
    collects is already listed, so nothing is appended and the toast stays. *)
Theorem scan_twice (ai : string -> string -> Awaited (option string))
    (now : Z) (gs : list Goal) (st : Notifications) :
  afterScan ai now gs (afterScan ai now gs st) = afterScan ai now gs st.
Proof.
  unfold afterScan, checkSystems.
  destruct (collectAlerts ai now gs) as [l|] eqn:E; [|done].
  destruct (0 <? length l)%nat; [|done].
  apply appendFresh_twice.
Qed.

Lemma NoDup_map_filter {A B : Type} (f : A -> B) (p : A -> bool) (l : list A) :
  NoDup (map f l) -> NoDup (map f (List.filter p l)).
Proof.
  induction l as [|a l IH]; simpl; intros Hnd; [done|].
  apply NoDup_cons in Hnd as [Ha Hnd].
  destruct (p a); simpl; [|by apply IH].
  apply NoDup_cons. split; [|by apply IH].
  intros Hin. apply Ha.
  apply list_elem_of_In, in_map_iff in Hin as (x & Hx & Hin).
  apply filter_In in Hin as [Hin _].
  apply list_elem_of_In, in_map_iff. by exists x.
Qed.

Lemma deadlinePass_keys (now : Z) (gs : list Goal) (acc : list AppNotification) :
  NoDup (map id gs) ->
  NoDup (map n_id acc) ->
  (forall n g, n ∈ acc -> g ∈ gs -> n_id n <> ("deadline-" ++ id g)%string) ->
  NoDup (map n_id (fold_left (pushDeadlineAlert now) gs acc)).
Proof.
  revert acc. induction gs as [|g gs IH]; intros acc Hgs Hacc Hfresh; simpl; [done|].
  apply NoDup_cons in Hgs as [Hg Hgs].
  apply IH; [done| |].
  - unfold pushDeadlineAlert.
    destruct (_ && _ && _); [|done]. destruct (_ && _); [|done].
    rewrite map_app. simpl. apply NoDup_app. split; [done|]. split.
    + intros k Hk [E|E]%elem_of_cons; [|by apply elem_of_nil in E].
      apply list_elem_of_In, in_map_iff in Hk as (n & <- & Hn).
      apply (Hfresh n g); [by apply list_elem_of_In|by left|done].
    + apply NoDup_singleton.
  - intros n g' Hn Hg'. apply pushDeadlineAlert_elem in Hn
      as [Hn|(_ & _ & _ & _ & ->)].
    + apply Hfresh; [done|by right].
    + simpl. intros [= E]. apply Hg.
      assert (id g = id g') as -> by exact E.
      apply list_elem_of_In, in_map. by apply list_elem_of_In.
Qed.

Lemma collectAlerts_keys (ai : string -> string -> Awaited (option string))
    (now : Z) (gs : list Goal) (l : list AppNotification) :
  NoDup (map id gs) -> collectAlerts ai now gs = Resolved l -> NoDup (map n_id l).
Proof.
  intros Hgs Hl.
  assert (Hpass : NoDup (map n_id (fold_left (pushDeadlineAlert now) gs []))).
  { apply deadlinePass_keys; [done|apply NoDup_nil_2|].
    intros n g Hn. by apply elem_of_nil in Hn. }
  apply (collectAlerts_resolved ai) in Hl as [->|(g & message & _ & _ & ->)]; [done|].
  rewrite map_app. simpl. apply NoDup_app. split; [done|]. split; [|apply NoDup_singleton].
  intros k Hk [E|E]%elem_of_cons; [|by apply elem_of_nil in E].
  apply list_elem_of_In, in_map_iff in Hk as (n & <- & Hn).
  apply list_elem_of_In, deadlinePass_elem in Hn as [Hn|(g' & _ & _ & _ & _ & _ & ->)].
  - by apply elem_of_nil in Hn.
  - simpl in E. discriminate.
Qed.

(** X2. When the goals carry distinct identifiers and the listed
    notifications distinct keys, the notifications after a scan still carry
    distinct keys: no alert is listed twice, in one scan or over many. *)
Theorem scan_keeps_keys_distinct (ai : string -> string -> Awaited (option string))
    (now : Z) (gs : list Goal) (st : Notifications) :
  NoDup (map id gs) ->
  NoDup (map n_id (notifications st)) ->
  NoDup (map n_id (notifications (afterScan ai now gs st))).
Proof.
  intros Hgs Hst. unfold afterScan, checkSystems.
  destruct (collectAlerts ai now gs) as [l|] eqn:E; [|done].
  destruct (0 <? length l)%nat; [|done].
  apply collectAlerts_keys in E; [|done].
  unfold appendFresh. simpl. rewrite map_app. apply NoDup_app.
  split; [by apply NoDup_map_filter|]. split; [|done].
  intros k Hk Hprev.
  apply list_elem_of_In, in_map_iff in Hk as (a & <- & Ha).
  apply filter_In in Ha as [_ Ha]. apply negb_true_iff in Ha.
  rewrite <- Bool.not_true_iff_false in Ha. apply Ha.
  apply list_elem_of_In, in_map_iff in Hprev as (p & Hp & Hin).
  apply existsb_exists. exists p. split; [done|]. by apply String.eqb_eq.
Qed.

(** Two scans of the two sample goals, a day apart. *)
Lemma scan_keeps_keys_distinct_witness :
  NoDup (map n_id
           (notifications
              (afterScan advisoryUp (scanTime + day_ms) [dueInThreeDays; dueAndNeglected]
                 (afterScan advisoryUp scanTime [dueInThreeDays; dueAndNeglected]
                    noNotifications)))).
Proof.
  assert (Hgs : NoDup (map id [dueInThreeDays; dueAndNeglected])).
  { simpl. apply NoDup_cons. split.
    - intros [E|E]%elem_of_cons; [discriminate|by apply elem_of_nil in E].
    - apply NoDup_singleton. }
  apply (scan_keeps_keys_distinct advisoryUp (scanTime + day_ms)
           [dueInThreeDays; dueAndNeglected]); [done|].
  apply (scan_keeps_keys_distinct advisoryUp scanTime
           [dueInThreeDays; dueAndNeglected] noNotifications); [done|].
  apply NoDup_nil_2.
Defined.

(** ** The repository, operation by operation *)

Lemma map_if_frame (c : Goal -> bool) (h : Goal -> Goal) (prev : list Goal) :
  (forall g, c g = true -> id (h g) = id g) ->
  map id (map (fun g => if c g then h g else g) prev) = map id prev
  /\ (forall k g, prev !! k = Some g -> c g = false ->
                  map (fun g => if c g then h g else g) prev !! k = Some g).
Proof.
  intros Hid. split.
  - induction prev as [|g prev IH]; simpl; [done|].
    rewrite IH. destruct (c g) eqn:E; [by rewrite Hid|done].
  - intros k g Hk Hc.
    change (@map Goal Goal) with (@fmap list _ Goal Goal).
    rewrite list_lookup_fmap, Hk. simpl. by rewrite Hc.
Qed.

Lemma handleSubmit_update_id (now : Z) (f : GoalFormState) (i : string)
    (u : PartialGoal) :
  handleSubmit now f = OnUpdate i u -> p_id u = None.
Proof.
  unfold handleSubmit.
  destruct (f_initialData f) as [[g0|a]|]; try done.
  destruct (nonEmpty (id g0)); [|done].
  by intros [= <- <-].
Qed.

(** X3. An operation addressed at one goal (an edit, a toggle, a sub-task
    step) keeps the identifiers of the collection and their order, leaves
    every goal with another identifier as it is, and leaves the categories
    alone. *)
Theorem step_frame (op : Op) (s : AppState) (i : string) :
  addressed op = Some i ->
  map id (goals (step op s)) = map id (goals s)
  /\ (forall k g, goals s !! k = Some g -> id g <> i ->
                  goals (step op s) !! k = Some g)
  /\ userCategories (step op s) = userCategories s
  /\ areaOrder (step op s) = areaOrder s
  /\ archivedCategories (step op s) = archivedCategories s.
Proof.
  intros Ha.
  assert (Hne : forall g, id g <> i -> String.eqb (id g) i = false).
  { intros g Hg. by apply String.eqb_neq. }
  destruct op; simpl in Ha; try done.
  - simpl. destruct (handleSubmit submitted f) as [j u|d] eqn:E; [|done].
    injection Ha as ->. apply handleSubmit_update_id in E.
    simpl. unfold handleUpdateGoal.
    destruct (map_if_frame (fun g => String.eqb (id g) i)
                (fun g => withLastInteractionAt now (spread g u)) (goals s))
      as [H1 H2]; [intros g _; simpl; by rewrite E|].
    repeat split; [done|]. intros k g Hk Hg. apply H2; auto.
  - injection Ha as ->. simpl. unfold handleTogglePinned.
    destruct (map_if_frame (fun g => String.eqb (id g) i)
                (fun g => withLastInteractionAt now (withPinned (negb (pinned g)) g))
                (goals s)) as [H1 H2]; [done|].
    repeat split; [done|]. intros k g Hk Hg. apply H2; auto.
  - injection Ha as ->. simpl. unfold handleToggleArchive.
    destruct (map_if_frame (fun g => String.eqb (id g) i)
                (fun g => withLastInteractionAt now (withArchived (negb (archived g)) g))
                (goals s)) as [H1 H2]; [done|].
    repeat split; [done|]. intros k g Hk Hg. apply H2; auto.
  - injection Ha as ->. simpl. unfold handleToggleComplete.
    destruct (map_if_frame (fun g => String.eqb (id g) i) (toggleComplete now)
                (goals s)) as [H1 H2]; [done|].
    repeat split; [done|]. intros k g Hk Hg. apply H2; auto.
  - injection Ha as ->. simpl. unfold handleToggleSubTask.
    match goal with |- context [map ?F (goals s)] =>
      match F with (fun g => if _ then @?H g else g) =>
        destruct (map_if_frame (fun g => String.eqb (id g) i) H (goals s))
          as [H1 H2]; [done|]
      end
    end.
    repeat split; [done|]. intros k g Hk Hg. apply H2; auto.
  - injection Ha as ->. simpl. unfold handleSubTaskProgress.
    match goal with |- context [map ?F (goals s)] =>
      match F with (fun g => if _ then @?H g else g) =>
        destruct (map_if_frame (fun g => String.eqb (id g) i) H (goals s))
          as [H1 H2]; [done|]
      end
    end.
    repeat split; [done|]. intros k g Hk Hg. apply H2; auto.
Qed.

(** Pinning the urgent goal leaves the recent one and the categories. *)
Lemma step_frame_witness :
  map id (goals (step (TogglePinned 5000 "urgent")
                   (mkAppState [recentGoal; urgentGoal] [] [] [])))
  = map id [recentGoal; urgentGoal].
Proof.
  apply (step_frame (TogglePinned 5000 "urgent")
           (mkAppState [recentGoal; urgentGoal] [] [] []) "urgent").
  reflexivity.
Defined.

(** X4. A confirmed deletion leaves exactly the goals with another
    identifier, in their order, and a declined one leaves the collection as
    it is; deleting the goal that was just created, under an identifier no
    other goal carries, gives back the collection as it was before. *)
Theorem delete_after_add (now later : Z) (uuid : string) (goalData : GoalData)
    (prev : list Goal) :
  uuid ∉ map id prev ->
  handleDeleteGoal true uuid (handleAddGoal now later uuid goalData prev) = prev
  /\ (forall i g, g ∈ handleDeleteGoal true i prev <-> g ∈ prev /\ id g <> i)
  /\ (forall i, handleDeleteGoal false i prev = prev).
Proof.
  intros Hfresh. split; [|split; [|done]].
  - unfold handleDeleteGoal, handleAddGoal. simpl. rewrite String.eqb_refl. simpl.
    induction prev as [|g prev IH]; simpl; [done|].
    destruct (String.eqb_spec (id g) uuid) as [E|E]; simpl.
    + destruct Hfresh. rewrite <- E. simpl. by left.
    + rewrite IH; [done|]. intros H. apply Hfresh. simpl. by right.
  - intros i g. unfold handleDeleteGoal.
    rewrite !list_elem_of_In, filter_In, negb_true_iff, String.eqb_neq. tauto.
Qed.

Lemma delete_after_add_witness :
  handleDeleteGoal true "fresh"
    (handleAddGoal 5000 5001 "fresh"
       (mkGoalData "Marathon" EmptyString GoalLevel.MEDIUM GoalPriority.MEDIUM
          "Health & Wellness" None 0%Q false 5000 0 [fiveCheckIns])
       [recentGoal; urgentGoal])
  = [recentGoal; urgentGoal].
Proof.
  apply (delete_after_add 5000 5001 "fresh").
  simpl. intros [E|[E|E]%elem_of_cons]%elem_of_cons;
    [discriminate|discriminate|by apply elem_of_nil in E].
Defined.

(** X5. A form that was not opened on a stored goal (the empty form, the
    form opened from an area, or one opened on data without an identifier)
    puts one goal in front of the collection when it is submitted and
    changes no other: the new goal carries the fresh identifier and the
    fields of the form, is neither completed nor archived, has no completion
    time, is created at the first reading of the clock in [handleAddGoal]
    and last touched at the second, takes the length of the collection as
    its [order], and none of its steps has a blank text or is deleted. *)
Theorem submit_new_goal (submitted now later : Z) (uuid : string)
    (f : GoalFormState) (s : AppState) :
  (forall g, f_initialData f = Some (FullGoal g) -> id g = EmptyString) ->
  exists g, goals (step (SubmitForm submitted now later uuid f) s) = g :: goals s
            /\ id g = uuid /\ title g = f_title f /\ area g = f_area f
            /\ deadline g = f_deadline f /\ pinned g = f_pinned f
            /\ completed g = false /\ archived g = false
            /\ completedAt g = None /\ createdAt g = now
            /\ lastInteractionAt g = later
            /\ order g = Z.of_nat (length (goals s))
            /\ Forall (fun t => nonEmpty (trim (st_text t)) = true
                                /\ deleted t = false) (subTasks g).
Proof.
  intros Hnew.
  assert (E : exists d, handleSubmit submitted f = OnAdd d
                        /\ d_title d = f_title f /\ d_area d = f_area f
                        /\ d_deadline d = f_deadline f /\ d_pinned d = f_pinned f
                        /\ d_subTasks d
                           = List.filter (fun t => nonEmpty (trim (st_text t)))
                               (f_subTasks f)).
  { unfold handleSubmit. destruct (f_initialData f) as [[g0|a]|].
    - rewrite (Hnew g0 eq_refl). simpl. by eexists.
    - by eexists.
    - by eexists. }
  destruct E as (d & E & Et & Ea & Ed & Ep & Es).
  simpl. rewrite E. simpl. eexists. split; [reflexivity|]. simpl.
  repeat split; try done.
  rewrite Es. apply Forall_forall. intros t Ht.
  apply list_elem_of_In, in_map_iff in Ht as (t0 & <- & Ht0).
  apply filter_In in Ht0 as [_ Ht0]. by simpl.
Qed.

(** The form opened from the header of an area, with a title and one step. *)
Lemma submit_new_goal_witness :
  exists g, goals (step (SubmitForm 1000 1001 1002 "g1" areaGoalForm)
                     (initialState ["Health & Wellness"]))
            = g :: goals (initialState ["Health & Wellness"])
            /\ id g = "g1"%string /\ title g = f_title areaGoalForm
            /\ area g = f_area areaGoalForm
            /\ deadline g = f_deadline areaGoalForm
            /\ pinned g = f_pinned areaGoalForm
            /\ completed g = false /\ archived g = false
            /\ completedAt g = None /\ createdAt g = 1001
            /\ lastInteractionAt g = 1002
            /\ order g = Z.of_nat (length (goals (initialState ["Health & Wellness"])))
            /\ Forall (fun t => nonEmpty (trim (st_text t)) = true
                                /\ deleted t = false) (subTasks g).
Proof.
  apply (submit_new_goal 1000 1001 1002 "g1" areaGoalForm
           (initialState ["Health & Wellness"])).
  intros g. discriminate.
Defined.

(** X6. Pressing the pin button twice, or the archive button twice, brings
    the flag of every goal back to what it was.  Completing a goal and
    reactivating it leaves it not completed, without a completion time and
    not archived, also when it had been archived by hand before. *)
Theorem toggles_twice (now now' : Z) (i : string) (prev : list Goal) :
  map pinned (handleTogglePinned now' i (handleTogglePinned now i prev))
  = map pinned prev
  /\ map archived (handleToggleArchive now' i (handleToggleArchive now i prev))
     = map archived prev
  /\ (forall k g,
        prev !! k = Some g -> id g = i -> completed g = false ->
        exists g',
          handleToggleComplete now' i (handleToggleComplete now i prev) !! k = Some g'
          /\ completed g' = false /\ archived g' = false /\ completedAt g' = None
          /\ lastInteractionAt g' = now').
Proof.
  split; [|split].
  - unfold handleTogglePinned. rewrite !map_map.
    apply map_ext. intros g.
    destruct (String.eqb (id g) i) eqn:E; simpl; rewrite E; simpl; [|done].
    apply negb_involutive.
  - unfold handleToggleArchive. rewrite !map_map.
    apply map_ext. intros g.
    destruct (String.eqb (id g) i) eqn:E; simpl; rewrite E; simpl; [|done].
    apply negb_involutive.
  - intros k g Hk <- Hc. unfold handleToggleComplete.
    change (@map Goal Goal) with (@fmap list _ Goal Goal).
    rewrite !list_lookup_fmap, Hk. simpl. rewrite String.eqb_refl. simpl.
    rewrite String.eqb_refl. eexists. split; [reflexivity|].
    unfold toggleComplete. simpl. by rewrite Hc.
Qed.

(** The goal archived by hand, completed and reactivated, is active again. *)
Lemma toggles_twice_witness :
  exists g',
    handleToggleComplete 7000 "urgent"
      (handleToggleComplete 6000 "urgent" [withArchived true urgentGoal]) !! 0%nat
    = Some g'
    /\ completed g' = false /\ archived g' = false /\ completedAt g' = None
    /\ lastInteractionAt g' = 7000.
Proof.
  apply (proj2 (proj2 (toggles_twice 6000 7000 "urgent" [withArchived true urgentGoal]))
           0%nat (withArchived true urgentGoal)); reflexivity.
Defined.

(** ** The progress percentage, once more *)

Lemma Math_round_le (x y : Q) : (x <= y)%Q -> Math_round x <= Math_round y.
Proof. intros H. unfold Math_round. apply Qfloor_resp_le. by apply Qplus_le_l. Qed.

Lemma inject_Z_pos (b : Z) : 0 < b -> (0 < inject_Z b)%Q.
Proof. intros H. replace 0%Q with (inject_Z 0) by reflexivity. by rewrite <- Zlt_Qlt. Qed.

Lemma Qdiv_le_compat (x y c : Q) : (0 < c)%Q -> (x <= y)%Q -> (x / c <= y / c)%Q.
Proof.
  intros Hc Hxy. unfold Qdiv. apply Qmult_le_compat_r; [done|].
  apply Qlt_le_weak. by apply Qinv_lt_0_compat.
Qed.

Lemma clamped_pos (x : Q) : (0 < Qmax (1 # 10000) (Qmin 1 x))%Q.
Proof. eapply Qlt_le_trans; [|apply Q.le_max_l]. reflexivity. Qed.

Lemma clamped_le_1 (x : Q) : (Qmax (1 # 10000) (Qmin 1 x) <= 1)%Q.
Proof. apply Q.max_lub; [discriminate|apply Q.le_min_l]. Qed.

(** More summed progress over the same summed target gives at least the
    percentage. *)
Lemma progressPct_le (now : Z) (g1 g2 : Goal) :
  completed g1 = completed g2 ->
  deadline g1 = deadline g2 ->
  createdAt g1 = createdAt g2 ->
  totalTarget g1 = totalTarget g2 ->
  totalCurrent g1 <= totalCurrent g2 ->
  progressPct now g1 <= progressPct now g2.
Proof.
  intros Hc Hd Hs Ht Hle. unfold progressPct. rewrite Hc, Hd, Hs, Ht.
  destruct (completed g2); [done|].
  destruct (Z.ltb_spec 0 (totalTarget g2)) as [Hpos|_]; [|done].
  assert (Hr : (inject_Z (totalCurrent g1) / inject_Z (totalTarget g2)
                <= inject_Z (totalCurrent g2) / inject_Z (totalTarget g2))%Q).
  { apply Qdiv_le_compat; [by apply inject_Z_pos|by rewrite <- Zle_Qle]. }
  destruct (negb (truthy (deadline g2))); apply Math_round_le.
  - apply Qmult_le_compat_r; [done|discriminate].
  - apply Qmult_le_compat_r; [|discriminate].
    apply Qdiv_le_compat; [apply clamped_pos|done].
Qed.

(** X7. With the same completion flag, deadline, creation time and summed
    target, a goal with more summed progress shows at least the percentage
    of one with less. *)
Theorem progressPct_monotone (now : Z) (g1 g2 : Goal) :
  completed g1 = completed g2 ->
  deadline g1 = deadline g2 ->
  createdAt g1 = createdAt g2 ->
  totalTarget g1 = totalTarget g2 ->
  totalCurrent g1 <= totalCurrent g2 ->
  progressPct now g1 <= progressPct now g2.
Proof. apply progressPct_le. Qed.

(** One check-in more on the step of the worked example. *)
Lemma progressPct_monotone_witness :
  progressPct (scanTime + 5 * day_ms) (exampleGoal scanTime)
  <= progressPct (scanTime + 5 * day_ms)
       (withSubTasks [subTaskProgress 1 exampleSubTask] (exampleGoal scanTime)).
Proof.
  apply progressPct_monotone; try reflexivity. vm_compute. discriminate.
Defined.

Lemma totalCurrent_nonneg (g : Goal) :
  (forall t, t ∈ activeSubTasks g -> 0 <= currentProgress t) -> 0 <= totalCurrent g.
Proof.
  intros H. rewrite totalCurrent_sum.
  unfold activeSubTasks in H. fold (ProgressSpec.nonDeleted g) in H.
  induction (ProgressSpec.nonDeleted g) as [|t l IH]; simpl; [done|].
  assert (0 <= currentProgress t) by (apply H; left).
  assert (0 <= ProgressSpec.sum currentProgress l)
    by (apply IH; intros; apply H; by right).
  lia.
Qed.

Lemma ratio_nonneg (a b : Z) : 0 <= a -> 0 < b -> (0 <= inject_Z a / inject_Z b)%Q.
Proof.
  intros Ha Hb. apply Qle_shift_div_l; [by apply inject_Z_pos|].
  rewrite Qmult_0_l. replace 0%Q with (inject_Z 0) by reflexivity.
  by rewrite <- Zle_Qle.
Qed.

(** X8. The width of the progress bar never exceeds 100, and it is not
    negative when no step of the goal that is not deleted has a negative
    progress. *)
Theorem cappedProgressPct_range (now : Z) (g : Goal) :
  (forall t, t ∈ activeSubTasks g -> 0 <= currentProgress t) ->
  0 <= cappedProgressPct now g <= 100.
Proof.
  intros H. apply totalCurrent_nonneg in H.
  unfold cappedProgressPct. split; [|lia].
  apply Z.min_glb; [done|]. unfold progressPct.
  destruct (completed g); [done|].
  destruct (Z.ltb_spec 0 (totalTarget g)) as [Hpos|_]; [|done].
  pose proof (ratio_nonneg _ _ H Hpos) as Hr.
  change 0 with (Math_round 0).
  destruct (negb (truthy (deadline g))); apply Math_round_le.
  - apply Qmult_le_0_compat; [done|discriminate].
  - apply Qmult_le_0_compat; [|discriminate].
    apply Qle_shift_div_l; [apply clamped_pos|]. by rewrite Qmult_0_l.
Qed.

Lemma cappedProgressPct_range_witness :
  0 <= cappedProgressPct (scanTime + day_ms) (exampleGoal scanTime) <= 100.
Proof.
  apply cappedProgressPct_range. intros t Ht.
  apply list_elem_of_In in Ht. simpl in Ht. destruct Ht as [<-|[]]. done.
Defined.

(** X9. For a goal that is not completed and whose summed progress is not
    negative, a deadline never lowers the percentage below the one the goal
    would show without it, and from the deadline on it shows exactly that
    one. *)
Theorem deadline_never_lowers (now : Z) (g : Goal) :
  0 <= totalCurrent g ->
  progressPct now (withDeadline None g) <= progressPct now g
  /\ (forall d, deadline g = Some d -> d <= now ->
                progressPct now g = progressPct now (withDeadline None g)).
Proof.
  intros Hcur.
  assert (HT : totalTarget (withDeadline None g) = totalTarget g) by reflexivity.
  assert (HC : totalCurrent (withDeadline None g) = totalCurrent g) by reflexivity.
  unfold progressPct. rewrite HT, HC. simpl.
  destruct (completed g); [done|].
  destruct (Z.ltb_spec 0 (totalTarget g)) as [Hpos|_]; [|done].
  pose proof (ratio_nonneg _ _ Hcur Hpos) as Hr.
  set (r := (inject_Z (totalCurrent g) / inject_Z (totalTarget g))%Q) in *.
  split.
  - destruct (negb (truthy (deadline g))); [done|].
    apply Math_round_le. apply Qmult_le_compat_r; [|discriminate].
    apply Qle_shift_div_l; [apply clamped_pos|].
    rewrite <- (Qmult_1_r r) at 2.
    rewrite (Qmult_comm r), (Qmult_comm r 1).
    apply Qmult_le_compat_r; [apply clamped_le_1|done].
  - intros d Hd Hnow. rewrite Hd. simpl.
    destruct (d =? 0); simpl; [done|].
    apply Math_round_comp.
    rewrite (timeRatio_elapsed (Z.max 1 (now - createdAt g))
                               (Z.max 1 (d - createdAt g))) by lia.
    by rewrite Qdiv_one.
Qed.

(** The goal of the worked example, past its deadline. *)
Lemma deadline_never_lowers_witness :
  progressPct (scanTime + 11 * day_ms) (withDeadline None (exampleGoal scanTime))
  <= progressPct (scanTime + 11 * day_ms) (exampleGoal scanTime).
Proof.
  apply (deadline_never_lowers (scanTime + 11 * day_ms) (exampleGoal scanTime)).
  vm_compute. discriminate.
Defined.

(** ** The grouped view, once more *)

Lemma bucket_sorted (gs : list Goal) (q : string) (f : option ActiveSort)
    (sortBy : SortOption) (areas : list string) (view : gmap string (list Goal))
    (a : string) (bucket : list Goal) (i j : nat) (x y : Goal) :
  activeGoalsByArea gs q f sortBy areas = Returned view ->
  view !! a = Some bucket ->
  (i < j)%nat -> bucket !! i = Some x -> bucket !! j = Some y ->
  notAfter (compareGoals f sortBy) x y.
Proof.
  intros E. rewrite (activeGoalsByArea_lookup _ _ _ _ _ _ a E).
  destruct (decide (a ∈ areas)); [|done]. intros [= <-] Hij Hi Hj.
  eapply Array_sort_lookup; eauto using compareGoals_consistent.
Qed.

(** X10. Among the goals of a bucket that the active filter does not tell
    apart (all of them when no filter is set), the sort mode orders as it
    says: Newest by creation time, latest first; Priority and Difficulty by
    score, highest first; Deadline by deadline, earliest first, with the
    goals that have none behind all that have one. *)
Theorem sort_modes (gs : list Goal) (q : string) (f : option ActiveSort)
    (sortBy : SortOption) (areas : list string) (view : gmap string (list Goal))
    (a : string) (bucket : list Goal) (i j : nat) (x y : Goal) :
  activeGoalsByArea gs q f sortBy areas = Returned view ->
  view !! a = Some bucket ->
  (i < j)%nat -> bucket !! i = Some x -> bucket !! j = Some y ->
  (forall flt, f = Some flt -> matchesFilter flt x = matchesFilter flt y) ->
  match sortBy with
  | Newest => createdAt y <= createdAt x
  | Priority => priorityScore (priority y) <= priorityScore (priority x)
  | Difficulty => difficultyScore (level y) <= difficultyScore (level x)
  | Deadline =>
      (truthy (deadline x) = false -> truthy (deadline y) = false)
      /\ (forall dx dy, deadline x = Some dx -> deadline y = Some dy ->
                        dx <> 0 -> dy <> 0 -> dx <= dy)
  | Reset => True
  end.
Proof.
  intros E Hview Hij Hi Hj Hsame.
  pose proof (bucket_sorted _ _ _ _ _ _ _ _ _ _ _ _ E Hview Hij Hi Hj) as Hxy.
  unfold notAfter, compareGoals in Hxy.
  assert (Hphase : isPositive (compareBySort sortBy x y) = false).
  { destruct f as [flt|]; [|done]. rewrite (Hsame flt eq_refl) in Hxy.
    by rewrite Bool.eqb_reflx in Hxy. }
  clear Hxy. destruct sortBy; simpl in Hphase; try (apply Z.ltb_ge in Hphase; lia).
  - unfold orInfinity in Hphase. split.
    + destruct (deadline x) as [dx|]; destruct (deadline y) as [dy|];
        simpl; try done.
      * destruct (Z.eqb_spec dx 0), (Z.eqb_spec dy 0); simpl in *; done.
      * destruct (Z.eqb_spec dy 0); simpl in *; done.
    + intros dx dy Hx Hy Hdx Hdy. rewrite Hx, Hy in Hphase.
      destruct (Z.eqb_spec dx 0), (Z.eqb_spec dy 0); try done.
      simpl in Hphase. apply Z.ltb_ge in Hphase. lia.
  - done.
Qed.

(** Under Newest and without a filter the recent goal stands first. *)
Lemma sort_modes_witness : createdAt urgentGoal <= createdAt recentGoal.
Proof.
  apply (sort_modes [urgentGoal; recentGoal] EmptyString None Newest
           ["Health & Wellness"]%string
           {[ "Health & Wellness"%string := [recentGoal; urgentGoal] ]}
           "Health & Wellness"%string
           [recentGoal; urgentGoal] 0%nat 1%nat recentGoal urgentGoal).
  - vm_compute. reflexivity.
  - vm_compute. reflexivity.
  - lia.
  - reflexivity.
  - reflexivity.
  - intros flt [=].
Defined.

Section SortAndFilter.
Context {A : Type} (comparefn : A -> A -> number) (p : A -> bool).
Hypothesis consistent : Consistent comparefn.

Lemma sortInsert_least (x : A) (l : list A) :
  Forall (notAfter comparefn x) l -> sortInsert comparefn x l = x :: l.
Proof.
  destruct l as [|y l]; [done|]. intros [Hy _]%Forall_cons. simpl.
  unfold notAfter in Hy. by rewrite Hy.
Qed.

Lemma sortInsert_filter (x : A) (l : list A) :
  StronglySorted (notAfter comparefn) l ->
  List.filter p (sortInsert comparefn x l)
  = if p x then sortInsert comparefn x (List.filter p l) else List.filter p l.
Proof.
  induction l as [|y l IH]; intros Hs; simpl.
  - by destruct (p x).
  - apply StronglySorted_cons in Hs as [Hy Hl].
    destruct (isPositive (comparefn x y)) eqn:E; simpl.
    + rewrite IH by done. destruct (p x), (p y); simpl; try done.
      by rewrite E.
    + destruct (p x) eqn:Ex; [|done].
      symmetry. apply sortInsert_least.
      assert (Hall : Forall (notAfter comparefn x) (y :: l)).
      { constructor; [done|]. eapply Forall_impl; [exact Hy|].
        intros z Hz. by apply (consistent_trans _ consistent x y z). }
      apply Forall_forall. intros z Hz.
      rewrite Forall_forall in Hall. apply Hall.
      apply list_elem_of_In. apply list_elem_of_In in Hz.
      change (In z (List.filter p (y :: l))) in Hz.
      by apply filter_In in Hz as [Hz _].
Qed.

(** Hiding elements and sorting can be done in either order. *)
Lemma Array_sort_filter (l : list A) :
  Array_sort comparefn (List.filter p l) = List.filter p (Array_sort comparefn l).
Proof.
  induction l as [|x l IH]; simpl; [done|].
  rewrite sortInsert_filter by (by apply Array_sort_sorted).
  destruct (p x); simpl; by rewrite IH.
Qed.

(** A sorted array is left as it is. *)
Lemma Array_sort_sorted_id (l : list A) :
  StronglySorted (notAfter comparefn) l -> Array_sort comparefn l = l.
Proof.
  induction l as [|x l IH]; intros Hs; simpl; [done|].
  apply StronglySorted_cons in Hs as [Hx Hl].
  rewrite IH by done. by apply sortInsert_least.
Qed.
End SortAndFilter.

(** X11. A search only hides cards.  When the grouped view is computed
    under the empty query, it is computed under every query, for the same
    filter and sort mode, and the bucket of an area under the query is the
    bucket under the empty query with the goals that do not match taken
    out, the others in the same order. *)
Theorem search_only_hides (gs : list Goal) (q : string) (f : option ActiveSort)
    (sortBy : SortOption) (areas : list string) (view : gmap string (list Goal)) :
  activeGoalsByArea gs EmptyString f sortBy areas = Returned view ->
  activeGoalsByArea gs q f sortBy areas
  = Returned (List.filter (matchesQuery q) <$> view).
Proof.
  intros E.
  destruct (proj2 (activeGoalsByArea_returns gs q f sortBy areas)) as [view' E'].
  { intros g Hg Ha _ Hi.
    by apply (proj1 (activeGoalsByArea_returns gs EmptyString f sortBy areas)
                (ex_intro _ view E) g). }
  rewrite E'. f_equal. apply map_eq. intros a.
  rewrite lookup_fmap, (activeGoalsByArea_lookup _ _ _ _ _ _ a E),
    (activeGoalsByArea_lookup _ _ _ _ _ _ a E').
  destruct (decide (a ∈ areas)); [|done]. simpl. f_equal.
  rewrite <- (Array_sort_filter _ _ (compareGoals_consistent f sortBy)).
  f_equal.
  induction (List.filter (fun g => negb (archived g)) gs) as [|g l IH]; [done|].
  cbn [List.filter]. change (matchesQuery EmptyString g) with true.
  destruct (String.eqb (area g) a), (matchesQuery q g) eqn:Eq;
    cbn [andb List.filter]; rewrite ?Eq, ?IH; done.
Qed.

(** A query in capitals finds the goal whose title has it in small letters. *)
Lemma search_only_hides_witness :
  activeGoalsByArea [recentGoal; urgentGoal] "URG" None Newest ["Health & Wellness"]
  = Returned (List.filter (matchesQuery "URG")
              <$> {[ "Health & Wellness"%string := [recentGoal; urgentGoal] ]})
  /\ (List.filter (matchesQuery "URG")
      <$> ({[ "Health & Wellness"%string := [recentGoal; urgentGoal] ]}
           : gmap string (list Goal))) !! "Health & Wellness"
     = Some [urgentGoal].
Proof.
  split.
  - apply (search_only_hides [recentGoal; urgentGoal] "URG" None Newest
             ["Health & Wellness"]%string).
    vm_compute. reflexivity.
  - vm_compute. reflexivity.
Defined.

Lemma archived_area_filter (q : string) (a b : string) (gs : list Goal) :
  b <> a ->
  List.filter (fun g => matchesQuery q g && String.eqb (area g) b)
    (List.filter (fun g => negb (archived g))
       (map (fun g => if String.eqb (area g) a then withArchived true g else g) gs))
  = List.filter (fun g => matchesQuery q g && String.eqb (area g) b)
      (List.filter (fun g => negb (archived g)) gs).
Proof.
  intros Hne. induction gs as [|g gs IH]; [done|].
  cbn [map List.filter].
  destruct (String.eqb_spec (area g) a) as [Ea|Ea].
  - cbn [archived withArchived negb]. rewrite IH.
    destruct (archived g); cbn [negb List.filter]; [done|].
    destruct (String.eqb_spec (area g) b) as [Eb|Eb]; [congruence|].
    by rewrite andb_false_r.
  - destruct (archived g); cbn [negb List.filter]; [done|].
    by rewrite IH.
Qed.

(** X12. Once a category is archived, the grouped view has no bucket for it
    and every other bucket is exactly as it was, under any query, filter and
    sort mode: when the view was computed before, it is computed afterwards,
    with these buckets; and when the category was listed, a view that could
    not be computed before cannot be computed afterwards either. *)
Theorem archived_category_leaves_view (a : string) (s : AppState) (q : string)
    (f : option ActiveSort) (sortBy : SortOption) :
  let s' := handleArchiveCategory true a s in
  (forall view,
     activeGoalsByArea (goals s) q f sortBy (areaOrder s) = Returned view ->
     exists view',
       activeGoalsByArea (goals s') q f sortBy (areaOrder s') = Returned view'
       /\ view' !! a = None
       /\ (forall b, b <> a -> view' !! b = view !! b))
  /\ (a ∈ areaOrder s ->
      activeGoalsByArea (goals s) q f sortBy (areaOrder s) = Thrown ->
      activeGoalsByArea (goals s') q f sortBy (areaOrder s') = Thrown).
Proof.
  intros s'. unfold s', handleArchiveCategory. cbn [goals areaOrder].
  assert (Hold : forall g',
            g' ∈ map (fun g => if String.eqb (area g) a then withArchived true g else g)
                   (goals s) ->
            archived g' = false -> g' ∈ goals s /\ area g' <> a).
  { intros g' Hg' Ha'.
    apply list_elem_of_In, in_map_iff in Hg' as (g & Eg & Hg).
    apply list_elem_of_In in Hg.
    destruct (String.eqb_spec (area g) a) as [Ea|Ea]; subst g'; [done|by split]. }
  assert (Hkeep : forall b, b <> a ->
            (b ∈ List.filter (fun c => negb (String.eqb c a)) (areaOrder s)
             <-> b ∈ areaOrder s)).
  { intros b Hne. rewrite !list_elem_of_In, filter_In, negb_true_iff, String.eqb_neq.
    tauto. }
  split.
  - intros view E.
    destruct (proj2 (activeGoalsByArea_returns
                       (map (fun g => if String.eqb (area g) a
                                      then withArchived true g else g) (goals s))
                       q f sortBy
                       (List.filter (fun c => negb (String.eqb c a)) (areaOrder s))))
      as [view' E'].
    { intros g' Hg' Ha' Hq Hi. destruct (Hold g' Hg' Ha') as [Hg Hne].
      apply Hkeep; [done|].
      by apply (proj1 (activeGoalsByArea_returns _ _ _ _ _) (ex_intro _ view E) g'). }
    exists view'. split; [done|]. split.
    + rewrite (activeGoalsByArea_lookup _ _ _ _ _ _ a E').
      destruct (decide _) as [Hin|_]; [|done].
      apply list_elem_of_In, filter_In in Hin as [_ Hin].
      by rewrite String.eqb_refl in Hin.
    + intros b Hne.
      rewrite (activeGoalsByArea_lookup _ _ _ _ _ _ b E'),
        (activeGoalsByArea_lookup _ _ _ _ _ _ b E).
      rewrite archived_area_filter by done.
      destruct (decide (b ∈ areaOrder s)) as [Hin|Hnin];
        destruct (decide _) as [Hin'|Hnin']; try done.
      * destruct Hnin'. by apply Hkeep.
      * destruct Hnin. by apply Hkeep in Hin'.
  - intros Hlisted E.
    destruct (activeGoalsByArea _ q f sortBy (List.filter _ _)) as [view'|] eqn:E';
      [|done].
    exfalso.
    pose proof (proj1 (activeGoalsByArea_returns _ _ _ _ _) (ex_intro _ view' E'))
      as Hpush.
    destruct (proj2 (activeGoalsByArea_returns (goals s) q f sortBy (areaOrder s)))
      as [view Hview]; [|congruence].
    intros g Hg Ha Hq Hi.
    destruct (String.eqb_spec (area g) a) as [Ea|Ea]; [by rewrite Ea|].
    apply (Hkeep (area g) Ea). apply Hpush; try done.
    apply list_elem_of_In, in_map_iff. exists g.
    split; [|by apply list_elem_of_In].
    destruct (String.eqb_spec (area g) a); done.
Qed.

(** The category of the one goal is archived: the view had its bucket and
    has none afterwards. *)
Lemma archived_category_leaves_view_witness :
  exists view',
    activeGoalsByArea (goals (handleArchiveCategory true "Health & Wellness"
                                categoryState))
      EmptyString None Newest
      (areaOrder (handleArchiveCategory true "Health & Wellness" categoryState))
    = Returned view'
    /\ view' !! "Health & Wellness" = None.
Proof.
  destruct (proj1 (archived_category_leaves_view "Health & Wellness" categoryState
                     EmptyString None Newest)
              {[ "Health & Wellness"%string := [urgentGoal] ]})
    as (view' & E' & Hnone & _).
  - vm_compute. reflexivity.
  - by exists view'.
Defined.

Lemma compareCompletedAt_consistent :
  Consistent (fun a b : Goal => Num (orZero (default 0 (completedAt b))
                                     - orZero (default 0 (completedAt a)))).
Proof. split; intros; num_cases. Qed.

(** X13. The archive wall shows exactly the archived goals, each as often as
    the collection holds it, the later completed first; a goal without a
    completion time counts as completed at time 0. *)
Theorem archivedGoals_order (gs : list Goal) :
  archivedGoals gs ≡ₚ List.filter archived gs
  /\ (forall i j x y, (i < j)%nat ->
        archivedGoals gs !! i = Some x -> archivedGoals gs !! j = Some y ->
        default 0 (completedAt y) <= default 0 (completedAt x)).
Proof.
  unfold archivedGoals. split; [apply Array_sort_perm|].
  intros i j x y Hij Hi Hj.
  pose proof (Array_sort_lookup _ compareCompletedAt_consistent _ i j x y Hij Hi Hj)
    as Hxy.
  unfold notAfter in Hxy. simpl in Hxy. apply Z.ltb_ge in Hxy.
  rewrite !orZero_id in Hxy. lia.
Qed.

Lemma Array_sort_head_first {A : Type} (comparefn : A -> A -> number)
    (l : list A) (g : A) :
  head (Array_sort comparefn l) = Some g ->
  exists l1 l2, l = l1 ++ g :: l2
                /\ Forall (fun y => isPositive (comparefn y g) = true) l1.
Proof.
  revert g. induction l as [|x l IH]; intros g; simpl; [done|].
  destruct (Array_sort comparefn l) as [|y r] eqn:E.
  - simpl. intros [= <-]. exists [], l. by split.
  - simpl. destruct (isPositive (comparefn x y)) eqn:Ep; simpl; intros [= <-].
    + destruct (IH y eq_refl) as (l1 & l2 & -> & Hl1).
      exists (x :: l1), l2. split; [done|]. by constructor.
    + exists [], l. by split.
Qed.

Lemma filter_split {A : Type} (p : A -> bool) (l m1 m2 : list A) (x : A) :
  List.filter p l = m1 ++ x :: m2 ->
  exists l1 l2, l = l1 ++ x :: l2 /\ List.filter p l1 = m1.
Proof.
  revert m1. induction l as [|y l IH]; intros m1; simpl.
  - by destruct m1.
  - destruct (p y) eqn:E.
    + destruct m1 as [|z m1]; simpl.
      * intros [= -> _]. by exists [], l.
      * intros [= -> H]. destruct (IH m1 H) as (l1 & l2 & -> & Hl1).
        exists (z :: l1), l2. simpl. by rewrite E, Hl1.
    + intros H. destruct (IH m1 H) as (l1 & l2 & -> & Hl1).
      exists (y :: l1), l2. simpl. by rewrite E.
Qed.

(** X14. Among the goals that are neither completed nor archived, the one
    the scanner takes for the nudge is the first of the collection with the
    least [lastInteractionAt]: every such goal standing before it was touched
    strictly later. *)
Theorem neglectedGoal_first (gs : list Goal) (g : Goal) :
  neglectedGoal gs = Some g ->
  exists l1 l2,
    gs = l1 ++ g :: l2
    /\ (forall y, y ∈ l1 -> completed y = false -> archived y = false ->
                  lastInteractionAt g < lastInteractionAt y).
Proof.
  unfold neglectedGoal. intros Hh.
  apply Array_sort_head_first in Hh as (m1 & m2 & Hm & Hpos).
  apply filter_split in Hm as (l1 & l2 & -> & <-).
  exists l1, l2. split; [done|]. intros y Hy Hc Ha.
  rewrite Forall_forall in Hpos.
  assert (Hin : y ∈ List.filter (fun g => negb (completed g) && negb (archived g)) l1).
  { apply list_elem_of_In, filter_In. split; [by apply list_elem_of_In|].
    by rewrite Hc, Ha. }
  specialize (Hpos y Hin). simpl in Hpos. apply Z.ltb_lt in Hpos. lia.
Qed.

(** Of two goals untouched since the same moment the first is taken. *)
Lemma neglectedGoal_first_witness :
  exists l1 l2,
    [dueInThreeDays; dueAndNeglected; scannedGoal "g3" None (scanTime - 5 * day_ms)]
    = l1 ++ dueAndNeglected :: l2
    /\ (forall y, y ∈ l1 -> completed y = false -> archived y = false ->
                  lastInteractionAt dueAndNeglected < lastInteractionAt y).
Proof.
  apply (neglectedGoal_first
           [dueInThreeDays; dueAndNeglected;
            scannedGoal "g3" None (scanTime - 5 * day_ms)] dueAndNeglected).
  vm_compute. reflexivity.
Defined.

(** ** The countdown *)

Lemma Qfloor_unique (x : Q) (z : Z) :
  (inject_Z z <= x)%Q -> (x < inject_Z (z + 1))%Q -> Qfloor x = z.
Proof.
  intros Hle Hlt.
  pose proof (Qfloor_le x) as H1. pose proof (Qlt_floor x) as H2.
  assert (Qfloor x < z + 1).
  { rewrite Zlt_Qlt. by eapply Qle_lt_trans. }
  assert (z < Qfloor x + 1).
  { rewrite Zlt_Qlt. by eapply Qle_lt_trans. }
  lia.
Qed.

Lemma Qfloor_div_Z (a b : Z) : 0 < b -> Qfloor (inject_Z a / inject_Z b) = a / b.
Proof.
  intros Hb. pose proof (inject_Z_pos b Hb) as HbQ.
  apply Qfloor_unique.
  - apply Qle_shift_div_l; [done|]. rewrite <- inject_Z_mult, <- Zle_Qle.
    rewrite Z.mul_comm. apply Z.mul_div_le. lia.
  - apply Qlt_shift_div_r; [done|]. rewrite <- inject_Z_mult, <- Zlt_Qlt.
    rewrite Z.mul_comm. apply Z.mul_succ_div_gt. lia.
Qed.

Lemma Qfloor_minus_Z (x : Q) (n : Z) : Qfloor (x - inject_Z n) = Qfloor x - n.
Proof.
  apply Qfloor_unique.
  - unfold Z.sub, Qminus. rewrite inject_Z_plus, inject_Z_opp.
    apply Qplus_le_l, Qfloor_le.
  - replace (Qfloor x - n + 1) with ((Qfloor x + 1) + - n) by lia.
    unfold Qminus. rewrite inject_Z_plus, inject_Z_opp.
    apply Qplus_lt_l, Qlt_floor.
Qed.

(** The whole part of a remainder of a quotient of integers. *)
Lemma remainder_floor (a b m : Z) :
  0 <= a -> 0 < b -> 0 < m ->
  Qfloor (remainder (inject_Z a / inject_Z b) (inject_Z m)) = (a / b) mod m.
Proof.
  intros Ha Hb Hm. unfold remainder.
  pose proof (inject_Z_pos b Hb) as HbQ. pose proof (inject_Z_pos m Hm) as HmQ.
  assert (Hq : (inject_Z a / inject_Z b / inject_Z m
                == inject_Z a / inject_Z (b * m))%Q).
  { rewrite inject_Z_mult. field. split; intros E.
    - rewrite E in HmQ. by apply Qlt_irrefl in HmQ.
    - rewrite E in HbQ. by apply Qlt_irrefl in HbQ. }
  assert (Hpos : Qle_bool 0 (inject_Z a / inject_Z b / inject_Z m) = true).
  { apply Qle_bool_iff. rewrite Hq. apply ratio_nonneg; [done|lia]. }
  rewrite Hpos. rewrite (Qfloor_comp _ _ Hq), Qfloor_div_Z by lia.
  rewrite <- inject_Z_mult, Qfloor_minus_Z, Qfloor_div_Z by done.
  rewrite <- Z.div_div by lia. rewrite Z.mod_eq by lia. done.
Qed.

(** X15. While the end of the year is ahead, the countdown shows the whole
    minutes left, split into days, hours below 24 and minutes below 60; once
    it is reached the countdown keeps what it showed. *)
Theorem updateTimer_minutes (targetDate now : Z) (prev : TimeLeft) :
  (0 < targetDate - now ->
   let t := updateTimer targetDate now prev in
   0 <= days t /\ 0 <= hours t < 24 /\ 0 <= mins t < 60
   /\ days t * 1440 + hours t * 60 + mins t = (targetDate - now) / 60000)
  /\ (targetDate <= now -> updateTimer targetDate now prev = prev).
Proof.
  split.
  - intros Hdiff. unfold updateTimer.
    destruct (Z.ltb_spec 0 (targetDate - now)) as [_|?]; [|lia].
    set (diff := targetDate - now) in *. cbn [days hours mins]. unfold Math_floor.
    change 86400000%Q with (inject_Z 86400000).
    change 3600000%Q with (inject_Z 3600000).
    change 60000%Q with (inject_Z 60000).
    change 24%Q with (inject_Z 24). change 60%Q with (inject_Z 60).
    rewrite Qfloor_div_Z, !remainder_floor by lia.
    replace (diff / 86400000) with (diff / 60000 / 1440)
      by (rewrite Z.div_div by lia; done).
    replace (diff / 3600000) with (diff / 60000 / 60)
      by (rewrite Z.div_div by lia; done).
    assert (0 <= diff / 60000) by (apply Z.div_pos; lia).
    generalize dependent (diff / 60000). intros m Hm.
    Z.div_mod_to_equations. lia.
  - intros Hpast. unfold updateTimer.
    by destruct (Z.ltb_spec 0 (targetDate - now)) as [?|_]; [lia|].
Qed.

(** One day, two hours, three minutes and four seconds before the end. *)
Lemma updateTimer_minutes_witness :
  let t := updateTimer 1798761599000 (1798761599000 - 93784000) (mkTimeLeft 0 0 0) in
  0 <= days t /\ 0 <= hours t < 24 /\ 0 <= mins t < 60
  /\ days t * 1440 + hours t * 60 + mins t
     = (1798761599000 - (1798761599000 - 93784000)) / 60000.
Proof.
  apply (proj1 (updateTimer_minutes 1798761599000 (1798761599000 - 93784000)
                  (mkTimeLeft 0 0 0))).
  reflexivity.
Defined.

(** ** The card and the scanner *)

Lemma Qceiling_div_Z (a b : Z) :
  0 < b -> Qceiling (inject_Z a / inject_Z b) = - ((- a) / b).
Proof.
  intros Hb. unfold Qceiling. f_equal.
  rewrite <- (Qfloor_div_Z (- a) b) by done. apply Qfloor_comp.
  rewrite inject_Z_opp. unfold Qdiv. ring.
Qed.

(** X16. For a goal that is neither completed nor archived, the scanner
    raises the deadline alert exactly when the card of the goal, drawn at the
    same moment, says 1, 2 or 3 days left. *)
Theorem alert_iff_card_days (now : Z) (g : Goal) :
  completed g = false -> archived g = false ->
  pushDeadlineAlert now [] g = [deadlineNotification now g]
  <-> exists k, cardDaysLeft now g = Some k /\ 1 <= k <= 3.
Proof.
  intros Hc Ha. unfold pushDeadlineAlert, cardDaysLeft. rewrite Hc, Ha. simpl andb.
  destruct (truthy (deadline g)).
  - fold (daysLeftAt now (default 0 (deadline g))).
    change (1000 * 60 * 60 * 24) with 86400000.
    unfold Math_ceil. rewrite Qceiling_div_Z by done.
    set (d := default 0 (deadline g)).
    destruct (negb _ && _) eqn:E.
    + apply window_bool, window_ms in E. unfold day_ms in E. split; [|done].
      intros _. eexists. split; [done|]. Z.div_mod_to_equations. lia.
    + split; [done|]. intros (k & [= <-] & Hk).
      assert (Hw : 0 < d - now <= 3 * day_ms)
        by (unfold day_ms; Z.div_mod_to_equations; lia).
      apply window_ms, window_bool in Hw. congruence.
  - split; [done|]. by intros (k & [=] & _).
Qed.

(** The goal due in exactly three days: alert raised, 3 days on the card. *)
Lemma alert_iff_card_days_witness :
  pushDeadlineAlert scanTime [] dueInThreeDays
  = [deadlineNotification scanTime dueInThreeDays]
  <-> exists k, cardDaysLeft scanTime dueInThreeDays = Some k /\ 1 <= k <= 3.
Proof. apply alert_iff_card_days; reflexivity. Defined.

(** ** The counters of the header *)

(** X17. When the goals carry distinct identifiers, completing a goal that
    is neither completed nor archived takes one off the count of active
    goals and adds one to the count of completed ones. *)
Theorem counters_after_completion (now : Z) (i : string) (gs : list Goal) (g : Goal) :
  NoDup (map id gs) ->
  g ∈ gs -> id g = i -> completed g = false -> archived g = false ->
  S (activeCount (handleToggleComplete now i gs)) = activeCount gs
  /\ completedCountGlobal (handleToggleComplete now i gs)
     = S (completedCountGlobal gs).
Proof.
  intros Hnd Hg Hi Hc Ha.
  assert (Hother : forall l, i ∉ map id l -> handleToggleComplete now i l = l).
  { induction l as [|x l IH]; simpl; intros Hnin; [done|].
    destruct (String.eqb_spec (id x) i) as [E|E].
    - destruct Hnin. rewrite E. by left.
    - rewrite IH; [done|]. intros H. apply Hnin. by right. }
  unfold activeCount, completedCountGlobal.
  induction gs as [|x gs IH]; [by apply elem_of_nil in Hg|].
  apply NoDup_cons in Hnd as [Hx Hnd].
  apply elem_of_cons in Hg as [<-|Hg].
  - simpl map in Hx. rewrite Hi in Hx. cbn [handleToggleComplete map].
    rewrite Hi, String.eqb_refl. fold (handleToggleComplete now i gs).
    rewrite (Hother gs Hx). cbn [List.filter]. unfold toggleComplete.
    rewrite Hc, Ha. simpl. done.
  - assert (id x <> i).
    { intros E. apply Hx. rewrite E, <- Hi.
      apply list_elem_of_In, in_map. by apply list_elem_of_In. }
    cbn [handleToggleComplete map].
    destruct (String.eqb_spec (id x) i) as [E|_]; [done|].
    fold (handleToggleComplete now i gs).
    destruct (IH Hnd Hg) as [IH1 IH2]. cbn [List.filter].
    destruct (negb (archived x) && negb (completed x)), (completed x);
      cbn [length]; rewrite ?IH2, <- ?IH1; done.
Qed.

Lemma counters_after_completion_witness :
  S (activeCount (handleToggleComplete 5000 "urgent" [recentGoal; urgentGoal]))
  = activeCount [recentGoal; urgentGoal]
  /\ completedCountGlobal (handleToggleComplete 5000 "urgent" [recentGoal; urgentGoal])
     = S (completedCountGlobal [recentGoal; urgentGoal]).
Proof.
  apply (counters_after_completion 5000 "urgent" [recentGoal; urgentGoal] urgentGoal);
    try reflexivity.
  - simpl. apply NoDup_cons. split; [|apply NoDup_singleton].
    intros [E|E]%elem_of_cons; [discriminate|by apply elem_of_nil in E].
  - right. left.
Defined.

(** ** Categories *)

Lemma arrayIncludes_spec (l : list string) (x : string) :
  arrayIncludes l x = true <-> x ∈ l.
Proof.
  unfold arrayIncludes. rewrite existsb_exists, list_elem_of_In. split.
  - by intros (y & Hy & ->%String.eqb_eq).
  - intros H. exists x. split; [done|apply String.eqb_refl].
Qed.

Lemma NoDup_filter_list {A : Type} (p : A -> bool) (l : list A) :
  NoDup l -> NoDup (List.filter p l).
Proof.
  intros H. apply NoDup_ListNoDup. apply List.NoDup_filter.
  by apply NoDup_ListNoDup.
Qed.

Lemma NoDup_snoc_fresh (l : list string) (x : string) :
  NoDup l -> arrayIncludes l x = false -> NoDup (l ++ [x]).
Proof.
  intros Hnd Hx. apply NoDup_app. split; [done|]. split; [|apply NoDup_singleton].
  intros y Hy ->%list_elem_of_singleton.
  apply arrayIncludes_spec in Hy. congruence.
Qed.

(** X18. From the empty selection of the welcome screen, whatever the user
    types, toggles and adds, no category is selected twice; and when the
    screen hands over to the application, it is with a name that is not
    blank and a selection that is not empty. *)
Theorem welcome_selection (events : list WelcomeScreen.Event) :
  NoDup (WelcomeScreen.selectedCategories (WelcomeScreen.run events))
  /\ (forall n categories,
        WelcomeScreen.handleFinish (WelcomeScreen.run events) = Some (n, categories) ->
        nonEmpty n = true /\ categories <> [] /\ NoDup categories).
Proof.
  assert (Hnd : NoDup (WelcomeScreen.selectedCategories (WelcomeScreen.run events))).
  { unfold WelcomeScreen.run.
    assert (H0 : NoDup (WelcomeScreen.selectedCategories WelcomeScreen.initial))
      by apply NoDup_nil_2.
    revert H0. generalize WelcomeScreen.initial.
    induction events as [|e events IH]; intros s Hs; [done|].
    simpl. apply IH. destruct e; simpl; try done.
    - destruct (arrayIncludes _ cat) eqn:E.
      + by apply NoDup_filter_list.
      + by apply NoDup_snoc_fresh.
    - unfold WelcomeScreen.addCustomCategory.
      destruct (nonEmpty _); simpl; [|done].
      destruct (arrayIncludes _ _) eqn:E; simpl; [done|].
      by apply NoDup_snoc_fresh. }
  split; [done|]. intros n categories. unfold WelcomeScreen.handleFinish.
  destruct (nonEmpty _) eqn:En; simpl; [|done].
  destruct (Nat.ltb_spec 0 (length (WelcomeScreen.selectedCategories
                                      (WelcomeScreen.run events)))) as [Hl|_]; [|done].
  intros [= <- <-]. repeat split; [done| |done].
  intros E. rewrite E in Hl. simpl in Hl. lia.
Qed.

Lemma run_app_cons (e : AppEvent) (events : list AppEvent) (s : AppState) :
  runApp (e :: events) s = runApp events (handle e s).
Proof. reflexivity. Qed.

(** X19. After the welcome screen has handed over a selection without
    duplicates, whatever is done to goals and categories, the order of the
    areas is the list of the user's categories, without duplicates: a
    grouped view that is computed has a bucket for each category of the user
    and for nothing else. *)
Theorem categories_in_order (categories : list string) (s0 : AppState)
    (events : list AppEvent) :
  NoDup categories ->
  let s := runApp events (handleWelcomeComplete categories s0) in
  areaOrder s = userCategories s
  /\ NoDup (userCategories s)
  /\ (forall q f sortBy view a,
        activeGoalsByArea (goals s) q f sortBy (areaOrder s) = Returned view ->
        (is_Some (view !! a) <-> a ∈ userCategories s)).
Proof.
  intros Hnd s.
  assert (H : areaOrder s = userCategories s /\ NoDup (userCategories s)).
  { unfold s.
    assert (H0 : areaOrder (handleWelcomeComplete categories s0)
                 = userCategories (handleWelcomeComplete categories s0)
                 /\ NoDup (userCategories (handleWelcomeComplete categories s0)))
      by done.
    revert H0. generalize (handleWelcomeComplete categories s0). clear.
    induction events as [|e events IH]; intros s Hs; [done|].
    rewrite run_app_cons. apply IH. destruct Hs as [Heq Hs].
    destruct e as [op|n]; simpl.
    - destruct op; simpl; try done.
      + by destruct (handleSubmit submitted f).
      + unfold handleArchiveCategory. destruct confirmed; simpl; [|done].
        rewrite Heq. split; [done|]. by apply NoDup_filter_list.
    - unfold handleAddNewCategory.
      destruct (nonEmpty _); simpl; [|done].
      destruct (arrayIncludes _ _) eqn:E; simpl; [done|].
      rewrite Heq. split; [done|]. by apply NoDup_snoc_fresh. }
  destruct H as [Heq Hs]. split; [done|]. split; [done|].
  intros q f sortBy view a E.
  rewrite (activeGoalsByArea_lookup _ _ _ _ _ _ a E), Heq.
  destruct (decide (a ∈ userCategories s)); split; done.
Qed.

(** A category is added, a goal is created in it, another category is
    archived. *)
Lemma categories_in_order_witness :
  let s := runApp [AddNewCategory " Garden "; Repository (SubmitForm 1000 1000 1000 "g1" newGoalForm);
                   Repository (ArchiveCategory true "Others")]
             (handleWelcomeComplete ["Health & Wellness"; "Others"]
                (mkAppState [] [] [] [])) in
  areaOrder s = userCategories s /\ userCategories s = ["Health & Wellness"; "Garden"].
Proof.
  intros s. split; [|vm_compute; reflexivity].
  apply (categories_in_order ["Health & Wellness"; "Others"]%string
           (mkAppState [] [] [] [])).
  apply NoDup_cons. split; [|apply NoDup_singleton].
  intros [E|E]%elem_of_cons; [discriminate|by apply elem_of_nil in E].
Defined.

(** ** A step added in the form *)

Lemma splice_insert {A : Type} (l : list A) (k : nat) (x : A) :
  splice l (Z.of_nat k) 0 [x] = take k l ++ x :: drop k l.
Proof.
  unfold splice. destruct (Z.ltb_spec (Z.of_nat k) 0) as [?|_]; [lia|].
  destruct (Nat.le_gt_cases k (length l)) as [Hk|Hk].
  - rewrite Z.min_l by lia. rewrite Nat2Z.id, Nat.add_0_r. done.
  - rewrite Z.min_r by lia. rewrite Nat2Z.id, Nat.add_0_r.
    rewrite !take_ge, !drop_ge by lia. done.
Qed.

(** X20. A step added in the form is blank, has nothing done and nothing to
    do; behind the step at position [i] it stands at position [i + 1], or at
    the end when the list is shorter, and the other steps keep their order.
    Removing it again, when no other step carries its identifier, gives back
    the steps as they were. *)
Theorem add_then_remove_step (uuid : string) (index : option nat) (f : GoalFormState) :
  uuid ∉ map st_id (f_subTasks f) ->
  f_subTasks (handleRemoveSubTask uuid (handleAddSubTask uuid index f)) = f_subTasks f
  /\ (forall i, index = Some i ->
        f_subTasks (handleAddSubTask uuid index f)
        = take (S i) (f_subTasks f) ++ newTask uuid :: drop (S i) (f_subTasks f))
  /\ (index = None ->
        f_subTasks (handleAddSubTask uuid index f) = f_subTasks f ++ [newTask uuid]).
Proof.
  intros Hfresh.
  assert (Hkeep : forall l,
            uuid ∉ map st_id l ->
            List.filter (fun task => negb (String.eqb (st_id task) uuid)) l = l).
  { induction l as [|t l IH]; simpl; intros H; [done|].
    destruct (String.eqb_spec (st_id t) uuid) as [E|E]; simpl.
    - destruct H. rewrite E. by left.
    - rewrite IH; [done|]. intros ?. apply H. by right. }
  assert (Hins : forall i,
            f_subTasks (handleAddSubTask uuid (Some i) f)
            = take (S i) (f_subTasks f) ++ newTask uuid :: drop (S i) (f_subTasks f)).
  { intros i. simpl. replace (Z.of_nat i + 1) with (Z.of_nat (S i)) by lia.
    apply splice_insert. }
  split; [|split].
  - unfold handleRemoveSubTask. cbn [f_subTasks withFormSubTasks].
    destruct index as [i|].
    + rewrite Hins, List.filter_app. cbn [List.filter st_id newTask].
      rewrite String.eqb_refl. cbn [negb].
      rewrite <- List.filter_app, take_drop. by apply Hkeep.
    + cbn [handleAddSubTask f_subTasks withFormSubTasks].
      rewrite List.filter_app. cbn [List.filter st_id newTask].
      rewrite String.eqb_refl. cbn [negb]. rewrite app_nil_r. by apply Hkeep.
  - intros i ->. apply Hins.
  - by intros ->.
Qed.

Lemma add_then_remove_step_witness :
  f_subTasks (handleRemoveSubTask "s2" (handleAddSubTask "s2" (Some 0%nat) newGoalForm))
  = f_subTasks newGoalForm.
Proof.
  apply (add_then_remove_step "s2" (Some 0%nat) newGoalForm).
  simpl. intros [E|E]%elem_of_cons; [discriminate|by apply elem_of_nil in E].
Defined.

(** ** The dashboard *)

Lemma count_cons (p : Goal -> bool) (g : Goal) (gs : list Goal) :
  Dashboard.count p (g :: gs) = (if p g then 1 else 0) + Dashboard.count p gs.
Proof.
  unfold Dashboard.count. simpl. destruct (p g); simpl length; lia.
Qed.

Lemma count_range (p : Goal -> bool) (gs : list Goal) :
  0 <= Dashboard.count p gs <= Z.of_nat (length gs).
Proof.
  induction gs as [|g gs IH]; [done|].
  rewrite count_cons. simpl length. destruct (p g); lia.
Qed.

(** X21. In the statistics of the dashboard the completed and the active
    goals add up to all goals, and so do the three difficulty bars and the
    three priority bars; the completion rate lies between 0 and 100 and is 0
    for an empty collection. *)
Theorem stats_totals (gs : list Goal) :
  let st := Dashboard.stats gs in
  Dashboard.completedCount st + Dashboard.activeCount st = Dashboard.totalGoals st
  /\ 0 <= Dashboard.completedCount st <= Dashboard.totalGoals st
  /\ Dashboard.total (Dashboard.statusData st) = Dashboard.totalGoals st
  /\ Dashboard.total (Dashboard.difficultyData st) = Dashboard.totalGoals st
  /\ Dashboard.total (Dashboard.priorityData st) = Dashboard.totalGoals st
  /\ 0 <= Dashboard.completionRate st <= 100
  /\ (gs = [] -> Dashboard.completionRate st = 0).
Proof.
  intros st. unfold st, Dashboard.stats.
  cbn [Dashboard.completedCount Dashboard.activeCount Dashboard.totalGoals
       Dashboard.statusData Dashboard.difficultyData Dashboard.priorityData
       Dashboard.completionRate Dashboard.total fold_right Dashboard.value].
  clear st. pose proof (count_range completed gs) as Hc.
  split; [lia|]. split; [lia|]. split; [lia|].
  split; [|split; [|split]].
  - clear Hc. induction gs as [|g gs IH]; [done|].
    rewrite !count_cons. simpl length. destruct (level g); simpl; lia.
  - clear Hc. induction gs as [|g gs IH]; [done|].
    rewrite !count_cons. simpl length. destruct (priority g); simpl; lia.
  - destruct (Z.ltb_spec 0 (Z.of_nat (length gs))) as [Hpos|_]; [|done]. split.
    + change 0 with (Math_round 0). apply Math_round_le.
      apply Qmult_le_0_compat; [|discriminate]. apply ratio_nonneg; lia.
    + change 100 with (Math_round 100). apply Math_round_le.
      apply Qle_trans with (1 * 100)%Q; [|discriminate].
      apply Qmult_le_compat_r; [|discriminate].
      apply Qle_shift_div_r; [by apply inject_Z_pos|].
      rewrite Qmult_1_l, <- Zle_Qle. lia.
  - by intros ->.
Qed.

Lemma total_filter_positive (l : list Dashboard.Entry) :
  Forall (fun e => 0 <= Dashboard.value e) l ->
  Dashboard.total (List.filter (fun item => 0 <? Dashboard.value item) l)
  = Dashboard.total l.
Proof.
  induction l as [|e l IH]; intros H; [done|].
  apply Forall_cons in H as [He Hl]. simpl.
  destruct (Z.ltb_spec 0 (Dashboard.value e)); simpl; rewrite IH by done; lia.
Qed.

Lemma area_entries_total (gs : list Goal) :
  Dashboard.total
    (map (fun a => Dashboard.mkEntry a
                     (Dashboard.count (fun g => String.eqb (area g) a) gs)
                     (default "#ea580c"%string (Dashboard.AREA_COLORS a)))
         Dashboard.LifeArea_values)
  = Dashboard.count builtIn gs.
Proof.
  unfold Dashboard.LifeArea_values.
  cbn [map Dashboard.total fold_right Dashboard.value].
  induction gs as [|g gs IH]; [done|].
  rewrite !count_cons, <- IH. unfold builtIn, arrayIncludes, Dashboard.LifeArea_values.
  cbn [existsb].
  destruct (String.eqb (area g) "Health & Wellness") eqn:E1,
           (String.eqb (area g) "Relationships") eqn:E2,
           (String.eqb (area g) "Career & Finances") eqn:E3,
           (String.eqb (area g) "Personal Growth") eqn:E4,
           (String.eqb (area g) "Fun & Travels") eqn:E5,
           (String.eqb (area g) "Others") eqn:E6;
    repeat match goal with
           | H : String.eqb _ _ = true |- _ => apply String.eqb_eq in H
           end;
    try congruence; cbn [orb]; lia.
Qed.

(** X22. The area chart of the dashboard has an entry only for the six
    areas the application starts with, and only where at least one goal is
    in the area; its entries add up to the number of goals in those six
    areas, so a goal in a category of the user's own making is in no entry. *)
Theorem area_chart (gs : list Goal) :
  let chart := Dashboard.areaData (Dashboard.stats gs) in
  Forall (fun e => 0 < Dashboard.value e
                   /\ Dashboard.name e ∈ Dashboard.LifeArea_values) chart
  /\ Dashboard.total chart = Dashboard.count builtIn gs
  /\ Dashboard.total chart <= Dashboard.totalGoals (Dashboard.stats gs).
Proof.
  intros chart. unfold chart, Dashboard.stats.
  cbn [Dashboard.areaData Dashboard.totalGoals].
  assert (Htotal : Dashboard.total
            (List.filter (fun item => 0 <? Dashboard.value item)
               (map (fun a => Dashboard.mkEntry a
                                (Dashboard.count (fun g => String.eqb (area g) a) gs)
                                (default "#ea580c"%string (Dashboard.AREA_COLORS a)))
                    Dashboard.LifeArea_values))
            = Dashboard.count builtIn gs).
  { rewrite total_filter_positive; [apply area_entries_total|].
    apply Forall_forall. intros e He.
    apply list_elem_of_In, in_map_iff in He as (a & <- & _). simpl.
    apply count_range. }
  split; [|split; [done|rewrite Htotal; apply count_range]].
  apply Forall_forall. intros e He.
  apply list_elem_of_In, filter_In in He as [He Hpos].
  apply in_map_iff in He as (a & <- & Ha). simpl in *.
  split; [by apply Z.ltb_lt|by apply list_elem_of_In].
Qed.

(** ** Dragging a widget *)

Lemma indexOf_elem {A : Type} `{EqDecision A} (l : list A) (x : A) :
  x ∈ l -> exists k, indexOf l x = Z.of_nat k /\ l !! k = Some x.
Proof.
  induction l as [|y l IH]; intros Hx; [by apply elem_of_nil in Hx|].
  simpl. destruct (decide (y = x)) as [->|Hne].
  - by exists 0%nat.
  - apply elem_of_cons in Hx as [->|Hx]; [done|].
    destruct (IH Hx) as (k & -> & Hk).
    destruct (Z.ltb_spec (Z.of_nat k) 0); [lia|].
    exists (S k). split; [lia|done].
Qed.

Lemma splice_delete {A : Type} (l : list A) (k : nat) (x : A) :
  l !! k = Some x ->
  splice l (Z.of_nat k) 1 [] = take k l ++ drop (S k) l.
Proof.
  intros Hk. apply lookup_lt_Some in Hk. unfold splice.
  destruct (Z.ltb_spec (Z.of_nat k) 0); [lia|].
  rewrite Z.min_l by lia. rewrite Nat2Z.id. simpl.
  by replace (k + 1)%nat with (S k) by lia.
Qed.

(** X23. A widget dragged over another one of the row takes the place that
    one had; the row keeps the same widgets.  Without a dragged widget, or
    over itself, the row stays as it is. *)
Theorem drag_reorders (dragged target : Dashboard.WidgetId)
    (widgetOrder : list Dashboard.WidgetId) :
  dragged ∈ widgetOrder -> target ∈ widgetOrder -> dragged <> target ->
  Dashboard.handleDragOver (Some dragged) target widgetOrder ≡ₚ widgetOrder
  /\ (exists k, indexOf widgetOrder target = Z.of_nat k
                /\ Dashboard.handleDragOver (Some dragged) target widgetOrder !! k
                   = Some dragged)
  /\ Dashboard.handleDragOver None target widgetOrder = widgetOrder
  /\ Dashboard.handleDragOver (Some target) target widgetOrder = widgetOrder.
Proof.
  intros Hd Ht Hne.
  destruct (indexOf_elem widgetOrder dragged Hd) as (kd & Ekd & Hkd).
  destruct (indexOf_elem widgetOrder target Ht) as (kt & Ekt & Hkt).
  unfold Dashboard.handleDragOver.
  rewrite bool_decide_true by done. rewrite Ekd, Ekt.
  rewrite (splice_delete _ _ _ Hkd), splice_insert.
  set (rest := take kd widgetOrder ++ drop (S kd) widgetOrder).
  assert (Hperm : widgetOrder ≡ₚ dragged :: rest).
  { unfold rest. rewrite <- (take_drop_middle widgetOrder kd dragged Hkd) at 1.
    by rewrite <- Permutation_middle. }
  assert (Hlen : (kt <= length rest)%nat).
  { apply lookup_lt_Some in Hkt.
    apply Permutation_length in Hperm. simpl in Hperm. lia. }
  split; [|split; [|split]].
  - rewrite Hperm, <- Permutation_middle. by rewrite take_drop.
  - exists kt. split; [done|].
    rewrite lookup_app_r by (rewrite length_take; lia).
    rewrite length_take. by replace (kt - kt `min` length rest)%nat with 0%nat by lia.
  - done.
  - by rewrite bool_decide_false by (intros H; by apply H).
Qed.

(** The last widget of the row is dragged over the first. *)
Lemma drag_reorders_witness :
  Dashboard.handleDragOver (Some Dashboard.PRIORITY) Dashboard.LIFE_FOCUS
    [Dashboard.LIFE_FOCUS; Dashboard.EXECUTION; Dashboard.DIFFICULTY; Dashboard.PRIORITY]
  ≡ₚ [Dashboard.LIFE_FOCUS; Dashboard.EXECUTION; Dashboard.DIFFICULTY; Dashboard.PRIORITY].
Proof.
  apply (drag_reorders Dashboard.PRIORITY Dashboard.LIFE_FOCUS
           [Dashboard.LIFE_FOCUS; Dashboard.EXECUTION; Dashboard.DIFFICULTY;
            Dashboard.PRIORITY]).
  - do 3 right. left.
  - left.
  - discriminate.
Defined.

(** ** Goals read back from the local storage *)

Lemma loadSubTask_stored (l : list SubTask) :
  map loadSubTask (map storedSubTask l) = l.
Proof.
  induction l as [|t l IH]; [done|]. simpl. rewrite IH. by destruct t.
Qed.

Lemma loadGoal_stored (now : Z) (i : nat) (g : Goal) :
  lastInteractionAt g <> 0 -> loadGoal now i (storedGoal g) = g.
Proof.
  intros H. unfold loadGoal, storedGoal. simpl.
  destruct (Z.eqb_spec (lastInteractionAt g) 0); [done|].
  simpl. rewrite loadSubTask_stored. by destruct g.
Qed.

(** X24. Goals written to the local storage and read back are the goals
    that were written, provided each carries an interaction time other than
    0, which the reading would take for a missing one.  A stored goal that
    lacks the keys of newer versions is read with its position as [order],
    not archived, and with its creation time as the last interaction. *)
Theorem load_stored (now : Z) (gs : list Goal) :
  Forall (fun g => lastInteractionAt g <> 0) gs ->
  loadGoals now (map storedGoal gs) = gs
  /\ (forall old g,
        sg_order old = None -> sg_archived old = None ->
        sg_lastInteractionAt old = None -> sg_createdAt old <> 0 ->
        loadGoals now (map storedGoal gs ++ [old]) !! length gs = Some g ->
        order g = Z.of_nat (length gs) /\ archived g = false
        /\ lastInteractionAt g = createdAt g).
Proof.
  intros H. unfold loadGoals. split.
  - assert (Hgen : forall f : nat -> StoredGoal -> Goal,
              (forall i g, g ∈ gs -> f i (storedGoal g) = g) ->
              imap f (map storedGoal gs) = gs).
    { clear H. induction gs as [|g gs IH]; intros f Hf; [done|].
      simpl. rewrite Hf by left. f_equal. apply IH.
      intros i g' Hg'. apply Hf. by right. }
    apply Hgen. intros i g Hg. apply loadGoal_stored.
    rewrite Forall_forall in H. by apply H.
  - intros old g Ho Ha Hl Hc.
    rewrite list_lookup_imap, lookup_app_r by (by rewrite length_map).
    rewrite length_map, Nat.sub_diag. simpl. intros [= <-].
    unfold loadGoal. simpl. rewrite Ho, Ha, Hl. simpl.
    by destruct (Z.eqb_spec (sg_createdAt old) 0).
Qed.

(** The two sample goals, written and read back. *)
Lemma load_stored_witness :
  loadGoals 5000 (map storedGoal [recentGoal; urgentGoal]) = [recentGoal; urgentGoal].
Proof.
  apply (load_stored 5000 [recentGoal; urgentGoal]).
  repeat constructor; discriminate.
Defined.

(** ** A goal opened in the form and saved as it is *)

Lemma filter_all {A : Type} (p : A -> bool) (l : list A) :
  Forall (fun x => p x = true) l -> List.filter p l = l.
Proof.
  induction l as [|x l IH]; intros H; [done|].
  apply Forall_cons in H as [Hx H]. simpl. by rewrite Hx, IH.
Qed.

(** X25. A goal opened in the form and saved without a change stays as it
    is but for the time of the last interaction, provided it has an
    identifier and an area, no step with a blank text, and no deadline or one
    at midnight UTC; the form keeps the day of a deadline only. *)
Theorem edit_unchanged (now : Z) (g : Goal) (categories : list string) :
  nonEmpty (id g) = true ->
  nonEmpty (area g) = true ->
  (forall d, deadline g = Some d -> d <> 0 /\ d mod day_ms = 0) ->
  Forall (fun t => nonEmpty (trim (st_text t)) = true) (subTasks g) ->
  match handleSubmit now (GoalForm_init (Some (FullGoal g)) categories) with
  | OnUpdate i updatedData =>
      i = id g
      /\ withLastInteractionAt now (spread g updatedData) = withLastInteractionAt now g
  | OnAdd _ => False
  end.
Proof.
  intros Hid Harea Hdl Hsteps. unfold handleSubmit, GoalForm_init.
  cbn [f_initialData f_title f_description f_level f_priority f_area f_deadline
       f_cost f_pinned f_subTasks].
  rewrite Hid. split; [done|].
  unfold spread, withLastInteractionAt, orElse. rewrite Harea.
  cbn -[Z.div Z.mul day_ms]. rewrite (filter_all _ _ Hsteps).
  assert (Hd : (if truthy (deadline g)
                then Some (default 0 (deadline g) / day_ms * day_ms) else None)
               = deadline g).
  { destruct (deadline g) as [d|] eqn:E; [|done].
    destruct (Hdl d eq_refl) as [Hd0 Hmod]. simpl.
    destruct (Z.eqb_spec d 0); [done|]. simpl. f_equal.
    unfold day_ms in *. Z.div_mod_to_equations. lia. }
  by rewrite Hd.
Qed.

Lemma edit_unchanged_witness :
  match handleSubmit 5000 (GoalForm_init (Some (FullGoal urgentGoal)) []) with
  | OnUpdate i updatedData =>
      i = id urgentGoal
      /\ withLastInteractionAt 5000 (spread urgentGoal updatedData)
         = withLastInteractionAt 5000 urgentGoal
  | OnAdd _ => False
  end.
Proof.
  apply (edit_unchanged 5000 urgentGoal []); try reflexivity.
  - intros d [=].
  - constructor.
Defined.

(** ** A progress step and the percentage *)

Lemma sum_le (f1 f2 : SubTask -> Z) (l1 l2 : list SubTask) :
  Forall2 (fun t1 t2 => f1 t1 <= f2 t2) l1 l2 ->
  ProgressSpec.sum f1 l1 <= ProgressSpec.sum f2 l2.
Proof. induction 1; simpl; lia. Qed.

Lemma sum_eq (f : SubTask -> Z) (l1 l2 : list SubTask) :
  Forall2 (fun t1 t2 => f t1 = f t2) l1 l2 ->
  ProgressSpec.sum f l1 = ProgressSpec.sum f l2.
Proof. induction 1; simpl; lia. Qed.

Lemma filter_map_Forall2 (h : SubTask -> SubTask) (R : SubTask -> SubTask -> Prop)
    (l : list SubTask) :
  (forall t, deleted (h t) = deleted t) ->
  (forall t, t ∈ l -> R t (h t)) ->
  Forall2 R (List.filter (fun t => negb (deleted t)) l)
            (List.filter (fun t => negb (deleted t)) (map h l)).
Proof.
  intros Hdel. induction l as [|t l IH]; intros HR; simpl; [constructor|].
  rewrite Hdel. destruct (deleted t); simpl.
  - apply IH. intros; apply HR; by right.
  - constructor; [apply HR; left|]. apply IH. intros; apply HR; by right.
Qed.

(** X26. A progress step forward (a delta that is not negative) on steps
    that are within their target never lowers the percentage of any goal of
    the collection, whenever it is looked at. *)
Theorem step_forward_never_lowers (stamp now : Z) (goalId subTaskId : string)
    (delta : Z) (prev : list Goal) (k : nat) (g : Goal) :
  0 <= delta ->
  prev !! k = Some g ->
  (forall t, t ∈ subTasks g -> currentProgress t <= Z.max 1 (targetProgress t)) ->
  exists g', handleSubTaskProgress stamp goalId subTaskId delta prev !! k = Some g'
             /\ progressPct now g <= progressPct now g'.
Proof.
  intros Hdelta Hk Hwithin. unfold handleSubTaskProgress.
  change (@map Goal Goal) with (@fmap list _ Goal Goal).
  rewrite list_lookup_fmap, Hk. simpl.
  destruct (String.eqb (id g) goalId); [|by exists g].
  eexists. split; [reflexivity|].
  set (h := fun t => if String.eqb (st_id t) subTaskId
                     then subTaskProgress delta t else t).
  assert (Hdel : forall t, deleted (h t) = deleted t).
  { intros t. unfold h. by destruct (String.eqb (st_id t) subTaskId). }
  apply progressPct_le; try reflexivity.
  - rewrite !totalTarget_sum. unfold ProgressSpec.nonDeleted. cbn [subTasks withSubTasks
      withLastInteractionAt].
    apply sum_eq, filter_map_Forall2; [done|].
    intros t _. unfold h. by destruct (String.eqb (st_id t) subTaskId).
  - rewrite !totalCurrent_sum. unfold ProgressSpec.nonDeleted. cbn [subTasks withSubTasks
      withLastInteractionAt].
    apply sum_le, filter_map_Forall2; [done|].
    intros t Ht. unfold h. destruct (String.eqb (st_id t) subTaskId); [|done].
    unfold subTaskProgress. simpl. rewrite orZero_id.
    specialize (Hwithin t Ht). lia.
Qed.

(** One check-in more on the step of the worked example. *)
Lemma step_forward_never_lowers_witness :
  exists g',
    handleSubTaskProgress 9000 "g1" "s1" 1 [exampleGoal scanTime] !! 0%nat = Some g'
    /\ progressPct (scanTime + day_ms) (exampleGoal scanTime)
       <= progressPct (scanTime + day_ms) g'.
Proof.
  apply (step_forward_never_lowers 9000 (scanTime + day_ms) "g1" "s1" 1
           [exampleGoal scanTime] 0 (exampleGoal scanTime)).
  - lia.
  - reflexivity.
  - intros t Ht. apply list_elem_of_In in Ht. simpl in Ht.
    destruct Ht as [<-|[]]. simpl. lia.
Defined.

(** ** The header of an area *)

(** X27. In the header of an area the goals in progress are among those not
    completed, the completed and the not completed add up to the bucket, and
    the share in progress lies between 0 and 100. *)
Theorem areaHeader_counts (areaGoals : list Goal) :
  let h := areaHeader areaGoals in
  Z.of_nat (inProgressCount h) <= activeCountTotal h
  /\ Z.of_nat (completedCount h) + activeCountTotal h = Z.of_nat (length areaGoals)
  /\ (0 <= inProgressPct h /\ inProgressPct h <= 100)%Q.
Proof.
  intros h. unfold h, areaHeader.
  cbn [inProgressCount activeCountTotal completedCount inProgressPct]. clear h.
  set (p := fun g => negb (completed g) && existsb touched (subTasks g)).
  assert (Hsum : (length (List.filter p areaGoals)
                  + length (List.filter completed areaGoals) <= length areaGoals)%nat).
  { induction areaGoals as [|g gs IH]; simpl; [done|].
    unfold p at 1. destruct (completed g); simpl; [lia|].
    destruct (existsb touched (subTasks g)); simpl; lia. }
  split; [lia|]. split; [lia|].
  destruct (Nat.ltb_spec 0 (length areaGoals)) as [Hpos|_]; [|done].
  split.
  - apply Qmult_le_0_compat; [|discriminate]. apply ratio_nonneg; lia.
  - apply Qle_trans with (1 * 100)%Q; [|discriminate].
    apply Qmult_le_compat_r; [|discriminate].
    apply Qle_shift_div_r; [apply inject_Z_pos; lia|].
    rewrite Qmult_1_l, <- Zle_Qle. lia.
Qed.

(** ** Expanded areas *)

#[local] Set Warnings "-clear-no-such-hyp".

(** X28. Toggling an area twice leaves the set of expanded areas as it was,
    a toggle changes the state of no other area, and after "expand all"
    exactly the areas of the order are expanded. *)
Theorem toggleArea_twice (a : string) (expanded : gset string) :
  toggleArea a (toggleArea a expanded) = expanded
  /\ (forall b, b <> a -> (b ∈ toggleArea a expanded <-> b ∈ expanded))
  /\ (a ∈ toggleArea a expanded <-> a ∉ expanded)
  /\ (forall areas b, b ∈ expandAllCategories areas <-> b ∈ areas).
Proof.
  unfold toggleArea, expandAllCategories. split; [|split; [|split]].
  - destruct (decide (a ∈ expanded)) as [Hin|Hnin].
    + rewrite decide_False by set_solver. apply set_eq. intros x.
      destruct (decide (x = a)) as [->|?]; set_solver.
    + rewrite decide_True by set_solver. set_solver.
  - intros b Hb. destruct (decide (a ∈ expanded)); set_solver.
  - destruct (decide (a ∈ expanded)); set_solver.
  - intros areas b. apply elem_of_list_to_set.
Qed.
